(** * TraderCopilot: the quantitative decision pipeline

    A shallow embedding of the rule engine ([StrategyExecutor]), the
    probability engine ([BayesianProbability], [MonteCarloSimulator]), the
    multi-factor scorer ([SignalScorer]) and the per-candidate orchestrator
    ([SignalPipeline]) of [backend/app/core], followed by the properties the
    specification states about them. The quality filter, the distributor,
    the trigger, the parser and the backtesting engine of the same package
    are embedded after them, with further properties of the code.

    Conventions of the embedding.
    - A Python [float] or [int] is an exact rational ([Q]); comparisons are the
      exact ones, and the rounding error of binary arithmetic is not modelled.
      Results are compared with [==] ([Qeq]). A statement that gives the
      value of a floating-point product, quotient or sum gives it up to a
      margin ([Rounding]) and for inputs of ordinary size, which neither
      overflow nor underflow.
    - A dictionary with a fixed set of differently typed keys is a record
      whose optional fields are the keys that [dict.get] may miss; a
      dictionary used as a table is a [gmap string _].
    - [datetime.utcnow()] and [numpy.random.random()] are inputs: a clock
      record and a stream of draws threaded through the simulation.
    - An exception is a [Raise] result of the small error type [Exc]; a
      [try] block whose operations cannot raise on numbers is written
      without it.
    - [Qred] puts a fraction in lowest terms and leaves its value unchanged;
      it keeps the simulated capitals small enough to evaluate. *)

From Stdlib Require Import QArith Qabs Qround Qminmax Qpower Lqa ZArith Lia List.
From stdpp Require Import gmap strings pretty.

Local Open Scope Q_scope.

(** ** Python numbers *)

Module Py.

Definition Qlt_bool (x y : Q) : bool := negb (Qle_bool y x).

(** [min(a, b)] and [max(a, b)] of the Python builtins: the first argument
    wins a tie. *)
Definition min (a b : Q) : Q := if Qlt_bool b a then b else a.
Definition max (a b : Q) : Q := if Qlt_bool a b then b else a.

Definition abs (x : Q) : Q := Qabs x.

(** Nearest integer, ties to the even one. *)
Definition round_half_even (x : Q) : Z :=
  let f := Qfloor x in
  match Qcompare (x - inject_Z f) (1 # 2) with
  | Lt => f
  | Gt => (f + 1)%Z
  | Eq => if Z.even f then f else (f + 1)%Z
  end.

Definition pow10 (ndigits : nat) : Q := inject_Z (10 ^ Z.of_nat ndigits).

(** [round(x, ndigits)]. *)
Definition round (x : Q) (ndigits : nat) : Q :=
  Qred (inject_Z (round_half_even (x * pow10 ndigits)) / pow10 ndigits).

(** Outcome of a call that may raise. *)
Inductive Exc (A : Type) : Type :=
| Return (a : A)
| Raise (what : string).
Arguments Return {A} a.
Arguments Raise {A} what.

Definition bind {A B : Type} (m : Exc A) (k : A -> Exc B) : Exc B :=
  match m with
  | Return a => k a
  | Raise e => Raise e
  end.

(** [d[key]]: a missing key raises [KeyError]. *)
Definition getitem {V : Type} (d : gmap string V) (key : string) : Exc V :=
  match d !! key with
  | Some v => Return v
  | None => Raise "KeyError"
  end.

(** [try: body except Exception: fallback]. *)
Definition try_except {A : Type} (body : Exc A) (fallback : A) : A :=
  match body with
  | Return a => a
  | Raise _ => fallback
  end.

(** [a / b] on floats: a zero divisor raises. *)
Definition truediv (a b : Q) : Exc Q :=
  if Qeq_bool b 0 then Raise "ZeroDivisionError" else Return (a / b).

(** [needle in haystack] on strings. *)
Definition contains (needle haystack : string) : bool :=
  match String.index 0 needle haystack with
  | Some _ => true
  | None => false
  end.

(** [o == s] where [o] is the result of a [dict.get] that yields [None] for a
    missing key. *)
Definition eq_str (o : option string) (s : string) : bool :=
  match o with
  | Some t => String.eqb t s
  | None => false
  end.

End Py.

#[global] Instance Exc_ret : MRet Py.Exc := @Py.Return.
#[global] Instance Exc_bind : MBind Py.Exc := fun A B k m => Py.bind m k.

(** ** Settings ([app/config.py]) *)

Record Settings := {
  MIN_SIGNAL_SCORE : Q;
  MIN_PROBABILITY : Q;
  SIGNAL_EXPIRY_HOURS : Z;
  MIN_BACKTEST_TRADES : Z;
  MIN_WIN_RATE : Q;
  MIN_SHARPE_RATIO : Q;
  MAX_DRAWDOWN : Q;
  MIN_PROFIT_FACTOR : Q;
  MONTE_CARLO_SIMULATIONS : N
}.

(** The defaults of the [Settings] class. *)
Definition settings : Settings := {|
  MIN_SIGNAL_SCORE := 7;
  MIN_PROBABILITY := 60;
  SIGNAL_EXPIRY_HOURS := 24;
  MIN_BACKTEST_TRADES := 100;
  MIN_WIN_RATE := 55;
  MIN_SHARPE_RATIO := 1.5;
  MAX_DRAWDOWN := 20;
  MIN_PROFIT_FACTOR := 1.8;
  MONTE_CARLO_SIMULATIONS := 10000
|}.

(** ** The clock *)

Record Clock := {
  utc_hour : Z;        (* datetime.utcnow().hour *)
  utc_iso : string;    (* datetime.utcnow().isoformat() *)
  utc_seconds : Z      (* datetime.utcnow(), in seconds *)
}.

(** ** StrategyExecutor ([app/core/strategies/executor.py]) *)

Module StrategyExecutor.

Record Parameters := {
  threshold : option Q;
  period : option N
}.

Record Rule := {
  type : option string;
  condition : option string;
  parameters : option Parameters
}.

Record RiskManagement := {
  stop_loss_pips : option Q;
  take_profit_pips : option Q
}.

Record Config := {
  rules : option (list Rule);
  risk_management : option RiskManagement
}.

Record Strategy := {
  id : option string;
  is_active : option bool;
  config : option Config
}.

Record MarketData := {
  symbol : option string;
  close : option Q;
  indicators : option (gmap string Q)
}.

Record Signal := {
  sig_strategy_id : option string;
  sig_symbol : string;
  sig_direction : string;
  sig_entry_price : Q;
  sig_stop_loss : Q;
  sig_take_profit : Q;
  sig_status : string;
  sig_created_at : string
}.

Definition no_parameters : Parameters := {| threshold := None; period := None |}.
Definition no_risk_management : RiskManagement :=
  {| stop_loss_pips := None; take_profit_pips := None |}.
Definition no_config : Config := {| rules := None; risk_management := None |}.

(** [data.get('indicators', {})] *)
Definition get_indicators (data : MarketData) : gmap string Q :=
  default ∅ (indicators data).

Definition _check_rsi (data : MarketData) (params : Parameters) (mode : string) : bool :=
  match get_indicators data !! "rsi" with
  | None => false
  | Some rsi =>
      let threshold :=
        default (if String.eqb mode "oversold" then 30 else 70) (threshold params) in
      if String.eqb mode "oversold"
      then Py.Qlt_bool rsi threshold
      else Py.Qlt_bool threshold rsi
  end.

Definition _check_above_ema (data : MarketData) (params : Parameters) : bool :=
  let price := close data in
  let ema := get_indicators data !! ("ema_" +:+ pretty (default 200%N (period params))) in
  match price, ema with
  | Some price, Some ema => Py.Qlt_bool ema price
  | _, _ => false
  end.

Definition _check_liquidity_sweep (data : MarketData) (params : Parameters) : bool :=
  true.

Definition _check_order_block (data : MarketData) (params : Parameters) : bool :=
  true.

Definition sessions : gmap string (Z * Z) :=
  {[ "london" := (7, 16)%Z; "new_york" := (13, 22)%Z; "asia" := (0, 9)%Z ]}.

Definition _check_session (now : Clock) (data : MarketData)
    (session_name : option string) : bool :=
  let current_hour := utc_hour now in
  match session_name ≫= (fun name => sessions !! name) with
  | None => true
  | Some (start, end_) => (start <=? current_hour)%Z && (current_hour <? end_)%Z
  end.

Definition _evaluate_single_rule (now : Clock) (rule : Rule) (market_data : MarketData)
    : bool :=
  let rule_type := type rule in
  let condition := condition rule in
  let params := default no_parameters (parameters rule) in
  if Py.eq_str rule_type "price_action" then
    if Py.eq_str condition "liquidity_sweep" then
      _check_liquidity_sweep market_data params
    else if Py.eq_str condition "order_block" then
      _check_order_block market_data params
    else false
  else if Py.eq_str rule_type "technical" then
    if Py.eq_str condition "rsi_oversold" then
      _check_rsi market_data params "oversold"
    else if Py.eq_str condition "rsi_overbought" then
      _check_rsi market_data params "overbought"
    else if Py.eq_str condition "above_ema" then
      _check_above_ema market_data params
    else false
  else if Py.eq_str rule_type "session" then
    _check_session now market_data condition
  else false.

(** The [for] loop of [_evaluate_rules]: it returns at the first rule that
    fails. *)
Fixpoint _evaluate_rules_loop (now : Clock) (rules : list Rule) (market_data : MarketData)
    : bool :=
  match rules with
  | [] => true
  | rule :: rest =>
      if negb (_evaluate_single_rule now rule market_data) then false
      else _evaluate_rules_loop now rest market_data
  end.

Definition _evaluate_rules (now : Clock) (rules : list Rule) (market_data : MarketData)
    : bool :=
  match rules with
  | [] => false
  | _ => _evaluate_rules_loop now rules market_data
  end.

Definition _generate_signal (now : Clock) (strategy : Strategy) (market_data : MarketData)
    : Signal :=
  let symbol := default "UNKNOWN"%string (symbol market_data) in
  let price := default 0 (close market_data) in
  let risk_config :=
    default no_risk_management (risk_management (default no_config (config strategy))) in
  let sl_pips := default 20 (stop_loss_pips risk_config) in
  let tp_pips := default 40 (take_profit_pips risk_config) in
  let direction := "BUY"%string in
  let pip_value := if negb (Py.contains "JPY" symbol) then 0.0001 else 0.01 in
  let '(stop_loss, take_profit) :=
    if String.eqb direction "BUY"
    then (price - sl_pips * pip_value, price + tp_pips * pip_value)
    else (price + sl_pips * pip_value, price - tp_pips * pip_value) in
  {| sig_strategy_id := id strategy;
     sig_symbol := symbol;
     sig_direction := direction;
     sig_entry_price := price;
     sig_stop_loss := Py.round stop_loss 5;
     sig_take_profit := Py.round take_profit 5;
     sig_status := "active";
     sig_created_at := utc_iso now |}.

Definition execute (now : Clock) (strategy : Strategy) (market_data : MarketData)
    : option Signal :=
  if negb (default true (is_active strategy)) then None
  else
    let config := default no_config (config strategy) in
    let rules := default [] (rules config) in
    if negb (_evaluate_rules now rules market_data) then None
    else Some (_generate_signal now strategy market_data).

End StrategyExecutor.

(** ** BayesianProbability ([app/core/probability/bayesian.py]) *)

Module BayesianProbability.

(** [historical_performance]: the ["<regime>_<outcome>_rate"] entries are
    numbers, the ["optimal_volatility"] entry is a label. *)
Record HistoricalPerformance := {
  rates : gmap string Q;
  optimal_volatility : option string
}.

(** [current_conditions] holds labels under ["regime"] and ["volatility"]. *)
Definition _calculate_likelihood (current_conditions : gmap string string)
    (historical_performance : HistoricalPerformance) (outcome : string) : Q :=
  let regime := default "unknown"%string (current_conditions !! "regime") in
  let regime_stats :=
    default 0.5 (rates historical_performance !! (regime +:+ "_" +:+ outcome +:+ "_rate")) in
  let likelihood := regime_stats in
  let volatility := default "normal"%string (current_conditions !! "volatility") in
  let optimal_volatility :=
    default "normal"%string (optimal_volatility historical_performance) in
  let likelihood :=
    if String.eqb volatility optimal_volatility
    then likelihood * 1.2
    else likelihood * 0.8 in
  Py.max 0.1 (Py.min 0.9 likelihood).

(** The body of the [try] block; the division by [p_conditions] is the one
    operation that can raise. *)
Definition posterior_body (prior_win_rate : Q) (current_conditions : gmap string string)
    (historical_performance : HistoricalPerformance) : Py.Exc Q :=
  let p_success := prior_win_rate / 100 in
  let p_conditions_given_success :=
    _calculate_likelihood current_conditions historical_performance "success" in
  let p_conditions_given_failure :=
    _calculate_likelihood current_conditions historical_performance "failure" in
  let p_conditions :=
    p_conditions_given_success * p_success
    + p_conditions_given_failure * (1 - p_success) in
  if Qeq_bool p_conditions 0 then Py.Return prior_win_rate
  else
    p_success_given_conditions ←
      Py.truediv (p_conditions_given_success * p_success) p_conditions;
    let posterior := p_success_given_conditions * 100 in
    Py.Return (Py.max 0 (Py.min 100 posterior)).

Definition calculate_posterior_probability (prior_win_rate : Q)
    (current_conditions : gmap string string)
    (historical_performance : HistoricalPerformance) : Q :=
  Py.try_except
    (posterior_body prior_win_rate current_conditions historical_performance)
    prior_win_rate.

End BayesianProbability.

(** ** MonteCarloSimulator ([app/core/probability/monte_carlo.py]) *)

Module MonteCarloSimulator.

Record t := { n_simulations : N }.

(** [n_simulations or settings.MONTE_CARLO_SIMULATIONS] *)
Definition __init__ (cfg : Settings) (n_simulations : option N) : t :=
  {| n_simulations :=
       match n_simulations with
       | Some n => if (n =? 0)%N then MONTE_CARLO_SIMULATIONS cfg else n
       | None => MONTE_CARLO_SIMULATIONS cfg
       end |}.

(** The fields of the result that are rational functions of the simulated
    capitals (the percentiles and the standard deviation are left out). *)
Record Result := {
  probability_of_profit : Q;
  expected_final_capital : Q;
  risk_of_ruin : Q
}.

Section Simulation.

(** [draws k] is the value of the [k]-th call of [np.random.random()]. *)
Variable draws : nat -> Q.

(** The inner loop: one sequence of at most [n_trades] trades, from draw
    number [pos]; it returns the final capital and the next draw number.
    A capital that falls to zero or below ends the sequence at zero. *)
Fixpoint run_trades (p_win avg_win avg_loss : Q) (n_trades : nat) (capital : Q)
    (pos : nat) : Q * nat :=
  match n_trades with
  | O => (capital, pos)
  | S n =>
      let profit :=
        if Py.Qlt_bool (draws pos) p_win
        then capital * (avg_win / 100)
        else capital * (avg_loss / 100) in
      let capital := Qred (capital + profit) in
      if Qle_bool capital 0 then (0, S pos)
      else run_trades p_win avg_win avg_loss n capital (S pos)
  end.

(** The outer loop: [final_capitals] in the order of the appends. *)
Fixpoint run_simulations (p_win avg_win avg_loss : Q) (n_trades : nat)
    (initial_capital : Q) (n_sims : nat) (pos : nat) : list Q * nat :=
  match n_sims with
  | O => ([], pos)
  | S n =>
      let '(capital, pos) :=
        run_trades p_win avg_win avg_loss n_trades initial_capital pos in
      let '(final_capitals, pos) :=
        run_simulations p_win avg_win avg_loss n_trades initial_capital n pos in
      (capital :: final_capitals, pos)
  end.

(** [np.sum(mask)] *)
Definition count (mask : Q -> bool) (xs : list Q) : Q :=
  inject_Z (Z.of_nat (length (List.filter mask xs))).

Definition mean (xs : list Q) : Q :=
  Qred (fold_right Qplus 0 xs / inject_Z (Z.of_nat (length xs))).

(** With no simulation at all the source divides zero by zero, a NaN that
    the rationals do not have: the statements about the result assume at
    least one simulation. *)
Definition simulate_strategy_performance (self : t) (win_rate avg_win avg_loss : Q)
    (n_trades : nat) (initial_capital : Q) : Result :=
  let p_win := win_rate / 100 in
  let final_capitals :=
    fst (run_simulations p_win avg_win avg_loss n_trades initial_capital
           (N.to_nat (n_simulations self)) 0) in
  let prob_profit :=
    count (fun c => Py.Qlt_bool initial_capital c) final_capitals
    / inject_Z (Z.of_N (n_simulations self)) * 100 in
  let risk_of_ruin :=
    count (fun c => Qle_bool c (initial_capital * 0.5)) final_capitals
    / inject_Z (Z.of_N (n_simulations self)) * 100 in
  {| probability_of_profit := Py.round prob_profit 2;
     expected_final_capital := Py.round (mean final_capitals) 2;
     risk_of_ruin := Py.round risk_of_ruin 2 |}.

End Simulation.

End MonteCarloSimulator.

(** ** SignalScorer ([app/core/scoring/signal_scorer.py]) *)

Module SignalScorer.

Definition WEIGHTS : gmap string Q :=
  {[ "probability_score" := 0.35;
     "backtest_performance" := 0.25;
     "market_regime_match" := 0.20;
     "risk_reward_ratio" := 0.15;
     "volatility_match" := 0.05 ]}.

Record t := { weights : gmap string Q }.

(** [sum(weights.values())] *)
Definition sum_values (weights : gmap string Q) : Q :=
  map_fold (fun _ v acc => acc + v) 0 weights.

(** [bool(weights)] for a dictionary: an empty one is falsy. *)
Definition truthy (weights : gmap string Q) : bool :=
  negb (bool_decide (weights = ∅)).

Definition __init__ (weights : option (gmap string Q)) : Py.Exc t :=
  match weights with
  | Some w =>
      if truthy w then
        let total := sum_values w in
        if Py.Qlt_bool 0.01 (Py.abs (total - 1))
        then Py.Raise "ValueError"
        else Py.Return {| weights := w |}
      else Py.Return {| weights := WEIGHTS |}
  | None => Py.Return {| weights := WEIGHTS |}
  end.

(** The four factor functions wrap their bodies in [try ... except] with the
    fallback 5.0; on a table of numbers nothing in them raises. *)
Definition _calculate_performance_factor (metrics : gmap string Q) : Q :=
  let win_rate := default 50 (metrics !! "win_rate") in
  let sharpe := default 0 (metrics !! "sharpe_ratio") in
  let win_component := (win_rate / 100) * 10 in
  let sharpe_component := Py.min (sharpe / 3) 1 * 10 in
  let performance := (win_component + sharpe_component) / 2 in
  Py.max 0 (Py.min 10 performance).

Definition _calculate_regime_factor (current_regime : string)
    (regime_performance : gmap string Q) : Q :=
  let regime_win_rate := default 50 (regime_performance !! current_regime) in
  let factor := (regime_win_rate / 100) * 10 in
  Py.max 0 (Py.min 10 factor).

Definition _calculate_risk_reward_factor (rr_ratio : Q) : Q :=
  if Qle_bool 3 rr_ratio then 10
  else if Qle_bool 2 rr_ratio then 7 + ((rr_ratio - 2) * 3)
  else if Qle_bool 1 rr_ratio then 3 + ((rr_ratio - 1) * 4)
  else Py.max 0 (rr_ratio * 3).

Definition volatility_scale : gmap string Z :=
  {[ "very_low" := 1%Z; "low" := 2%Z; "normal" := 3%Z; "high" := 4%Z;
     "very_high" := 5%Z ]}.

Definition _calculate_volatility_factor (current optimal : string) : Q :=
  let current_level := default 3%Z (volatility_scale !! current) in
  let optimal_level := default 3%Z (volatility_scale !! optimal) in
  let difference := Z.abs (current_level - optimal_level) in
  if (difference =? 0)%Z then 10
  else if (difference =? 1)%Z then 7
  else if (difference =? 2)%Z then 5
  else 3.

(** The weighted sum of the [try] block; a weight missing from a custom map
    raises [KeyError]. *)
Definition weighted_sum (self : t) (prob_factor perf_factor regime_factor rr_factor
    vol_factor : Q) : Py.Exc Q :=
  w_prob ← Py.getitem (weights self) "probability_score";
  w_perf ← Py.getitem (weights self) "backtest_performance";
  w_regime ← Py.getitem (weights self) "market_regime_match";
  w_rr ← Py.getitem (weights self) "risk_reward_ratio";
  w_vol ← Py.getitem (weights self) "volatility_match";
  Py.Return (prob_factor * w_prob + perf_factor * w_perf + regime_factor * w_regime
             + rr_factor * w_rr + vol_factor * w_vol).

Definition calculate_signal_score (self : t) (probability_score : Q)
    (backtest_metrics : gmap string Q) (market_regime : string)
    (strategy_regime_performance : gmap string Q) (risk_reward_ratio : Q)
    (current_volatility optimal_volatility : string) : Q :=
  Py.try_except
    (let prob_factor := (probability_score / 100) * 10 in
     let perf_factor := _calculate_performance_factor backtest_metrics in
     let regime_factor :=
       _calculate_regime_factor market_regime strategy_regime_performance in
     let rr_factor := _calculate_risk_reward_factor risk_reward_ratio in
     let vol_factor :=
       _calculate_volatility_factor current_volatility optimal_volatility in
     score ← weighted_sum self prob_factor perf_factor regime_factor rr_factor vol_factor;
     let final_score := score in
     let final_score := Py.max 0 (Py.min 10 final_score) in
     Py.Return (Py.round final_score 1))
    5.

(** [signal_scorer = SignalScorer()] *)
Definition signal_scorer : t := {| weights := WEIGHTS |}.

End SignalScorer.

(** ** SignalPipeline ([app/core/signals/pipeline.py]) *)

Module SignalPipeline.

(** A row of [strategies]. *)
Record Strategy := { name : string }.

(** A row of [backtest_results]; [expectancy] may be NULL, and then
    [float(backtest_result.expectancy)] raises in the context builder. *)
Record BacktestResult := {
  total_trades : Z;
  win_rate : Q;
  sharpe_ratio : Q;
  max_drawdown : Q;
  profit_factor : Q;
  expectancy : option Q
}.

(** The answer of the enrichment collaborator. *)
Record GeminiAnalysis := {
  confidence_level : string;
  risk_rating : string;
  trade_explanation : string;
  position_sizing : Q
}.

(** [context_builder.format_signal_candidate(...)] *)
Record SignalCandidate := {
  cand_symbol : string;
  cand_direction : string;
  cand_entry : Q;
  cand_stop_loss : Q;
  cand_take_profit : Q;
  cand_probability_score : Q;
  cand_signal_score : Q;
  cand_risk_reward : Q
}.

(** The two parts of [context_builder.build_signal_context(...)] that the
    enrichment call receives ([relevant_knowledge] is always empty). *)
Record StrategyStats := {
  stats_name : string;
  stats_win_rate : Q;
  stats_sharpe : Q;
  stats_total_trades : Z;
  stats_expectancy : Q;
  stats_profit_factor : Q
}.

Record MarketConditions := {
  cond_regime : string;
  cond_volatility : string;
  cond_session : string
}.

Record Context := {
  strategy_stats : StrategyStats;
  market_conditions : MarketConditions
}.

(** [signal_data], which is also the content of the [Signal] row. *)
Record Signal := {
  strategy_id : string;
  symbol : string;
  direction : string;
  entry_price : Q;
  stop_loss : Q;
  take_profit : Q;
  probability_score : Q;
  signal_score : Q;
  sig_confidence_level : string;
  sig_risk_rating : string;
  sig_trade_explanation : string;
  sig_position_sizing : Q;
  gemini_context : GeminiAnalysis;
  status : string;
  expires_at : Z
}.

(** The database session: the rows the pipeline reads, the [Signal] objects
    handed to it with [db.add], the committed [signals] table, and whether
    [db.commit()] and [db.refresh()] succeed. *)
Record Session := {
  strategies : gmap string Strategy;
  latest_backtest : gmap string BacktestResult;
  added : list Signal;
  signals : list Signal;
  commit_ok : bool;
  refresh_ok : bool
}.

(** The collaborators of one invocation. *)
Record World := {
  cfg : Settings;
  now : Clock;
  draws : nat -> Q;
  analyze_signal_context :
    SignalCandidate -> StrategyStats -> MarketConditions -> GeminiAnalysis
}.

Definition _get_strategy (db : Session) (strategy_id : string) : option Strategy :=
  strategies db !! strategy_id.

Definition _get_latest_backtest (db : Session) (strategy_id : string)
    : option BacktestResult :=
  latest_backtest db !! strategy_id.

Definition _validate_backtest (cfg : Settings) (backtest : BacktestResult) : bool :=
  if (total_trades backtest <? MIN_BACKTEST_TRADES cfg)%Z then false
  else if Py.Qlt_bool (win_rate backtest) (MIN_WIN_RATE cfg) then false
  else if Py.Qlt_bool (sharpe_ratio backtest) (MIN_SHARPE_RATIO cfg) then false
  else if Py.Qlt_bool (MAX_DRAWDOWN cfg) (max_drawdown backtest) then false
  else true.

(** [market_data or {}]: the labels of the market data, none when it is
    [None]. *)
Definition or_empty (market_data : option (gmap string string)) : gmap string string :=
  default ∅ market_data.

(** The placeholder table of [_calculate_probability]. *)
Definition historical_performance : BayesianProbability.HistoricalPerformance :=
  {| BayesianProbability.rates :=
       {[ "trending_success_rate" := 0.7; "ranging_success_rate" := 0.5 ]};
     BayesianProbability.optimal_volatility := Some "normal"%string |}.

(** [monte_carlo_engine = MonteCarloSimulator()] *)
Definition monte_carlo_engine (cfg : Settings) : MonteCarloSimulator.t :=
  MonteCarloSimulator.__init__ cfg None.

Definition _calculate_probability (w : World) (backtest : BacktestResult)
    (market_data : option (gmap string string)) : Q :=
  let prior_win_rate := win_rate backtest in
  let current_conditions := or_empty market_data in
  let bayesian_prob :=
    BayesianProbability.calculate_posterior_probability
      prior_win_rate current_conditions historical_performance in
  let monte_carlo_result :=
    MonteCarloSimulator.simulate_strategy_performance (draws w)
      (monte_carlo_engine (cfg w)) (win_rate backtest) 5 (-2) 100 10000 in
  let mc_prob := MonteCarloSimulator.probability_of_profit monte_carlo_result in
  let final_probability := (bayesian_prob * 0.6) + (mc_prob * 0.4) in
  Py.round final_probability 2.

Definition regime_performance : gmap string Q :=
  {[ "trending" := 65; "ranging" := 55; "unknown" := 50 ]}.

Definition _calculate_signal_score (probability : Q) (backtest : BacktestResult)
    (market_data : option (gmap string string)) (risk_reward : Q) : Q :=
  let backtest_metrics : gmap string Q :=
    {[ "win_rate" := win_rate backtest;
       "sharpe_ratio" := sharpe_ratio backtest;
       "profit_factor" := profit_factor backtest ]} in
  let market_regime :=
    match market_data with
    | Some md =>
        if bool_decide (md = ∅) then "unknown"%string
        else default "unknown"%string (md !! "regime")
    | None => "unknown"%string
    end in
  SignalScorer.calculate_signal_score SignalScorer.signal_scorer probability
    backtest_metrics market_regime regime_performance risk_reward "normal" "normal".

Definition risk_reward_of (entry_price stop_loss take_profit : Q) : Q :=
  if negb (Qeq_bool entry_price stop_loss)
  then Py.abs ((take_profit - entry_price) / (entry_price - stop_loss))
  else 0.

Definition format_signal_candidate (symbol direction : string)
    (entry stop_loss take_profit probability_score signal_score : Q) : SignalCandidate :=
  {| cand_symbol := symbol;
     cand_direction := direction;
     cand_entry := entry;
     cand_stop_loss := stop_loss;
     cand_take_profit := take_profit;
     cand_probability_score := probability_score;
     cand_signal_score := signal_score;
     cand_risk_reward := risk_reward_of entry stop_loss take_profit |}.

Definition _get_current_session (now : Clock) : string :=
  let hour := utc_hour now in
  if (0 <=? hour)%Z && (hour <? 9)%Z then "tokyo"
  else if (8 <=? hour)%Z && (hour <? 13)%Z then "london"
  else if (13 <=? hour)%Z && (hour <? 22)%Z then "new_york"
  else "after_hours".

Definition _build_market_conditions (now : Clock)
    (market_data : option (gmap string string)) : MarketConditions :=
  let md := or_empty market_data in
  {| cond_regime := default "unknown"%string (md !! "regime");
     cond_volatility := default "normal"%string (md !! "volatility");
     cond_session := _get_current_session now |}.

(** [float(backtest_result.expectancy)] raises on a NULL column. *)
Definition build_signal_context (now : Clock) (strategy : Strategy)
    (backtest : BacktestResult) (market_data : option (gmap string string))
    : Py.Exc Context :=
  match expectancy backtest with
  | None => Py.Raise "TypeError"
  | Some expectancy =>
      Py.Return
        {| strategy_stats :=
             {| stats_name := name strategy;
                stats_win_rate := win_rate backtest;
                stats_sharpe := sharpe_ratio backtest;
                stats_total_trades := total_trades backtest;
                stats_expectancy := expectancy;
                stats_profit_factor := profit_factor backtest |};
           market_conditions := _build_market_conditions now market_data |}
  end.

(** [db.add(signal); await db.commit(); await db.refresh(signal)]: a
    refresh that fails raises after the row has been stored. *)
Definition add_and_commit (db : Session) (signal : Signal) : Py.Exc unit * Session :=
  let db := {| strategies := strategies db; latest_backtest := latest_backtest db;
               added := added db ++ [signal]; signals := signals db;
               commit_ok := commit_ok db; refresh_ok := refresh_ok db |} in
  if commit_ok db
  then
    let db := {| strategies := strategies db; latest_backtest := latest_backtest db;
                 added := added db; signals := signals db ++ [signal];
                 commit_ok := commit_ok db; refresh_ok := refresh_ok db |} in
    if refresh_ok db then (Py.Return tt, db)
    else (Py.Raise "SQLAlchemyError", db)
  else (Py.Raise "SQLAlchemyError", db).

Definition generate_signal (w : World) (db : Session) (strategy_id symbol direction : string)
    (entry_price stop_loss take_profit : Q) (market_data : option (gmap string string))
    : option Signal * Session :=
  match _get_strategy db strategy_id with
  | None => (None, db)
  | Some strategy =>
  match _get_latest_backtest db strategy_id with
  | None => (None, db)
  | Some backtest =>
  if negb (_validate_backtest (cfg w) backtest) then (None, db)
  else
    let probability_score := _calculate_probability w backtest market_data in
    let risk_reward_ratio := risk_reward_of entry_price stop_loss take_profit in
    let signal_score :=
      _calculate_signal_score probability_score backtest market_data risk_reward_ratio in
    if Py.Qlt_bool signal_score (MIN_SIGNAL_SCORE (cfg w)) then (None, db)
    else if Py.Qlt_bool probability_score (MIN_PROBABILITY (cfg w)) then (None, db)
    else
      let signal_candidate :=
        format_signal_candidate symbol direction entry_price stop_loss take_profit
          probability_score signal_score in
      match build_signal_context (now w) strategy backtest market_data with
      | Py.Raise _ => (None, db)
      | Py.Return context =>
          let gemini_analysis :=
            analyze_signal_context w signal_candidate (strategy_stats context)
              (market_conditions context) in
          let signal_data :=
            {| strategy_id := strategy_id;
               symbol := symbol;
               direction := direction;
               entry_price := entry_price;
               stop_loss := stop_loss;
               take_profit := take_profit;
               probability_score := probability_score;
               signal_score := signal_score;
               sig_confidence_level := confidence_level gemini_analysis;
               sig_risk_rating := risk_rating gemini_analysis;
               sig_trade_explanation := trade_explanation gemini_analysis;
               sig_position_sizing := position_sizing gemini_analysis;
               gemini_context := gemini_analysis;
               status := "active";
               expires_at :=
                 (utc_seconds (now w) + 3600 * SIGNAL_EXPIRY_HOURS (cfg w))%Z |} in
          match add_and_commit db signal_data with
          | (Py.Return _, db) => (Some signal_data, db)
          | (Py.Raise _, db) => (None, db)
          end
      end
  end
  end.

End SignalPipeline.

(** ** Vocabulary of the statements *)

Module RuleEngine.
Import StrategyExecutor.

(** [strategy.get('config', {}).get('rules', [])] *)
Definition strategy_rules (strategy : Strategy) : list Rule :=
  default [] (rules (default no_config (config strategy))).

(** [strategy.get('is_active', True)] *)
Definition active (strategy : Strategy) : bool :=
  default true (is_active strategy).

(** The (type, condition) pairs that [_evaluate_single_rule] sends to a
    predicate of their own. *)
Definition dispatched_pairs : list (string * string) :=
  [ ("price_action", "liquidity_sweep"); ("price_action", "order_block");
    ("technical", "rsi_oversold"); ("technical", "rsi_overbought");
    ("technical", "above_ema") ]%string.

Definition pair_eqb (p q : string * string) : bool :=
  String.eqb p.1 q.1 && String.eqb p.2 q.2.

Definition dispatched (t c : string) : bool :=
  existsb (pair_eqb (t, c)) dispatched_pairs.

(** A known pair: one of [dispatched_pairs], or the type [session] with one
    of the session names of the [sessions] table. *)
Definition known_pair (rule : Rule) : bool :=
  match type rule, condition rule with
  | Some t, Some c =>
      dispatched t c
      || (String.eqb t "session" && bool_decide (is_Some (sessions !! c)))
  | _, _ => false
  end.

(** A rule that reaches a predicate: one of [dispatched_pairs], or any rule
    of type [session], whatever its condition. *)
Definition reaches_predicate (rule : Rule) : bool :=
  match type rule with
  | Some t =>
      String.eqb t "session"
      || match condition rule with
         | Some c => dispatched t c
         | None => false
         end
  | None => false
  end.

End RuleEngine.

Module ScorerSpec.

(** The risk/reward factor as the specification words it. *)
Inductive risk_reward_spec : Q -> Q -> Prop :=
| rr_at_least_3 ratio : 3 <= ratio -> risk_reward_spec ratio 10
| rr_from_2_to_3 ratio :
    2 <= ratio -> ratio < 3 -> risk_reward_spec ratio (7 + 3 * (ratio - 2))
| rr_from_1_to_2 ratio :
    1 <= ratio -> ratio < 2 -> risk_reward_spec ratio (3 + 4 * (ratio - 1))
| rr_below_1 ratio : ratio < 1 -> risk_reward_spec ratio (Qmax 0 (3 * ratio)).

(** [total] is 1.0 within the tolerance of the constructor. *)
Definition within_tolerance (total : Q) : Prop := Qabs (total - 1) <= 0.01.

(** The constructor adds and compares binary floating-point numbers, which
    the rationals follow up to a few units in the last place: a sum that is
    off 1.0 by 0.01 itself, as 0.99 is, is decided by that rounding. The two
    sides of the tolerance are therefore stated with a margin of one
    millionth, for weights that are not negative, whose sum does not
    cancel, and that are at most a billion, so that an integer among them
    converts to a float. *)
Definition well_within_tolerance (total : Q) : Prop := Qabs (total - 1) <= 0.009999.
Definition clear_of_tolerance (total : Q) : Prop := 0.010001 <= Qabs (total - 1).
Definition ordinary_weights (weights : gmap string Q) : Prop :=
  map_Forall (fun _ weight => 0 <= weight <= 1000000000) weights.

End ScorerSpec.

Module PipelineSpec.
Import SignalPipeline.

(** The quality score that [generate_signal] computes for a candidate. *)
Definition computed_score (w : World) (backtest : BacktestResult)
    (entry_price stop_loss take_profit : Q) (market_data : option (gmap string string))
    : Q :=
  _calculate_signal_score (_calculate_probability w backtest market_data) backtest
    market_data (risk_reward_of entry_price stop_loss take_profit).

(** The three gates of the pipeline. *)
Definition gates_pass (w : World) (backtest : BacktestResult)
    (entry_price stop_loss take_profit : Q) (market_data : option (gmap string string))
    : Prop :=
  _validate_backtest (cfg w) backtest = true
  /\ MIN_SIGNAL_SCORE (cfg w)
     <= computed_score w backtest entry_price stop_loss take_profit market_data
  /\ MIN_PROBABILITY (cfg w) <= _calculate_probability w backtest market_data.

(** The combination the specification gives. *)
Definition combine (posterior simulated : Q) : Q :=
  Py.round (0.6 * posterior + 0.4 * simulated) 2.

End PipelineSpec.

(** ** Inputs used in the examples *)

Module Examples.

Definition noon : Clock :=
  {| utc_hour := 12; utc_iso := "2024-01-01T12:00:00"; utc_seconds := 1704110400 |}.

(** *** Rule engine *)

Definition empty_tick : StrategyExecutor.MarketData :=
  {| StrategyExecutor.symbol := None; StrategyExecutor.close := None;
     StrategyExecutor.indicators := None |}.

Definition tokyo_rule : StrategyExecutor.Rule :=
  {| StrategyExecutor.type := Some "session"%string;
     StrategyExecutor.condition := Some "tokyo"%string;
     StrategyExecutor.parameters := None |}.

Definition volume_rule : StrategyExecutor.Rule :=
  {| StrategyExecutor.type := Some "volume"%string;
     StrategyExecutor.condition := Some "spike"%string;
     StrategyExecutor.parameters := None |}.

Definition strategy_of (flag : option bool) (rules : list StrategyExecutor.Rule)
    : StrategyExecutor.Strategy :=
  {| StrategyExecutor.id := Some "s1"%string;
     StrategyExecutor.is_active := flag;
     StrategyExecutor.config :=
       Some {| StrategyExecutor.rules := Some rules;
               StrategyExecutor.risk_management := None |} |}.

Definition tokyo_strategy : StrategyExecutor.Strategy :=
  strategy_of (Some true) [tokyo_rule].

Definition inactive_strategy : StrategyExecutor.Strategy :=
  strategy_of (Some false) [tokyo_rule].

(** *** Posterior update: the table of [tests/test_probability.py] *)

Definition test_table : BayesianProbability.HistoricalPerformance :=
  {| BayesianProbability.rates :=
       {[ "trending_success_rate" := 0.7; "ranging_success_rate" := 0.4 ]};
     BayesianProbability.optimal_volatility := Some "normal"%string |}.

Definition trending_normal : gmap string string :=
  {[ "regime" := "trending"; "volatility" := "normal" ]}%string.

Definition ranging_normal : gmap string string :=
  {[ "regime" := "ranging"; "volatility" := "normal" ]}%string.

(** *** Scorer *)

Definition light_weights : gmap string Q := {[ "probability_score" := 0.9 ]}.

(** *** Pipeline: the scenario of [tests/test_integration.py], with three
    simulated sequences and a stream of draws that makes every trade win *)

Definition quick_settings : Settings := {|
  MIN_SIGNAL_SCORE := 7;
  MIN_PROBABILITY := 60;
  SIGNAL_EXPIRY_HOURS := 24;
  MIN_BACKTEST_TRADES := 100;
  MIN_WIN_RATE := 55;
  MIN_SHARPE_RATIO := 1.5;
  MAX_DRAWDOWN := 20;
  MIN_PROFIT_FACTOR := 1.8;
  MONTE_CARLO_SIMULATIONS := 3
|}.

(** [GeminiClient._default_response()] *)
Definition default_response : SignalPipeline.GeminiAnalysis :=
  {| SignalPipeline.confidence_level := "Low";
     SignalPipeline.risk_rating := "High";
     SignalPipeline.trade_explanation :=
       "AI analysis unavailable - manual review required";
     SignalPipeline.position_sizing := 1 |}.

Definition world : SignalPipeline.World :=
  {| SignalPipeline.cfg := quick_settings;
     SignalPipeline.now := noon;
     SignalPipeline.draws := fun _ => 0;
     SignalPipeline.analyze_signal_context := fun _ _ _ => default_response |}.

Definition mock_backtest : SignalPipeline.BacktestResult :=
  {| SignalPipeline.total_trades := 100;
     SignalPipeline.win_rate := 65;
     SignalPipeline.sharpe_ratio := 2;
     SignalPipeline.max_drawdown := 10;
     SignalPipeline.profit_factor := 1.5;
     SignalPipeline.expectancy := Some 0.5 |}.

Definition short_backtest : SignalPipeline.BacktestResult :=
  {| SignalPipeline.total_trades := 99;
     SignalPipeline.win_rate := 65;
     SignalPipeline.sharpe_ratio := 2;
     SignalPipeline.max_drawdown := 10;
     SignalPipeline.profit_factor := 1.5;
     SignalPipeline.expectancy := Some 0.5 |}.


Definition db_with (backtest : SignalPipeline.BacktestResult) : SignalPipeline.Session :=
  {| SignalPipeline.strategies :=
       {[ "test-strat"%string := {| SignalPipeline.name := "Test Strategy" |} ]};
     SignalPipeline.latest_backtest := {[ "test-strat"%string := backtest ]};
     SignalPipeline.added := [];
     SignalPipeline.signals := [];
     SignalPipeline.commit_ok := true;
     SignalPipeline.refresh_ok := true |}.

Definition db : SignalPipeline.Session := db_with mock_backtest.

Definition trending : option (gmap string string) :=
  Some {[ "regime" := "trending" ]}%string.

(** The summary of the end-to-end scenario of the specification. *)
Definition scenario_backtest : SignalPipeline.BacktestResult :=
  {| SignalPipeline.total_trades := 150;
     SignalPipeline.win_rate := 60;
     SignalPipeline.sharpe_ratio := 2;
     SignalPipeline.max_drawdown := 10;
     SignalPipeline.profit_factor := 1.5;
     SignalPipeline.expectancy := Some 0.5 |}.

(** A strong summary, for a run in which every simulated trade loses. *)
Definition strong_backtest : SignalPipeline.BacktestResult :=
  {| SignalPipeline.total_trades := 150;
     SignalPipeline.win_rate := 90;
     SignalPipeline.sharpe_ratio := 3;
     SignalPipeline.max_drawdown := 10;
     SignalPipeline.profit_factor := 2;
     SignalPipeline.expectancy := Some 0.5 |}.

Definition losing_world : SignalPipeline.World :=
  {| SignalPipeline.cfg := quick_settings;
     SignalPipeline.now := noon;
     SignalPipeline.draws := fun _ => 0.95;
     SignalPipeline.analyze_signal_context := fun _ _ _ => default_response |}.

End Examples.

(** ** The rest of the probability engine *)

(** [BayesianProbability.calculate_confidence_interval]
    ([app/core/probability/bayesian.py]). [np.sqrt] maps a float to a
    float; it is an input of the embedding. *)
Module ConfidenceInterval.

Section WithSqrt.

Variable sqrt : Q -> Q.



End WithSqrt.

(** A square root rounded down to three decimals, for the examples. *)
Definition sqrt_3_decimals (x : Q) : Q :=
  inject_Z (Z.sqrt (Qfloor (x * 1000000))) / 1000.

End ConfidenceInterval.

(** [MonteCarloSimulator.simulate_single_trade_outcome]
    ([app/core/probability/monte_carlo.py]); the standard deviation of the
    statistics is left out. *)
Module SingleTrade.


Section Simulation.

Variable draws : nat -> Q.


(** [np.mean(outcomes)] *)
Definition mean (xs : list Q) : Q :=
  fold_right Qplus 0 xs / inject_Z (Z.of_nat (length xs)).


End Simulation.

End SingleTrade.

(** ** Further inputs for the examples *)

Module MoreExamples.

Definition rsi_rule (condition : string) (threshold : option Q) : StrategyExecutor.Rule :=
  {| StrategyExecutor.type := Some "technical"%string;
     StrategyExecutor.condition := Some condition;
     StrategyExecutor.parameters :=
       Some {| StrategyExecutor.threshold := threshold;
               StrategyExecutor.period := None |} |}.

Definition eurusd_tick : StrategyExecutor.MarketData :=
  {| StrategyExecutor.symbol := Some "EURUSD"%string;
     StrategyExecutor.close := Some 1.0852;
     StrategyExecutor.indicators := Some {[ "rsi" := 25 ]} |}.

Definition usdjpy_tick : StrategyExecutor.MarketData :=
  {| StrategyExecutor.symbol := Some "USDJPY"%string;
     StrategyExecutor.close := Some 149.25;
     StrategyExecutor.indicators := None |}.

End MoreExamples.

(** ** JSON values *)

(** What [json.loads] and the database client return. *)
Module Json.

#[warnings="-register-all"] Inductive t : Type :=
| JNull
| JBool (b : bool)
| JNum (q : Q)
| JStr (s : string)
| JArr (items : list t)
| JObj (fields : list (string * t)).

(** [d.get(key)] on a decoded object: the keys of a dictionary are
    distinct, the first entry with the key is the entry. *)
Fixpoint assoc (key : string) (fields : list (string * t)) : option t :=
  match fields with
  | [] => None
  | (k, v) :: rest => if String.eqb k key then Some v else assoc key rest
  end.

(** A number is an integer or a finite float. An integer at or beyond this
    limit, the largest float plus half a unit in its last place, does not
    convert to a float; a number of that size is an integer. *)
Definition float_limit : Q := inject_Z (2 ^ 1024 - 2 ^ 970).

(** [bool(v)] *)
Definition truthy (v : t) : bool :=
  match v with
  | JNull => false
  | JBool b => b
  | JNum q => negb (Qeq_bool q 0)
  | JStr s => negb (String.eqb s EmptyString)
  | JArr items => match items with [] => false | _ => true end
  | JObj fields => match fields with [] => false | _ => true end
  end.

(** [bool(d.get(key))] *)
Definition truthy_at (o : option t) : bool :=
  match o with
  | Some v => truthy v
  | None => false
  end.

End Json.

(** ** SignalQualityFilter ([app/core/scoring/filter.py]) *)

Module SignalQualityFilter.

Record t := { min_score : Q; min_probability : Q }.

Definition __init__ (min_score min_probability : option Q) : t :=
  {| min_score := default 7 min_score;
     min_probability := default 65 min_probability |}.

(** The signal dictionary as [validate] reads it: its two scores, and
    whether it has any other key. *)
Record SignalView := {
  signal_score : option Q;
  probability_score : option Q;
  other_keys : bool
}.

(** [bool(signal)]: [None] and the empty dictionary are falsy. *)
Definition truthy (signal : option SignalView) : bool :=
  match signal with
  | None => false
  | Some v =>
      match signal_score v, probability_score v with
      | None, None => other_keys v
      | _, _ => true
      end
  end.

Definition validate (self : t) (signal : option SignalView) : bool :=
  if negb (truthy signal) then false
  else
    let score := default 0 (signal ≫= signal_score) in
    let prob := default 0 (signal ≫= probability_score) in
    Qle_bool (min_score self) score && Qle_bool (min_probability self) prob.

(** [signal_filter = SignalQualityFilter()] *)
Definition signal_filter : t := __init__ None None.

End SignalQualityFilter.

(** ** SignalDistributor ([app/core/distribution/websocket_distributor.py]) *)

Module SignalDistributor.

(** A connection is named by a number. *)
Record t := {
  active_connections : gset nat;
  connection_count : Z
}.

Definition __init__ : t := {| active_connections := ∅; connection_count := 0 |}.

(** The peers: whether [websocket.accept()] succeeds, and whether a
    [send_json] to the connection succeeds. *)
Record Peers := {
  accepts : nat -> bool;
  delivers : nat -> bool
}.

(** [connect]: the welcome message is sent after the connection has been
    recorded. *)
Definition connect (peers : Peers) (self : t) (websocket : nat) : Py.Exc unit * t :=
  if negb (accepts peers websocket) then (Py.Raise "WebSocketError", self)
  else
    let self :=
      {| active_connections := {[ websocket ]} ∪ active_connections self;
         connection_count := (connection_count self + 1)%Z |} in
    if delivers peers websocket then (Py.Return tt, self)
    else (Py.Raise "WebSocketError", self).

Definition disconnect (self : t) (websocket : nat) : t :=
  {| active_connections := active_connections self ∖ {[ websocket ]};
     connection_count := connection_count self |}.

(** What [broadcast_signal] reads of the signal: the log line after each
    send looks up [signal['symbol']] and [signal['direction']]. *)
Record SignalKeys := {
  has_symbol : bool;
  has_direction : bool
}.

Definition complete : SignalKeys := {| has_symbol := true; has_direction := true |}.

(** The body of the [try] block for one connection: the send, then the log
    line; whether it ends without an exception. *)
Definition sent_and_logged (peers : Peers) (signal : SignalKeys) (connection : nat)
    : bool :=
  delivers peers connection && has_symbol signal && has_direction signal.

(** [broadcast_signal]: the connections the message reached, and the state
    after the connections of the [except] branch have been removed. One
    call runs to its end before the next call on the distributor. *)
Definition broadcast_signal (peers : Peers) (self : t) (signal : SignalKeys)
    : gset nat * t :=
  if bool_decide (active_connections self = ∅) then (∅, self)
  else
    let reached := filter (fun c => delivers peers c = true) (active_connections self) in
    let disconnected :=
      filter (fun c => sent_and_logged peers signal c <> true) (active_connections self) in
    (reached,
     {| active_connections := active_connections self ∖ disconnected;
        connection_count := connection_count self |}).

End SignalDistributor.

(** ** StrategyTriggerSystem ([app/core/triggers/strategy_trigger.py]) *)

Module StrategyTriggerSystem.

(** A strategy dictionary: the entries the trigger reads at top level, and
    the entries that the executor reads. *)
Record Strategy := {
  name : option Json.t;
  rules : option Json.t;
  executor_view : StrategyExecutor.Strategy
}.

(** A candle: the tick of the executor with its [is_closed] flag. *)
Record Candle := {
  is_closed : option bool;
  tick : StrategyExecutor.MarketData
}.

(** The signal of the trigger ([trade_explanation], a formatted text, is
    left out). *)
Record Signal := {
  id : string;
  strategy_id : string;
  strategy_name : Json.t;
  symbol : string;
  direction : string;
  entry_price : Q;
  stop_loss : Q;
  take_profit : Q;
  probability_score : Q;
  signal_score : Q;
  confidence_level : string;
  risk_rating : string;
  position_sizing : Q;
  status : string;
  created_at : string
}.

Record t := {
  active_strategies : list Strategy;
  running : bool;
  signals_generated : Z;
  distributor : SignalDistributor.t;
  (* what the distributor sent: the signal and the connections it reached *)
  outbox : list (Signal * gset nat)
}.

Definition __init__ : t :=
  {| active_strategies := [];
     running := false;
     signals_generated := 0;
     distributor := SignalDistributor.__init__;
     outbox := [] |}.

Definition with_strategies (self : t) (strategies : list Strategy) : t :=
  {| active_strategies := strategies;
     running := running self;
     signals_generated := signals_generated self;
     distributor := distributor self;
     outbox := outbox self |}.

Definition add_strategy (self : t) (strategy : Strategy) : t :=
  if Json.truthy_at (name strategy) && Json.truthy_at (rules strategy)
  then with_strategies self (active_strategies self ++ [strategy])
  else self.

Definition view (signal : Signal) : SignalQualityFilter.SignalView :=
  {| SignalQualityFilter.signal_score := Some (signal_score signal);
     SignalQualityFilter.probability_score := Some (probability_score signal);
     SignalQualityFilter.other_keys := true |}.

(** [_generate_signal]: [strategy['name']] raises [KeyError] inside the
    [try] block when the strategy has no name. The imports at the head of
    the block are taken to succeed. *)
Definition _generate_signal (now : Clock) (strategy : Strategy)
    (candidate : StrategyExecutor.Signal) : option Signal :=
  Py.try_except
    (let regime := "trending"%string in
     let volatility := "normal"%string in
     let probability_score := 75 in
     let signal_score :=
       SignalScorer.calculate_signal_score SignalScorer.signal_scorer
         probability_score {[ "win_rate" := 65; "sharpe_ratio" := 1.5 ]} regime
         {[ "trending" := 70; "ranging" := 40 ]} 2.5 volatility "normal" in
     match name strategy with
     | None => Py.Raise "KeyError"
     | Some strategy_name =>
         let signal :=
           {| id := "sig_" +:+ pretty (utc_seconds now);
              strategy_id :=
                default "unknown"%string (StrategyExecutor.id (executor_view strategy));
              strategy_name := strategy_name;
              symbol := StrategyExecutor.sig_symbol candidate;
              direction := StrategyExecutor.sig_direction candidate;
              entry_price := StrategyExecutor.sig_entry_price candidate;
              stop_loss := StrategyExecutor.sig_stop_loss candidate;
              take_profit := StrategyExecutor.sig_take_profit candidate;
              probability_score := probability_score;
              signal_score := signal_score;
              confidence_level :=
                if Py.Qlt_bool 8 signal_score then "High" else "Medium";
              risk_rating := "Medium";
              position_sizing := 2;
              status := "active";
              created_at := utc_iso now |} in
         if negb (SignalQualityFilter.validate SignalQualityFilter.signal_filter
                    (Some (view signal)))
         then Py.Return None
         else Py.Return (Some signal)
     end)
    None.

(** [_distribute_signal] followed by [self.signals_generated += 1]; the
    signal of [_generate_signal] has its symbol and its direction. *)
Definition _distribute_signal (peers : SignalDistributor.Peers) (self : t)
    (signal : Signal) : t :=
  let '(reached, distributor) :=
    SignalDistributor.broadcast_signal peers (distributor self)
      SignalDistributor.complete in
  {| active_strategies := active_strategies self;
     running := running self;
     signals_generated := (signals_generated self + 1)%Z;
     distributor := distributor;
     outbox := outbox self ++ [(signal, reached)] |}.

(** The body of the loop of [_on_market_data] for one strategy; an
    exception of the [try] block leaves the state as it is. *)
Definition check_strategy (now : Clock) (peers : SignalDistributor.Peers)
    (candle : Candle) (self : t) (strategy : Strategy) : t :=
  match StrategyExecutor.execute now (executor_view strategy) (tick candle) with
  | None => self
  | Some signal_candidate =>
      (* the log line reads strategy['name'] and candle_data['symbol'] *)
      match name strategy, StrategyExecutor.symbol (tick candle) with
      | Some _, Some _ =>
          match _generate_signal now strategy signal_candidate with
          | Some signal => _distribute_signal peers self signal
          | None => self
          end
      | _, _ => self
      end
  end.

Definition _on_market_data (now : Clock) (peers : SignalDistributor.Peers)
    (self : t) (candle_data : Candle) : t :=
  if negb (default false (is_closed candle_data)) then self
  else fold_left (check_strategy now peers candle_data) (active_strategies self) self.

End StrategyTriggerSystem.

(** ** Vocabulary of the further statements *)

(** The embedding computes in exact arithmetic. The code computes in binary
    floating point, which follows it up to a few units in the last place as
    long as nothing overflows or underflows. Where the code reaches a value
    through a quotient, or through sums and products taken in another
    order, the statements give the value up to this margin, relative to the
    value and to one. *)
Module Rounding.

Definition margin : Q := 1 # 1000000.

Definition close (x y : Q) : Prop := Qabs (x - y) <= margin * (1 + Qabs y).

(** A number of ordinary size: a float far from overflow, or an integer
    that converts to one. *)
Definition ordinary (x : Q) : Prop := Qabs x <= 1000000000.

End Rounding.

Module DistributorSpec.
Import SignalDistributor.

(** One call on the distributor, with the behaviour of the peers during the
    call. *)
Inductive Op : Type :=
| Connect (peers : Peers) (websocket : nat)
| Disconnect (websocket : nat)
| Broadcast (peers : Peers) (signal : SignalKeys).

Definition step (self : t) (op : Op) : t :=
  match op with
  | Connect peers websocket => (connect peers self websocket).2
  | Disconnect websocket => disconnect self websocket
  | Broadcast peers signal => (broadcast_signal peers self signal).2
  end.

End DistributorSpec.

Module TriggerSpec.
Import StrategyTriggerSystem.

(** The strategy gets through the loop body of [_on_market_data]: its rules
    match the tick, and the log line finds the name of the strategy and the
    symbol of the candle. *)
Definition fires (now : Clock) (candle : Candle) (strategy : Strategy) : bool :=
  match StrategyExecutor.execute now (executor_view strategy) (tick candle),
        name strategy, StrategyExecutor.symbol (tick candle) with
  | Some _, Some _, Some _ => true
  | _, _, _ => false
  end.

End TriggerSpec.

Module TriggerExamples.
Import StrategyTriggerSystem.

(** A strategy in the format of [parse_json_strategy]: its rules sit at top
    level and there is no [config] entry. *)
Definition london_breakout : Strategy :=
  {| name := Some (Json.JStr "London Breakout");
     rules :=
       Some (Json.JArr
               [Json.JObj [("type"%string, Json.JStr "price_action");
                           ("condition"%string, Json.JStr "liquidity_sweep")]]);
     executor_view :=
       {| StrategyExecutor.id := None;
          StrategyExecutor.is_active := None;
          StrategyExecutor.config := None |} |}.

(** A database strategy whose single rule always passes. *)
Definition sweep_strategy : Strategy :=
  {| name := Some (Json.JStr "Sweep");
     rules := None;
     executor_view :=
       {| StrategyExecutor.id := Some "s7"%string;
          StrategyExecutor.is_active := Some true;
          StrategyExecutor.config :=
            Some {| StrategyExecutor.rules :=
                      Some [ {| StrategyExecutor.type := Some "price_action"%string;
                                StrategyExecutor.condition :=
                                  Some "liquidity_sweep"%string;
                                StrategyExecutor.parameters := None |} ];
                    StrategyExecutor.risk_management := None |} |} |}.

Definition closed_candle : Candle :=
  {| is_closed := Some true; tick := MoreExamples.eurusd_tick |}.

Definition open_candle : Candle :=
  {| is_closed := Some false; tick := MoreExamples.eurusd_tick |}.

Definition quiet_peers : SignalDistributor.Peers :=
  {| SignalDistributor.accepts := fun _ => true;
     SignalDistributor.delivers := fun _ => true |}.

End TriggerExamples.

(** ** StrategyParser ([app/core/strategies/parser.py]) *)

Module StrategyParser.

(** The dictionary a parser returns, which is also what [execute_strategy]
    reads. *)
Record Strategy := {
  name : option Json.t;
  type : option string;
  rules : option Json.t;
  entry : option Json.t;
  risk_management : option Json.t;
  raw_code : option string;
  parsed_at : option string;
  valid : option bool;
  error : option string
}.

(** [{'valid': False, 'error': error}] *)
Definition invalid (error : string) : Strategy :=
  {| name := None; type := None; rules := None; entry := None;
     risk_management := None; raw_code := None; parsed_at := None;
     valid := Some false; error := Some error |}.

(** [key in v], for a string [key]: a key of a dictionary, an element of a
    list, a piece of a string; other values are not containers. *)
Definition contains (key : string) (v : Json.t) : Py.Exc bool :=
  match v with
  | Json.JObj fields =>
      mret (match Json.assoc key fields with Some _ => true | None => false end)
  | Json.JArr items =>
      mret (existsb (fun item => match item with
                                 | Json.JStr s => String.eqb s key
                                 | _ => false
                                 end) items)
  | Json.JStr s => mret (Py.contains key s)
  | _ => Py.Raise "TypeError"
  end.

(** [v[key]], for a string [key]: only a dictionary is indexed by a
    string. *)
Definition getitem (v : Json.t) (key : string) : Py.Exc Json.t :=
  match v with
  | Json.JObj fields =>
      match Json.assoc key fields with
      | Some x => mret x
      | None => Py.Raise "KeyError"
      end
  | _ => Py.Raise "TypeError"
  end.

(** [v.get(key, fallback)]: only a dictionary has the method. *)
Definition get (v : Json.t) (key : string) (fallback : Json.t) : Py.Exc Json.t :=
  match v with
  | Json.JObj fields => mret (default fallback (Json.assoc key fields))
  | _ => Py.Raise "AttributeError"
  end.

(** [not isinstance(rules, list) or len(rules) == 0] *)
Definition no_rule (rules : Json.t) : bool :=
  match rules with
  | Json.JArr (_ :: _) => false
  | _ => true
  end.

(** [parse_json_strategy] after [json.loads], whose outcome is the input:
    the message of its [JSONDecodeError], or the decoded value. Each
    [ValueError] of the [try] block is written as the dictionary that its
    handler returns; the other exceptions leave the function. *)
Definition parse_json_strategy (now : Clock) (decoded : string + Json.t)
    : Py.Exc Strategy :=
  match decoded with
  | inl e => mret (invalid ("Invalid JSON: " +:+ e))
  | inr strategy =>
      has_name ← contains "name" strategy;
      if negb has_name then mret (invalid "Missing required field: name")
      else
        has_rules ← contains "rules" strategy;
        if negb has_rules then mret (invalid "Missing required field: rules")
        else
          rules ← getitem strategy "rules";
          if no_rule rules then mret (invalid "Strategy must have at least one rule")
          else
            name ← getitem strategy "name";
            entry ← get strategy "entry" (Json.JObj []);
            risk_management ← get strategy "risk_management" (Json.JObj []);
            mret {| name := Some name;
                    type := None;
                    rules := Some rules;
                    entry := Some entry;
                    risk_management := Some risk_management;
                    raw_code := None;
                    parsed_at := Some (utc_iso now);
                    valid := Some true;
                    error := None |}
  end.








Record Signal := {
  symbol : string;
  direction : string;
  entry_price : Q;
  stop_loss : Q;
  take_profit : Q;
  strategy_name : Json.t
}.

(** [o == s] for the result [o] of a [dict.get]. *)
Definition eq_str (o : option Json.t) (s : string) : bool :=
  match o with
  | Some (Json.JStr t) => String.eqb t s
  | _ => false
  end.

Definition _evaluate_rule (rule : Json.t) (market_data : StrategyExecutor.MarketData)
    : Py.Exc bool :=
  match rule with
  | Json.JObj fields =>
      let rule_type := Json.assoc "type" fields in
      let condition := Json.assoc "condition" fields in
      if eq_str rule_type "price_action" then mret true
      else if eq_str rule_type "technical" then mret true
      else if eq_str rule_type "session" then mret true
      else mret false
  | _ => Py.Raise "AttributeError"
  end.

(** [x * 0.0001]: a number, or a boolean taken as 1 or 0. An integer is
    converted to a float first, which raises when it is too large. *)
Definition times (x : Json.t) (factor : Q) : Py.Exc Q :=
  match x with
  | Json.JNum q =>
      if Qle_bool Json.float_limit (Qabs q) then Py.Raise "OverflowError"
      else mret (q * factor)
  | Json.JBool b => mret ((if b then 1 else 0) * factor)
  | _ => Py.Raise "TypeError"
  end.

Definition _generate_signal (strategy : Strategy)
    (market_data : StrategyExecutor.MarketData) : Py.Exc Signal :=
  let risk_mgmt := default (Json.JObj []) (risk_management strategy) in
  let current_price := default 1.0850 (StrategyExecutor.close market_data) in
  sl ← get risk_mgmt "stop_loss_pips" (Json.JNum 15);
  sl_pips ← times sl 0.0001;
  tp ← get risk_mgmt "take_profit_pips" (Json.JNum 40);
  tp_pips ← times tp 0.0001;
  let entry_price := current_price in
  let stop_loss := entry_price - sl_pips in
  let take_profit := entry_price + tp_pips in
  match name strategy with
  | None => Py.Raise "KeyError"
  | Some strategy_name =>
      mret {| symbol := default "EURUSD"%string (StrategyExecutor.symbol market_data);
              direction := "BUY";
              entry_price := entry_price;
              stop_loss := stop_loss;
              take_profit := take_profit;
              strategy_name := strategy_name |}
  end.

(** [for rule in rules]: the elements of a list, the keys of a dictionary,
    the characters of a string. *)
Definition iterate (v : Json.t) : Py.Exc (list Json.t) :=
  match v with
  | Json.JArr items => mret items
  | Json.JObj fields => mret (map (fun field => Json.JStr field.1) fields)
  | Json.JStr s =>
      mret (map (fun c => Json.JStr (String c EmptyString)) (String.list_ascii_of_string s))
  | _ => Py.Raise "TypeError"
  end.

(** The loop of [execute_strategy]: every rule is evaluated. *)
Fixpoint rules_met (rules : list Json.t) (market_data : StrategyExecutor.MarketData)
    : Py.Exc (list bool) :=
  match rules with
  | [] => mret []
  | rule :: rest =>
      result ← _evaluate_rule rule market_data;
      results ← rules_met rest market_data;
      mret (result :: results)
  end.

Definition execute_strategy (strategy : Strategy)
    (market_data : StrategyExecutor.MarketData) : Py.Exc (option Signal) :=
  if negb (default false (valid strategy)) then mret None
  else
    match rules strategy with
    | None => Py.Raise "KeyError"
    | Some rules =>
        rules ← iterate rules;
        rules_met ← rules_met rules market_data;
        if forallb id rules_met
        then
          (* the log line reads strategy['name'] *)
          match name strategy with
          | None => Py.Raise "KeyError"
          | Some _ =>
              signal ← _generate_signal strategy market_data; mret (Some signal)
          end
        else mret None
    end.

End StrategyParser.

(** ** From the parser to the trigger ([example_live_system]) *)

Module LiveSystem.

(** The dictionary of a parser as the trigger and the executor read it: a
    parser writes no [id], [is_active] or [config] entry. *)
Definition as_trigger_strategy (parsed : StrategyParser.Strategy)
    : StrategyTriggerSystem.Strategy :=
  {| StrategyTriggerSystem.name := StrategyParser.name parsed;
     StrategyTriggerSystem.rules := StrategyParser.rules parsed;
     StrategyTriggerSystem.executor_view :=
       {| StrategyExecutor.id := None;
          StrategyExecutor.is_active := None;
          StrategyExecutor.config := None |} |}.

(** [parse_json_strategy] followed by [add_strategy]. *)
Definition load (now : Clock) (self : StrategyTriggerSystem.t)
    (decoded : string + Json.t) : Py.Exc StrategyTriggerSystem.t :=
  parsed ← StrategyParser.parse_json_strategy now decoded;
  mret (StrategyTriggerSystem.add_strategy self (as_trigger_strategy parsed)).

End LiveSystem.

Module ParserExamples.

(** The strategy text of [example_usage], decoded. *)
Definition london_breakout : Json.t :=
  Json.JObj
    [("name"%string, Json.JStr "London Breakout");
     ("rules"%string,
      Json.JArr
        [Json.JObj [("type"%string, Json.JStr "price_action");
                    ("condition"%string, Json.JStr "liquidity_sweep")];
         Json.JObj [("type"%string, Json.JStr "session");
                    ("condition"%string, Json.JStr "london_session")]]);
     ("risk_management"%string,
      Json.JObj [("stop_loss_pips"%string, Json.JNum 20);
                 ("take_profit_pips"%string, Json.JNum 50)])].


End ParserExamples.

Module ParserSpec.

(** The decoded values that are no dictionary and yet pass the two
    membership tests of [parse_json_strategy]. *)
Definition passes_as_container (v : Json.t) : Prop :=
  match v with
  | Json.JObj _ => False
  | Json.JArr items => In (Json.JStr "name") items /\ In (Json.JStr "rules") items
  | Json.JStr s => Py.contains "name" s = true /\ Py.contains "rules" s = true
  | _ => True
  end.

(** A rule that is a dictionary. *)
Definition is_dictionary (v : Json.t) : bool :=
  match v with
  | Json.JObj _ => true
  | _ => false
  end.

(** The type of a rule is one of the three that the parser knows. *)
Definition known_type (rule : Json.t) : bool :=
  match rule with
  | Json.JObj fields =>
      match Json.assoc "type" fields with
      | Some (Json.JStr t) =>
          bool_decide (t ∈ ["price_action"; "technical"; "session"]%string)
      | _ => false
      end
  | _ => false
  end.

(** An entry of a risk configuration that is absent, or a number that a
    float can hold. *)
Definition pips_number (entry : option Json.t) : bool :=
  match entry with
  | None => true
  | Some (Json.JNum q) => Py.Qlt_bool (Qabs q) Json.float_limit
  | Some _ => false
  end.

(** The pips of a risk configuration: such an entry under each key. *)
Definition numeric_pips (risk : Json.t) : bool :=
  match risk with
  | Json.JObj fields =>
      pips_number (Json.assoc "stop_loss_pips" fields)
      && pips_number (Json.assoc "take_profit_pips" fields)
  | _ => false
  end.

(** The pips that [_generate_signal] reads under a key of the risk
    configuration. *)
Definition pips_of (key : string) (fallback : Q) (risk : Json.t) : Q :=
  match risk with
  | Json.JObj fields =>
      match Json.assoc key fields with
      | Some (Json.JNum pips) => pips
      | _ => fallback
      end
  | _ => fallback
  end.

End ParserSpec.

(** ** BacktestEngine ([app/core/backtesting/engine.py]) *)

Module BacktestEngine.

(** A historical signal; its prices are numbers. *)
Record Signal := {
  entry_price : option Q;
  stop_loss : option Q;
  take_profit : option Q;
  direction : option string
}.

Record Trade := {
  trade_entry_price : Q;
  exit_price : Q;
  trade_direction : string;
  units : Q;
  pnl : Q;
  pnl_percent : Q;
  outcome : string
}.

(** [_execute_trade], from draw number [pos]: the trade, and the next draw
    number. The price data is never read. A missing key, and the division
    by a risk amount of zero, end in the [except] branch. The amounts are
    the exact ones: the code computes them in floating point, and for
    numbers of ordinary size stays within the margin of them. *)
Definition _execute_trade (draws : nat -> Q) (pos : nat) (signal : Signal)
    (capital position_size : Q) : option Trade * nat :=
  match entry_price signal, stop_loss signal, take_profit signal, direction signal with
  | Some entry_price, Some stop_loss, Some take_profit, Some direction =>
      let risk_amount := capital * position_size in
      let risk_per_unit :=
        if String.eqb direction "BUY"
        then entry_price - stop_loss
        else stop_loss - entry_price in
      if Qle_bool risk_per_unit 0 then (None, pos)
      else
        let units := risk_amount / risk_per_unit in
        let hit_tp := Py.Qlt_bool (draws pos) 0.65 in
        let '(pnl, exit_price, outcome) :=
          if hit_tp then
            (if String.eqb direction "BUY"
             then (take_profit - entry_price) * units
             else (entry_price - take_profit) * units,
             take_profit, "win"%string)
          else
            (if String.eqb direction "BUY"
             then (stop_loss - entry_price) * units
             else (entry_price - stop_loss) * units,
             stop_loss, "loss"%string) in
        (Py.try_except
           (ratio ← Py.truediv pnl risk_amount;
            mret (Some {| trade_entry_price := entry_price;
                          exit_price := exit_price;
                          trade_direction := direction;
                          units := units;
                          pnl := pnl;
                          pnl_percent := ratio * 100;
                          outcome := outcome |}))
           None,
         S pos)
  | _, _, _, _ => (None, pos)
  end.

(** The loop of [run_backtest]: the trades, the equity curve and the
    capital, in the order of the appends. *)
Fixpoint trade_loop (draws : nat -> Q) (pos : nat) (signals : list Signal)
    (position_size : Q) (capital : Q) (trades : list Trade) (equity_curve : list Q)
    : list Trade * list Q * Q :=
  match signals with
  | [] => (trades, equity_curve, capital)
  | signal :: rest =>
      let '(trade, pos) := _execute_trade draws pos signal capital position_size in
      match trade with
      | Some trade =>
          let capital := capital + pnl trade in
          trade_loop draws pos rest position_size capital
            (trades ++ [trade]) (equity_curve ++ [capital])
      | None => trade_loop draws pos rest position_size capital trades equity_curve
      end
  end.

Record Metrics := {
  m_winning_trades : Z;
  m_losing_trades : Z;
  m_win_rate : Q;
  m_profit_factor : Q;
  m_sharpe_ratio : Q;
  m_max_drawdown : Q;
  m_total_return : Q;
  m_avg_win : Q;
  m_avg_loss : Q;
  m_expectancy : Q;
  m_risk_of_ruin : Q
}.

Definition _empty_metrics : Metrics :=
  {| m_winning_trades := 0; m_losing_trades := 0; m_win_rate := 0;
     m_profit_factor := 0; m_sharpe_ratio := 0; m_max_drawdown := 0;
     m_total_return := 0; m_avg_win := 0; m_avg_loss := 0; m_expectancy := 0;
     m_risk_of_ruin := 100 |}.

(** [sum(t['pnl'] for t in trades)] *)
Definition sum_pnl (trades : list Trade) : Q :=
  fold_left (fun total t => total + pnl t) trades 0.

(** [np.diff(equity_curve) / equity_curve[:-1]]: numpy divides without an
    exception; [None] stands for the [inf] or [nan] of a zero divisor. *)
Fixpoint returns (equity_curve : list Q) : list (option Q) :=
  match equity_curve with
  | previous :: (value :: _) as rest =>
      (if Qeq_bool previous 0 then None else Some ((value - previous) / previous))
      :: returns rest
  | _ => []
  end.

(** The values of an array that holds no [inf] and no [nan]. *)
Fixpoint finite (xs : list (option Q)) : option (list Q) :=
  match xs with
  | [] => Some []
  | Some x :: rest => cons x <$> finite rest
  | None :: _ => None
  end.

Definition mean (xs : list Q) : Q :=
  fold_right Qplus 0 xs / inject_Z (Z.of_nat (length xs)).

(** The loop of the drawdown: the peak so far and the deepest fall from it. *)
Fixpoint drawdown_loop (values : list Q) (peak max_dd : Q) : Py.Exc Q :=
  match values with
  | [] => mret max_dd
  | value :: rest =>
      let peak := if Py.Qlt_bool peak value then value else peak in
      ratio ← Py.truediv (peak - value) peak;
      let dd := ratio * 100 in
      let max_dd := if Py.Qlt_bool max_dd dd then dd else max_dd in
      drawdown_loop rest peak max_dd
  end.

Record Result := {
  strategy_name : option string;
  total_trades : Z;
  winning_trades : option Z;
  losing_trades : option Z;
  win_rate : Q;
  profit_factor : Q;
  sharpe_ratio : Q;
  max_drawdown : Q;
  total_return : Q;
  avg_win : option Q;
  avg_loss : option Q;
  expectancy : option Q;
  risk_of_ruin : option Q;
  trades : list Trade;
  equity_curve : list Q;
  tested_at : option string
}.

Definition _empty_result : Result :=
  {| strategy_name := None; total_trades := 0; winning_trades := None;
     losing_trades := None; win_rate := 0; profit_factor := 0; sharpe_ratio := 0;
     max_drawdown := 0; total_return := 0; avg_win := None; avg_loss := None;
     expectancy := None; risk_of_ruin := None; trades := []; equity_curve := [];
     tested_at := None |}.

(** [base ** total_trades], a float to the power of an [int]: a result
    beyond the range of a float raises. *)
Definition float_pow (base : Q) (n : Z) : Py.Exc Q :=
  if Qle_bool Json.float_limit (Qabs (base ^ n)) then Py.Raise "OverflowError"
  else mret (base ^ n).

Section WithSqrt.

(** [np.sqrt], an input of the embedding. *)
Variable sqrt : Q -> Q.

(** [np.std(xs)] *)
Definition std (xs : list Q) : Q :=
  sqrt (mean (map (fun x => (x - mean xs) * (x - mean xs)) xs)).

(** The Sharpe ratio: an [inf] or a [nan] among the returns makes their
    standard deviation a [nan], which is not above zero. *)
Definition sharpe (equity_curve : list Q) : Q :=
  match finite (returns equity_curve) with
  | Some rs =>
      if (1 <? length rs)%nat && Py.Qlt_bool 0 (std rs)
      then mean rs / std rs * sqrt 252
      else 0
  | None => 0
  end.

Definition _calculate_metrics (trades : list Trade) (equity_curve : list Q)
    (initial_capital : Q) : Py.Exc Metrics :=
  if (length trades =? 0)%nat then mret _empty_metrics
  else
    let wins := List.filter (fun t => String.eqb (outcome t) "win") trades in
    let losses := List.filter (fun t => String.eqb (outcome t) "loss") trades in
    let winning_trades := Z.of_nat (length wins) in
    let losing_trades := Z.of_nat (length losses) in
    let total_trades := Z.of_nat (length trades) in
    let win_rate :=
      if (0 <? total_trades)%Z
      then inject_Z winning_trades / inject_Z total_trades * 100
      else 0 in
    let gross_profit := match wins with [] => 0 | _ => sum_pnl wins end in
    let gross_loss := match losses with [] => 0 | _ => Py.abs (sum_pnl losses) end in
    let profit_factor :=
      if Py.Qlt_bool 0 gross_loss then gross_profit / gross_loss else 0 in
    let avg_win :=
      if (0 <? winning_trades)%Z then gross_profit / inject_Z winning_trades else 0 in
    let avg_loss :=
      if (0 <? losing_trades)%Z then gross_loss / inject_Z losing_trades else 0 in
    let expectancy := win_rate / 100 * avg_win - (100 - win_rate) / 100 * avg_loss in
    let sharpe_ratio := sharpe equity_curve in
    max_dd ← match equity_curve with
             | [] => Py.Raise "IndexError"
             | peak :: _ => drawdown_loop equity_curve peak 0
             end;
    ratio ← Py.truediv (List.last equity_curve 0 - initial_capital) initial_capital;
    let total_return := ratio * 100 in
    risk_of_ruin ←
      (if Py.Qlt_bool 0 win_rate && Py.Qlt_bool 0 avg_loss then
         let kelly := win_rate / 100 * avg_win / avg_loss - (100 - win_rate) / 100 in
         base ← Py.truediv (1 - kelly) (1 + kelly);
         power ← float_pow base total_trades;
         mret (power * 100)
       else mret 100);
    mret {| m_winning_trades := winning_trades;
            m_losing_trades := losing_trades;
            m_win_rate := win_rate;
            m_profit_factor := profit_factor;
            m_sharpe_ratio := sharpe_ratio;
            m_max_drawdown := max_dd;
            m_total_return := total_return;
            m_avg_win := avg_win;
            m_avg_loss := avg_loss;
            m_expectancy := expectancy;
            m_risk_of_ruin := risk_of_ruin |}.

(** [run_backtest]; [initial_capital] and [position_size] default to 10000
    and to 0.1. *)
Definition run_backtest (now : Clock) (draws : nat -> Q) (strategy_name : string)
    (signals : list Signal) (initial_capital position_size : option Q)
    : Py.Exc Result :=
  let initial_capital := default 10000 initial_capital in
  let position_size := default 0.1 position_size in
  if (length signals =? 0)%nat then mret _empty_result
  else
    let '(trades, equity_curve, capital) :=
      trade_loop draws 0 signals position_size initial_capital [] [initial_capital] in
    metrics ← _calculate_metrics trades equity_curve initial_capital;
    mret {| strategy_name := Some strategy_name;
            total_trades := Z.of_nat (length trades);
            winning_trades := Some (m_winning_trades metrics);
            losing_trades := Some (m_losing_trades metrics);
            win_rate := m_win_rate metrics;
            profit_factor := m_profit_factor metrics;
            sharpe_ratio := m_sharpe_ratio metrics;
            max_drawdown := m_max_drawdown metrics;
            total_return := m_total_return metrics;
            avg_win := Some (m_avg_win metrics);
            avg_loss := Some (m_avg_loss metrics);
            expectancy := Some (m_expectancy metrics);
            risk_of_ruin := Some (m_risk_of_ruin metrics);
            trades := trades;
            equity_curve := equity_curve;
            tested_at := Some (utc_iso now) |}.

End WithSqrt.

End BacktestEngine.

Module BacktestSpec.
Import BacktestEngine.

(** The signal can be traded: it has its four entries, and its stop lies
    on the losing side of its entry. *)
Definition tradable (signal : Signal) : bool :=
  match entry_price signal, stop_loss signal, take_profit signal, direction signal with
  | Some entry, Some stop, Some _, Some direction =>
      if String.eqb direction "BUY" then Py.Qlt_bool stop entry
      else Py.Qlt_bool entry stop
  | _, _, _, _ => false
  end.

(** The target of the signal does not lie on the losing side of its
    entry. *)
Definition target_on_winning_side (signal : Signal) : bool :=
  match entry_price signal, take_profit signal, direction signal with
  | Some entry, Some target, Some direction =>
      if String.eqb direction "BUY" then Qle_bool entry target
      else Qle_bool target entry
  | _, _, _ => true
  end.

(** The reward of a signal in units of its risk. *)
Definition reward_to_risk (signal : Signal) : Q :=
  match entry_price signal, stop_loss signal, take_profit signal, direction signal with
  | Some entry, Some stop, Some target, Some direction =>
      if String.eqb direction "BUY" then (target - entry) / (entry - stop)
      else (entry - target) / (stop - entry)
  | _, _, _, _ => 0
  end.

(** The trade settles the signal at its target or at its stop, as the draw
    decides, for the amount at risk. *)
Definition settles (draw : Q) (signal : Signal) (risk_amount : Q) (trade : Trade)
    : Prop :=
  (draw < 0.65
   /\ outcome trade = "win"%string
   /\ take_profit signal = Some (exit_price trade)
   /\ pnl trade == risk_amount * reward_to_risk signal
   /\ pnl_percent trade == 100 * reward_to_risk signal)
  \/ (0.65 <= draw
      /\ outcome trade = "loss"%string
      /\ stop_loss signal = Some (exit_price trade)
      /\ pnl trade == - risk_amount
      /\ pnl_percent trade == -100).

(** The trade leaves the signal at its target or at its stop, as the draw
    decides. *)
Definition exits (draw : Q) (signal : Signal) (trade : Trade) : Prop :=
  (draw < 0.65
   /\ outcome trade = "win"%string
   /\ take_profit signal = Some (exit_price trade))
  \/ (0.65 <= draw
      /\ outcome trade = "loss"%string
      /\ stop_loss signal = Some (exit_price trade)).

(** The same settlement, with its amounts up to the margin of the
    floating-point products and quotients that compute them. *)
Definition settles_about (draw : Q) (signal : Signal) (risk_amount : Q)
    (trade : Trade) : Prop :=
  (draw < 0.65
   /\ Rounding.close (pnl trade) (risk_amount * reward_to_risk signal)
   /\ Rounding.close (pnl_percent trade) (100 * reward_to_risk signal))
  \/ (0.65 <= draw
      /\ Rounding.close (pnl trade) (- risk_amount)
      /\ Rounding.close (pnl_percent trade) (-100)).

(** The prices of the signal are of ordinary size, and its stop lies a
    billionth or more away from its entry. *)
Definition ordinary_signal (signal : Signal) : Prop :=
  match entry_price signal, stop_loss signal, take_profit signal with
  | Some entry, Some stop, Some target =>
      Rounding.ordinary entry /\ Rounding.ordinary stop /\ Rounding.ordinary target
      /\ (1 # 1000000000) <= Qabs (entry - stop)
  | _, _, _ => True
  end.

(** A trade of ordinary size: the capital, the position size and the
    prices are, and the amount at risk is a billionth or more. *)
Definition ordinary_trade (signal : Signal) (capital position_size : Q) : Prop :=
  Rounding.ordinary capital
  /\ Rounding.ordinary position_size
  /\ (1 # 1000000000) <= Qabs (capital * position_size)
  /\ ordinary_signal signal.

(** A signal of a backtest of ordinary size: its target does not lie on
    the losing side, its prices are of ordinary size, and its reward is at
    most a hundred times its risk. *)
Definition ordinary_reward (signal : Signal) : Prop :=
  target_on_winning_side signal = true
  /\ ordinary_signal signal
  /\ reward_to_risk signal <= 100.

(** A win that loses nothing, or a loss that gains nothing. *)
Definition sound (trade : Trade) : Prop :=
  (outcome trade = "win"%string /\ 0 <= pnl trade)
  \/ (outcome trade = "loss"%string /\ pnl trade <= 0).

(** The books of the loop of [run_backtest]: the capital is not negative,
    the equity curve starts at the initial capital, has one point per trade
    after it and ends at the capital, which is the initial capital plus the
    results of the trades. *)
Definition balanced (initial_capital : Q) (trades : list Trade)
    (equity_curve : list Q) (capital : Q) : Prop :=
  0 <= capital
  /\ List.last equity_curve initial_capital = capital
  /\ hd initial_capital equity_curve = initial_capital
  /\ Forall (fun value => 0 <= value) equity_curve
  /\ length equity_curve = S (length trades)
  /\ capital == initial_capital + sum_pnl trades
  /\ Forall sound trades.

(** The amounts won and lost, added up without their signs. *)
Definition turnover (trades : list Trade) : Q :=
  fold_right (fun t total => Qabs (pnl t) + total) 0 trades.

(** The books as the floating-point sums keep them: as above, with the
    final capital up to the margin, relative to the initial capital and the
    turnover. *)
Definition in_order (initial_capital : Q) (trades : list Trade)
    (equity_curve : list Q) : Prop :=
  hd initial_capital equity_curve = initial_capital
  /\ Forall (fun value => 0 <= value) equity_curve
  /\ length equity_curve = S (length trades)
  /\ Forall sound trades
  /\ Qabs (List.last equity_curve initial_capital - (initial_capital + sum_pnl trades))
     <= Rounding.margin * (initial_capital + turnover trades).

End BacktestSpec.

Module BacktestExamples.
Import BacktestEngine.

(** The two signals of [example_backtest]. *)
Definition eurusd_buy : Signal :=
  {| entry_price := Some 1.08520; stop_loss := Some 1.08380;
     take_profit := Some 1.08890; direction := Some "BUY"%string |}.

Definition btc_sell : Signal :=
  {| entry_price := Some 42850; stop_loss := Some 43150;
     take_profit := Some 41950; direction := Some "SELL"%string |}.

(** The first trade loses, the second wins. *)
Definition loss_then_win (k : nat) : Q :=
  match k with
  | O => 0.9
  | _ => 0.1
  end.

End BacktestExamples.

(** * Properties *)
(** ** Facts about the Python numbers *)

Lemma Qlt_bool_true (x y : Q) : Py.Qlt_bool x y = true <-> x < y.
Proof.
  unfold Py.Qlt_bool. rewrite negb_true_iff, <- not_true_iff_false, Qle_bool_iff.
  split; [apply Qnot_le_lt | apply Qlt_not_le].
Qed.

Lemma Qlt_bool_false (x y : Q) : Py.Qlt_bool x y = false <-> y <= x.
Proof.
  unfold Py.Qlt_bool. rewrite negb_false_iff. apply Qle_bool_iff.
Qed.

Lemma Qle_bool_false (x y : Q) : Qle_bool x y = false <-> y < x.
Proof.
  rewrite <- not_true_iff_false, Qle_bool_iff.
  split; [apply Qnot_le_lt | apply Qlt_not_le].
Qed.

Lemma Qeq_bool_false (x y : Q) : Qeq_bool x y = false <-> ~ x == y.
Proof. rewrite <- not_true_iff_false, Qeq_bool_iff. tauto. Qed.

(** Case analysis on every comparison of the goal. *)
Ltac cmp_case b :=
  let E := fresh "E" in
  lazymatch b with
  | Py.Qlt_bool ?x ?y =>
      destruct b eqn:E; [apply Qlt_bool_true in E | apply Qlt_bool_false in E]
  | Qle_bool ?x ?y =>
      destruct b eqn:E; [apply Qle_bool_iff in E | apply Qle_bool_false in E]
  | Qeq_bool ?x ?y =>
      destruct b eqn:E; [apply Qeq_bool_iff in E | apply Qeq_bool_false in E]
  end.

Ltac cmp_cases :=
  repeat match goal with
  | |- context [if ?b then _ else _] => cmp_case b
  | H : context [if ?b then _ else _] |- _ => cmp_case b
  end.

(** Division by a literal, put in the form [lra] accepts. *)
Ltac div_literals :=
  unfold Qdiv in *;
  repeat match goal with
  | |- context [Qinv (Qmake ?n ?d)] =>
      let v := eval vm_compute in (Qinv (Qmake n d)) in
      change (Qinv (Qmake n d)) with v
  | H : context [Qinv (Qmake ?n ?d)] |- _ =>
      let v := eval vm_compute in (Qinv (Qmake n d)) in
      change (Qinv (Qmake n d)) with v in H
  end.

Lemma clamp_range (lo hi x : Q) :
  lo <= hi -> lo <= Py.max lo (Py.min hi x) <= hi.
Proof. intros H. unfold Py.max, Py.min. cmp_cases; lra. Qed.

Lemma clamp_id (lo hi x : Q) :
  lo <= x <= hi -> Py.max lo (Py.min hi x) == x.
Proof. intros H. unfold Py.max, Py.min. cmp_cases; lra. Qed.

Lemma round_half_even_between (lo hi : Z) (x : Q) :
  inject_Z lo <= x <= inject_Z hi ->
  (lo <= Py.round_half_even x <= hi)%Z.
Proof.
  intros [Hlo Hhi]. unfold Py.round_half_even.
  pose proof (Qfloor_le x) as Hf. pose proof (Qlt_floor x) as Hc.
  assert (Hl : (lo <= Qfloor x)%Z).
  { rewrite <- (Qfloor_Z lo). by apply Qfloor_resp_le. }
  assert (Hh : (Qfloor x <= hi)%Z).
  { rewrite <- (Qfloor_Z hi). by apply Qfloor_resp_le. }
  destruct (Qcompare_spec (x - inject_Z (Qfloor x)) (1 # 2)) as [E|E|E].
  - destruct (Z.even (Qfloor x)); [lia |].
    destruct (Z.eq_dec (Qfloor x) hi) as [Heq|]; [| lia].
    exfalso. rewrite Heq in E. lra.
  - lia.
  - destruct (Z.eq_dec (Qfloor x) hi) as [Heq|]; [| lia].
    exfalso. rewrite Heq in E. lra.
Qed.

Lemma pow10_pos (nd : nat) : 0 < Py.pow10 nd.
Proof.
  unfold Py.pow10. change 0 with (inject_Z 0). rewrite <- Zlt_Qlt.
  apply Z.pow_pos_nonneg; lia.
Qed.

Lemma round_between (lo hi : Z) (x : Q) (nd : nat) :
  inject_Z lo <= x <= inject_Z hi ->
  inject_Z lo <= Py.round x nd <= inject_Z hi.
Proof.
  intros [Hlo Hhi]. unfold Py.round. rewrite Qred_correct.
  pose proof (pow10_pos nd) as Hp.
  set (p := (10 ^ Z.of_nat nd)%Z).
  assert (Hpe : Py.pow10 nd = inject_Z p) by reflexivity.
  destruct (round_half_even_between (lo * p) (hi * p) (x * Py.pow10 nd)) as [H1 H2].
  { rewrite !inject_Z_mult, <- Hpe. split; nra. }
  rewrite Zle_Qle, inject_Z_mult, <- Hpe in H1, H2.
  split.
  - apply Qle_shift_div_l; [done | lra].
  - apply Qle_shift_div_r; [done | lra].
Qed.


Lemma round_half_even_comp (x y : Q) :
  x == y -> Py.round_half_even x = Py.round_half_even y.
Proof.
  intros H. unfold Py.round_half_even.
  rewrite (Qfloor_comp _ _ H).
  assert (Hc : Qcompare (x - inject_Z (Qfloor y)) (1 # 2)
               = Qcompare (y - inject_Z (Qfloor y)) (1 # 2)).
  { apply Qcompare_comp; [by rewrite H | reflexivity]. }
  by rewrite Hc.
Qed.

Lemma round_comp (x y : Q) (nd : nat) : x == y -> Py.round x nd = Py.round y nd.
Proof.
  intros H. unfold Py.round.
  rewrite (round_half_even_comp (x * Py.pow10 nd) (y * Py.pow10 nd)); [done |].
  by rewrite H.
Qed.

(** ** The rule engine *)

Section RuleEngineFacts.
Import StrategyExecutor RuleEngine.

Lemma _evaluate_rules_loop_Forall now rules md :
  _evaluate_rules_loop now rules md = true <->
  Forall (fun rule => _evaluate_single_rule now rule md = true) rules.
Proof.
  induction rules as [|rule rest IH]; simpl.
  - split; [constructor | done].
  - rewrite Forall_cons. destruct (_evaluate_single_rule now rule md); simpl.
    + rewrite IH. tauto.
    + split; [done | intros [? _]; done].
Qed.

Lemma _evaluate_rules_spec now rules md :
  _evaluate_rules now rules md = true <->
  rules <> [] /\ Forall (fun rule => _evaluate_single_rule now rule md = true) rules.
Proof.
  unfold _evaluate_rules. destruct rules as [|rule rest].
  - split; [done | intros [? _]; done].
  - rewrite _evaluate_rules_loop_Forall. split; [by split | tauto].
Qed.

Lemma execute_cases now strategy md :
  execute now strategy md =
  if active strategy && _evaluate_rules now (strategy_rules strategy) md
  then Some (_generate_signal now strategy md) else None.
Proof.
  unfold execute, active, strategy_rules.
  destruct (default true (is_active strategy)); simpl; [| done].
  by destruct (_evaluate_rules _ _ _).
Qed.

(** C2. [execute] returns a candidate, the one [_generate_signal] builds, if
    and only if the strategy is active, its rule list is not empty and every
    rule of the list evaluates to true; otherwise it returns [None]. In
    particular an inactive strategy and a strategy without rules yield
    [None] for every tick. *)
Theorem execute_iff_all_rules_pass now strategy md :
  let matches :=
    active strategy = true /\ strategy_rules strategy <> [] /\
    Forall (fun rule => _evaluate_single_rule now rule md = true)
           (strategy_rules strategy) in
  (execute now strategy md = Some (_generate_signal now strategy md) <-> matches)
  /\ (execute now strategy md = None <-> ~ matches)
  /\ (is_active strategy = Some false -> execute now strategy md = None)
  /\ (strategy_rules strategy = [] -> execute now strategy md = None).
Proof.
  intros matches. subst matches. rewrite execute_cases.
  pose proof (_evaluate_rules_spec now (strategy_rules strategy) md) as Hr.
  unfold active.
  repeat split.
  - destruct (default true (is_active strategy)); [done | discriminate].
  - destruct (default true (is_active strategy)); simpl in *; [| discriminate].
    destruct (_evaluate_rules _ _ _); [tauto | discriminate].
  - destruct (default true (is_active strategy)); simpl in *; [| discriminate].
    destruct (_evaluate_rules _ _ _); [tauto | discriminate].
  - intros (Ha & Hne & Hall). rewrite Ha. simpl.
    destruct (_evaluate_rules _ _ _); [done | ].
    destruct Hr as [_ Hr]. by specialize (Hr (conj Hne Hall)).
  - intros H (Ha & Hne & Hall). rewrite Ha in H. simpl in H.
    destruct (_evaluate_rules _ _ _); [done |].
    destruct Hr as [_ Hr]. by specialize (Hr (conj Hne Hall)).
  - intros Hn. destruct (default true (is_active strategy)); simpl; [| done].
    destruct (_evaluate_rules _ _ _); [| done].
    exfalso. apply Hn. destruct Hr as [Hr _]. specialize (Hr eq_refl). tauto.
  - intros ->. done.
  - intros Hnil. rewrite Hnil. simpl. by rewrite andb_false_r.
Qed.

(** An inactive strategy whose only rule passes yields nothing. *)
Lemma inactive_strategy_yields_none :
  is_active Examples.inactive_strategy = Some false
  /\ execute Examples.noon Examples.inactive_strategy Examples.empty_tick = None.
Proof.
  split; [reflexivity |].
  pose proof (execute_iff_all_rules_pass Examples.noon Examples.inactive_strategy
                Examples.empty_tick) as H.
  cbv zeta in H. destruct H as (_ & _ & H & _). apply H. reflexivity.
Defined.

End RuleEngineFacts.

Section FailClosed.
Import StrategyExecutor RuleEngine Examples.

Lemma eq_str_true o s : Py.eq_str o s = true <-> o = Some s.
Proof.
  destruct o as [t|]; simpl; [| split; discriminate].
  rewrite String.eqb_eq. split; [by intros -> | by intros [= ->]].
Qed.

Lemma dispatched_iff t c :
  dispatched t c = true <->
  (t = "price_action" /\ (c = "liquidity_sweep" \/ c = "order_block"))%string
  \/ (t = "technical"
      /\ (c = "rsi_oversold" \/ c = "rsi_overbought" \/ c = "above_ema"))%string.
Proof.
  unfold dispatched, dispatched_pairs, pair_eqb. simpl.
  rewrite !orb_true_iff, !andb_true_iff, !String.eqb_eq. intuition discriminate.
Qed.

Lemma unreached_rule_is_false now rule md :
  reaches_predicate rule = false -> _evaluate_single_rule now rule md = false.
Proof.
  unfold reaches_predicate, _evaluate_single_rule.
  destruct (type rule) as [t|]; simpl; [| done].
  intros H. apply orb_false_iff in H as [Hs Hd]. rewrite Hs.
  destruct (condition rule) as [c|]; simpl.
  - apply not_true_iff_false in Hd. rewrite dispatched_iff in Hd.
    destruct (String.eqb_spec t "price_action") as [->|_].
    { destruct (String.eqb_spec c "liquidity_sweep") as [->|_]; [tauto |].
      destruct (String.eqb_spec c "order_block") as [->|_]; [tauto | done]. }
    destruct (String.eqb_spec t "technical") as [->|_]; [| done].
    destruct (String.eqb_spec c "rsi_oversold") as [->|_]; [tauto |].
    destruct (String.eqb_spec c "rsi_overbought") as [->|_]; [tauto |].
    destruct (String.eqb_spec c "above_ema") as [->|_]; [tauto | done].
  - destruct (t =? "price_action")%string; [done |].
    by destruct (t =? "technical")%string.
Qed.

Lemma unknown_session_is_true now rule md :
  type rule = Some "session"%string -> known_pair rule = false ->
  _evaluate_single_rule now rule md = true.
Proof.
  unfold known_pair, _evaluate_single_rule, _check_session.
  intros -> H. simpl. destruct (condition rule) as [c|]; simpl; [| done].
  simpl in H. apply bool_decide_eq_false in H.
  destruct (sessions !! c) as [[start end_]|] eqn:E; [| done].
  exfalso. apply H. by exists (start, end_).
Qed.

(** C6, as the code has it. A rule that reaches no predicate (its type is
    not [session] and its pair is not one of the five dispatched pairs)
    evaluates to false, and a strategy that contains such a rule yields no
    candidate for any tick. A rule of type [session] always reaches the
    session check, which answers true for a condition that is not a key of
    the [sessions] table. *)
Theorem unknown_rule_fail_closed_except_session now rule md :
  (reaches_predicate rule = false ->
     _evaluate_single_rule now rule md = false
     /\ forall strategy, In rule (strategy_rules strategy) ->
          execute now strategy md = None)
  /\ (type rule = Some "session"%string -> known_pair rule = false ->
        _evaluate_single_rule now rule md = true).
Proof.
  split; [| apply unknown_session_is_true].
  intros H. pose proof (unreached_rule_is_false now rule md H) as Hf.
  split; [done |]. intros strategy Hin.
  rewrite execute_cases.
  destruct (_evaluate_rules now (strategy_rules strategy) md) eqn:E;
    [| by rewrite andb_false_r].
  apply _evaluate_rules_spec in E as [_ Hall].
  rewrite Forall_forall in Hall.
  apply list_elem_of_In in Hin. specialize (Hall rule Hin). congruence.
Qed.

(** A rule of an unknown type, alone in an active strategy. *)
Lemma volume_rule_fails_closed :
  reaches_predicate Examples.volume_rule = false
  /\ _evaluate_single_rule Examples.noon Examples.volume_rule Examples.empty_tick = false
  /\ execute Examples.noon (Examples.strategy_of (Some true) [Examples.volume_rule])
       Examples.empty_tick = None.
Proof.
  split; [reflexivity |].
  destruct (unknown_rule_fail_closed_except_session Examples.noon Examples.volume_rule
              Examples.empty_tick) as [H _].
  destruct (H eq_refl) as [Hf Hs]. split; [exact Hf |].
  apply Hs. simpl. left. reflexivity.
Defined.

(** C6, as stated, fails: the pair (session, tokyo) is not a known pair, yet
    the rule evaluates to true and a strategy made of it yields a
    candidate. *)
Lemma unknown_session_rule_passes :
  known_pair tokyo_rule = false
  /\ _evaluate_single_rule noon tokyo_rule empty_tick = true
  /\ execute noon tokyo_strategy empty_tick
     = Some (_generate_signal noon tokyo_strategy empty_tick).
Proof. by vm_compute. Qed.

End FailClosed.

(** ** The posterior update *)

Section Posterior.
Import BayesianProbability.

Lemma _calculate_likelihood_range cond hp outcome :
  0.1 <= _calculate_likelihood cond hp outcome <= 0.9.
Proof. unfold _calculate_likelihood. apply clamp_range. lra. Qed.

Lemma marginal_lower_bound (ls lf p : Q) :
  0.1 <= ls -> 0.1 <= lf -> 0 <= p <= 1 -> 0.1 <= ls * p + lf * (1 - p).
Proof. intros Hs Hf Hp. nra. Qed.

Lemma marginal_nonzero prior cond hp :
  0 <= prior <= 100 ->
  0.1 <= _calculate_likelihood cond hp "success" * (prior / 100)
         + _calculate_likelihood cond hp "failure" * (1 - prior / 100).
Proof.
  intros Hprior.
  pose proof (_calculate_likelihood_range cond hp "success") as Hs.
  pose proof (_calculate_likelihood_range cond hp "failure") as Hf.
  apply marginal_lower_bound; [tauto | tauto |]. div_literals. lra.
Qed.

Lemma posterior_body_returns prior cond hp :
  0 <= prior <= 100 ->
  let p_success := prior / 100 in
  let ls := _calculate_likelihood cond hp "success" in
  let lf := _calculate_likelihood cond hp "failure" in
  posterior_body prior cond hp
  = Py.Return (Py.max 0 (Py.min 100
      (ls * p_success / (ls * p_success + lf * (1 - p_success)) * 100))).
Proof.
  intros Hprior p_success ls lf.
  pose proof (marginal_nonzero prior cond hp Hprior) as Hm.
  unfold posterior_body, Py.truediv.
  fold p_success. fold ls. fold lf. fold p_success in Hm. fold ls in Hm. fold lf in Hm.
  assert (Hz : Qeq_bool (ls * p_success + lf * (1 - p_success)) 0 = false).
  { apply Qeq_bool_false. lra. }
  by rewrite Hz.
Qed.

Lemma posterior_value prior cond hp :
  0 <= prior <= 100 ->
  let p_success := prior / 100 in
  let ls := _calculate_likelihood cond hp "success" in
  let lf := _calculate_likelihood cond hp "failure" in
  calculate_posterior_probability prior cond hp
  = Py.max 0 (Py.min 100
      (ls * p_success / (ls * p_success + lf * (1 - p_success)) * 100)).
Proof.
  intros Hprior. simpl. unfold calculate_posterior_probability.
  by rewrite (posterior_body_returns prior cond hp Hprior).
Qed.



Lemma bayes_quotient_above_prior (ls lf p : Q) :
  0 < ls -> 0 < lf -> 0 < p < 1 ->
  let m := ls * p + lf * (1 - p) in
  (p < ls * p / m <-> lf < ls) /\ 0 < ls * p / m < 1.
Proof.
  intros Hs Hf Hp m.
  assert (Hm : 0 < m) by (unfold m; nra).
  assert (Hq : ls * p / m * m == ls * p) by (field; lra).
  set (q := ls * p / m) in *.
  assert (Hlm : lf < ls <-> m < ls) by (unfold m; split; intros; nra).
  assert (Hq0 : 0 < q) by nra.
  assert (Hq1 : q < 1) by (unfold m in *; nra).
  split; [| lra]. rewrite Hlm. split; intros H; nra.
Qed.

Lemma bayes_update_lower_bound (ls lf p : Q) :
  0 < lf -> lf <= ls -> ls <= 0.9 -> 0 <= p <= 1 ->
  let m := ls * p + lf * (1 - p) in
  p * (1 - p) * (ls - lf) <= ls * p / m - p /\ ls * p / m <= 1.
Proof.
  intros Hf Hs Hs9 Hp m.
  assert (Hm : 0 < m <= 0.9) by (unfold m; nra).
  assert (Hq : ls * p / m * m == ls * p) by (field; lra).
  set (q := ls * p / m) in *.
  assert (Hd : (q - p) * m == p * (1 - p) * (ls - lf)) by (unfold m in *; nra).
  assert (Hd0 : 0 <= p * (1 - p) * (ls - lf)).
  { apply Qmult_le_0_compat; [apply Qmult_le_0_compat |]; lra. }
  clearbody q. split; [nra |].
  assert (Hlm : q * m <= 1 * m) by (unfold m in *; nra).
  nra.
Qed.

(** C5, as the code has it. The update compares the likelihood of the
    conditions given success with the likelihood given failure; the prior
    plays no part in the comparison. For a prior win rate from 1 to 99 and
    rates of ordinary size, when the likelihood given success exceeds the
    likelihood given failure by 0.01 or more, the posterior exceeds the
    prior, by at least prior x (100 - prior) x difference / 100. The margins
    keep the statement clear of the rounding of binary arithmetic, and the
    size of the rates clear of an integer that no float holds, for which
    the [except] branch returns the prior. With prior 60 and a trending
    success rate of 0.7 the posterior exceeds 60. *)
Theorem posterior_above_prior_when_success_likelier prior cond hp :
  1 <= prior <= 99 ->
  map_Forall (fun _ rate => Rounding.ordinary rate) (rates hp) ->
  let ls := _calculate_likelihood cond hp "success" in
  let lf := _calculate_likelihood cond hp "failure" in
  lf + 0.01 <= ls ->
  prior < calculate_posterior_probability prior cond hp
  /\ prior * (100 - prior) * (ls - lf) / 100
     <= calculate_posterior_probability prior cond hp - prior
  /\ 60 < calculate_posterior_probability 60 Examples.trending_normal
            Examples.test_table.
Proof.
  intros Hprior _ ls lf Hgap.
  assert (Hbound : prior * (100 - prior) * (ls - lf) / 100
                   <= calculate_posterior_probability prior cond hp - prior).
  { rewrite (posterior_value prior cond hp) by lra. fold ls lf.
    pose proof (_calculate_likelihood_range cond hp "success") as Hs.
    pose proof (_calculate_likelihood_range cond hp "failure") as Hf.
    fold ls in Hs. fold lf in Hf.
    destruct (bayes_update_lower_bound ls lf (prior / 100)) as [Hlow Hq];
      [lra | lra | lra | div_literals; lra |].
    simpl in Hlow, Hq.
    set (q := ls * (prior / 100) / (ls * (prior / 100) + lf * (1 - prior / 100))) in *.
    assert (Hq0 : 0 <= q).
    { assert (0 <= prior / 100 * (1 - prior / 100) * (ls - lf)); [| div_literals; lra].
      apply Qmult_le_0_compat; [apply Qmult_le_0_compat |]; div_literals; lra. }
    rewrite (clamp_id 0 100 (q * 100)) by lra.
    clearbody q. div_literals. lra. }
  split; [| split; [exact Hbound | by vm_compute]].
  assert (0 < prior * (100 - prior) * (ls - lf) / 100); [| lra].
  assert (0 < prior * (100 - prior) * (ls - lf)); [| div_literals; lra].
  apply Qmult_lt_0_compat; [apply Qmult_lt_0_compat |]; lra.
Qed.

(** With the same table, prior 60 and a trending regime. *)
Lemma posterior_above_prior_at_60 :
  (1 <= 60 <= 99)
  /\ 60 < calculate_posterior_probability 60 Examples.trending_normal
            Examples.test_table.
Proof.
  split; [lra |].
  destruct (posterior_above_prior_when_success_likelier 60 Examples.trending_normal
              Examples.test_table) as (H & _); [lra | | by vm_compute | exact H].
  apply map_Forall_insert_2; [vm_compute; discriminate |].
  apply map_Forall_singleton. vm_compute. discriminate.
Defined.

(** C5, as stated, fails: in a ranging regime the table gives the success
    rate 0.4, above the prior 30 taken as a probability, and the posterior
    is below the prior. *)
Lemma higher_regime_rate_lower_posterior :
  30 / 100 < default 0.5 (rates Examples.test_table !! "ranging_success_rate")
  /\ calculate_posterior_probability 30 Examples.ranging_normal Examples.test_table
     < 30.
Proof. by vm_compute. Qed.

End Posterior.

(** ** The scorer *)

Section Scorer.
Import SignalScorer ScorerSpec.

Lemma py_max_Qmax (a b : Q) : Py.max a b == Qmax a b.
Proof.
  unfold Py.max. destruct (Q.max_spec a b) as [[H ->]|[H ->]]; cmp_cases; lra.
Qed.

Lemma _calculate_risk_reward_factor_mono (r r' : Q) :
  r <= r' -> _calculate_risk_reward_factor r <= _calculate_risk_reward_factor r'.
Proof.
  intros H. unfold _calculate_risk_reward_factor, Py.max. cmp_cases; lra.
Qed.

(** C8. The risk/reward factor is the piecewise function of the ratio that
    the specification gives, it is monotonic, and it maps 1 to 3, 2 to 7,
    3 to 10, 0.5 to 1.5 and 4 to 10. *)
Theorem risk_reward_factor_piecewise_monotonic :
  (forall ratio, exists v,
      risk_reward_spec ratio v /\ _calculate_risk_reward_factor ratio == v)
  /\ (forall r r', r <= r' ->
        _calculate_risk_reward_factor r <= _calculate_risk_reward_factor r')
  /\ _calculate_risk_reward_factor 1 == 3
  /\ _calculate_risk_reward_factor 2 == 7
  /\ _calculate_risk_reward_factor 3 == 10
  /\ _calculate_risk_reward_factor 0.5 == 1.5
  /\ _calculate_risk_reward_factor 4 == 10.
Proof.
  split; [| split; [apply _calculate_risk_reward_factor_mono | by vm_compute]].
  intros ratio. unfold _calculate_risk_reward_factor.
  destruct (Qle_bool 3 ratio) eqn:E3.
  { apply Qle_bool_iff in E3. exists 10. split; [by constructor | reflexivity]. }
  apply Qle_bool_false in E3.
  destruct (Qle_bool 2 ratio) eqn:E2.
  { apply Qle_bool_iff in E2. eexists. split; [by apply rr_from_2_to_3 | ring]. }
  apply Qle_bool_false in E2.
  destruct (Qle_bool 1 ratio) eqn:E1.
  { apply Qle_bool_iff in E1. eexists. split; [by apply rr_from_1_to_2 | ring]. }
  apply Qle_bool_false in E1.
  eexists. split; [by apply rr_below_1 |].
  rewrite py_max_Qmax. by rewrite (Qmult_comm ratio 3).
Qed.

(** The factor does not decrease from ratio 1 to ratio 2. *)
Lemma risk_reward_factor_from_1_to_2 :
  1 <= 2
  /\ _calculate_risk_reward_factor 1 <= _calculate_risk_reward_factor 2.
Proof.
  split; [lra |].
  destruct risk_reward_factor_piecewise_monotonic as (_ & H & _).
  apply H. lra.
Defined.

Lemma truthy_nonempty (w : gmap string Q) : w <> ∅ -> truthy w = true.
Proof. intros H. unfold truthy. by rewrite bool_decide_eq_false_2. Qed.

(** C9, as the code has it. A non-empty map of weights from 0 to a billion
    raises [ValueError] when its values sum to more than 0.01 away from
    1.0, and is kept unchanged when they sum to 1.0 within 0.01, each with
    a margin of one millionth for the rounding of the sum; a map that is
    accepted is never changed. An empty map is taken as no map at all, like
    [None]: the default weights are used and nothing is raised. *)
Theorem init_validates_nonempty_weights (w : gmap string Q) :
  w <> ∅ -> ordinary_weights w ->
  (clear_of_tolerance (sum_values w) -> __init__ (Some w) = Py.Raise "ValueError")
  /\ (well_within_tolerance (sum_values w) ->
        __init__ (Some w) = Py.Return {| weights := w |})
  /\ (forall self, __init__ (Some w) = Py.Return self -> weights self = w)
  /\ __init__ (Some ∅) = Py.Return {| weights := WEIGHTS |}
  /\ __init__ None = Py.Return {| weights := WEIGHTS |}.
Proof.
  intros Hne _.
  unfold clear_of_tolerance, well_within_tolerance, __init__, Py.abs.
  rewrite (truthy_nonempty w Hne).
  repeat split; try done.
  - intros H. cmp_cases; [done | lra].
  - intros H. cmp_cases; [lra | done].
  - intros self. cmp_cases; [done | by intros [= <-]].
Qed.

(** A one-entry map that sums to 0.9 is refused. *)
Lemma light_weights_are_refused :
  Examples.light_weights <> ∅
  /\ clear_of_tolerance (sum_values Examples.light_weights)
  /\ __init__ (Some Examples.light_weights) = Py.Raise "ValueError".
Proof.
  assert (Hne : Examples.light_weights <> ∅) by apply map_non_empty_singleton.
  assert (Hpos : ordinary_weights Examples.light_weights).
  { apply map_Forall_singleton. lra. }
  assert (Hout : clear_of_tolerance (sum_values Examples.light_weights)).
  { unfold clear_of_tolerance. vm_compute. discriminate. }
  split; [exact Hne |]. split; [exact Hout |].
  destruct (init_validates_nonempty_weights Examples.light_weights Hne Hpos) as (H & _).
  apply H. exact Hout.
Defined.

(** C9, as stated, fails: the values of the empty weight map sum to 0, not
    to 1.0 within the tolerance, and the constructor raises nothing. *)
Lemma empty_weights_are_accepted :
  ~ within_tolerance (sum_values ∅)
  /\ __init__ (Some ∅) = Py.Return {| weights := WEIGHTS |}.
Proof.
  split; [| done]. unfold within_tolerance. vm_compute. intros H. by apply H.
Qed.


End Scorer.

(** ** The simulation *)

Section Simulation.
Import MonteCarloSimulator.

Lemma run_simulations_length draws p_win avg_win avg_loss n_trades capital n pos :
  length (run_simulations draws p_win avg_win avg_loss n_trades capital n pos).1 = n.
Proof.
  revert pos. induction n as [|n IH]; intros pos; simpl; [done |].
  destruct (run_trades _ _ _ _ _ _ _) as [c pos'].
  specialize (IH pos').
  destruct (run_simulations _ _ _ _ _ _ _ _) as [cs pos'']. simpl in *. lia.
Qed.

Lemma count_range mask xs :
  0 <= count mask xs <= inject_Z (Z.of_nat (length xs)).
Proof.
  unfold count. pose proof (List.filter_length_le mask xs) as H.
  change 0 with (inject_Z 0). rewrite <- !Zle_Qle. lia.
Qed.

Lemma percentage_range (k n : Q) : 0 < n -> 0 <= k <= n -> 0 <= k / n * 100 <= 100.
Proof.
  intros Hn Hk.
  assert (H0 : 0 <= k / n) by (apply Qle_shift_div_l; lra).
  assert (H1 : k / n <= 1) by (apply Qle_shift_div_r; lra).
  lra.
Qed.

Lemma probability_of_profit_range draws self win_rate avg_win avg_loss n_trades capital :
  (0 < n_simulations self)%N ->
  0 <= probability_of_profit
         (simulate_strategy_performance draws self win_rate avg_win avg_loss
            n_trades capital) <= 100.
Proof.
  intros Hn. unfold simulate_strategy_performance. simpl.
  apply (round_between 0 100). apply percentage_range.
  - change 0 with (inject_Z 0). rewrite <- Zlt_Qlt. lia.
  - match goal with |- context [count ?m ?xs] => pose proof (count_range m xs) as H end.
    rewrite run_simulations_length in H. by rewrite N_nat_Z in H.
Qed.

(** When every draw is below the win probability, every trade wins and the
    capital grows. *)
Lemma run_trades_all_win draws p avg_win avg_loss n capital pos :
  (forall k, draws k < p) -> 0 < avg_win -> 0 < capital ->
  capital <= (run_trades draws p avg_win avg_loss n capital pos).1
  /\ (n <> 0%nat -> capital < (run_trades draws p avg_win avg_loss n capital pos).1).
Proof.
  intros Hd Hw. revert capital pos.
  induction n as [|n IH]; intros capital pos Hc; simpl.
  { split; [lra | done]. }
  rewrite (proj2 (Qlt_bool_true _ _) (Hd pos)).
  assert (Hgrow : capital < Qred (capital + capital * (avg_win / 100))).
  { rewrite Qred_correct. div_literals. nra. }
  set (c := Qred (capital + capital * (avg_win / 100))) in *. clearbody c.
  rewrite (proj2 (Qle_bool_false c 0)) by lra.
  destruct (IH c (S pos)) as [Hle _]; [lra |].
  split; [lra | intros _; lra].
Qed.

(** When no draw is below the win probability, every trade loses and the
    capital does not grow. *)
Lemma run_trades_all_lose draws p avg_win avg_loss n capital pos :
  (forall k, p <= draws k) -> avg_loss <= 0 -> 0 <= capital ->
  (run_trades draws p avg_win avg_loss n capital pos).1 <= capital.
Proof.
  intros Hd Hl. revert capital pos.
  induction n as [|n IH]; intros capital pos Hc; simpl; [lra |].
  rewrite (proj2 (Qlt_bool_false _ _) (Hd pos)).
  assert (Hshrink : Qred (capital + capital * (avg_loss / 100)) <= capital).
  { rewrite Qred_correct. div_literals. nra. }
  set (c := Qred (capital + capital * (avg_loss / 100))) in *. clearbody c.
  destruct (Qle_bool c 0) eqn:E; simpl; [done |].
  apply Qle_bool_false in E.
  specialize (IH c (S pos)). lra.
Qed.

Lemma run_simulations_Forall (P : Q -> Prop) draws p avg_win avg_loss n_trades capital
    n pos :
  (forall pos, P (run_trades draws p avg_win avg_loss n_trades capital pos).1) ->
  Forall P (run_simulations draws p avg_win avg_loss n_trades capital n pos).1.
Proof.
  intros H. revert pos. induction n as [|n IH]; intros pos; simpl; [constructor |].
  pose proof (H pos) as Hc.
  destruct (run_trades _ _ _ _ _ _ _) as [c pos'].
  specialize (IH pos').
  destruct (run_simulations _ _ _ _ _ _ _ _) as [cs pos'']. by constructor.
Qed.

Lemma count_all mask xs :
  Forall (fun x => mask x = true) xs -> count mask xs = inject_Z (Z.of_nat (length xs)).
Proof.
  intros H. unfold count. f_equal. f_equal. f_equal.
  induction H as [|x xs Hx _ IH]; simpl; [done |]. rewrite Hx. simpl. by f_equal.
Qed.

Lemma count_none mask xs :
  Forall (fun x => mask x = false) xs -> count mask xs = 0.
Proof.
  intros H. unfold count.
  assert (Hnil : List.filter mask xs = []).
  { induction H as [|x xs Hx _ IH]; simpl; [done |]. by rewrite Hx. }
  by rewrite Hnil.
Qed.

Lemma probability_of_profit_all_win draws self win_rate avg_win avg_loss n_trades
    capital :
  (forall k, draws k < win_rate / 100) -> 0 < avg_win -> 0 < capital ->
  n_trades <> 0%nat -> (0 < n_simulations self)%N ->
  probability_of_profit
    (simulate_strategy_performance draws self win_rate avg_win avg_loss n_trades capital)
  = 100.
Proof.
  intros Hd Hw Hc Ht Hn. unfold simulate_strategy_performance. simpl.
  rewrite count_all.
  - rewrite run_simulations_length, N_nat_Z.
    transitivity (Py.round 100 2); [| by vm_compute].
    apply round_comp. field.
    change 0 with (inject_Z 0). rewrite inject_Z_injective. lia.
  - apply run_simulations_Forall. intros pos. apply Qlt_bool_true.
    by apply run_trades_all_win.
Qed.

Lemma probability_of_profit_all_lose draws self win_rate avg_win avg_loss n_trades
    capital :
  (forall k, win_rate / 100 <= draws k) -> avg_loss <= 0 -> 0 <= capital ->
  (0 < n_simulations self)%N ->
  probability_of_profit
    (simulate_strategy_performance draws self win_rate avg_win avg_loss n_trades capital)
  = 0.
Proof.
  intros Hd Hl Hc Hn. unfold simulate_strategy_performance. simpl.
  rewrite count_none.
  - transitivity (Py.round 0 2); [| by vm_compute].
    apply round_comp. field.
    change 0 with (inject_Z 0). rewrite inject_Z_injective. lia.
  - apply run_simulations_Forall. intros pos. apply Qlt_bool_false.
    by apply run_trades_all_lose.
Qed.

End Simulation.

(** ** The pipeline *)

Section Pipeline.
Import SignalPipeline.

(** C7. The backtest gate passes exactly the summaries with enough trades,
    a high enough win rate and Sharpe ratio and a low enough drawdown, all
    bounds inclusive: one trade below the minimum is rejected, the minimum
    itself is accepted when the other three conditions hold. *)
Theorem _validate_backtest_iff cfg backtest :
  (_validate_backtest cfg backtest = true <->
     (MIN_BACKTEST_TRADES cfg <= total_trades backtest)%Z
     /\ MIN_WIN_RATE cfg <= win_rate backtest
     /\ MIN_SHARPE_RATIO cfg <= sharpe_ratio backtest
     /\ max_drawdown backtest <= MAX_DRAWDOWN cfg)
  /\ (total_trades backtest = (MIN_BACKTEST_TRADES cfg - 1)%Z ->
        _validate_backtest cfg backtest = false)
  /\ (total_trades backtest = MIN_BACKTEST_TRADES cfg ->
        MIN_WIN_RATE cfg <= win_rate backtest ->
        MIN_SHARPE_RATIO cfg <= sharpe_ratio backtest ->
        max_drawdown backtest <= MAX_DRAWDOWN cfg ->
        _validate_backtest cfg backtest = true).
Proof.
  assert (Hiff : _validate_backtest cfg backtest = true <->
     (MIN_BACKTEST_TRADES cfg <= total_trades backtest)%Z
     /\ MIN_WIN_RATE cfg <= win_rate backtest
     /\ MIN_SHARPE_RATIO cfg <= sharpe_ratio backtest
     /\ max_drawdown backtest <= MAX_DRAWDOWN cfg).
  { unfold _validate_backtest.
    destruct (Z.ltb_spec (total_trades backtest) (MIN_BACKTEST_TRADES cfg)).
    { split; [done | lia]. }
    cmp_cases; split; try done; intros (_ & ? & ? & ?); lra. }
  split; [done |]. split.
  - intros Ht. apply not_true_iff_false. rewrite Hiff. lia.
  - intros Ht ? ? ?. apply Hiff. repeat split; [lia | done ..].
Qed.

(** One trade short of the default minimum of 100. *)
Lemma short_backtest_is_rejected :
  total_trades Examples.short_backtest = (MIN_BACKTEST_TRADES settings - 1)%Z
  /\ _validate_backtest settings Examples.short_backtest = false.
Proof.
  split; [reflexivity |].
  destruct (_validate_backtest_iff settings Examples.short_backtest) as (_ & H & _).
  apply H. reflexivity.
Defined.

End Pipeline.

Section PipelineGates.
Import SignalPipeline PipelineSpec.

(** C4. For a win rate in [0, 100] (and at least one simulation) the
    probability of the pipeline is 0.6 times the posterior plus 0.4 times
    the simulated probability of profit, rounded to two decimals, and it
    lies in [0, 100]. *)
Theorem _calculate_probability_combines w backtest market_data :
  0 <= win_rate backtest <= 100 ->
  (0 < MONTE_CARLO_SIMULATIONS (cfg w))%N ->
  let posterior :=
    BayesianProbability.calculate_posterior_probability (win_rate backtest)
      (or_empty market_data) historical_performance in
  let simulated :=
    MonteCarloSimulator.probability_of_profit
      (MonteCarloSimulator.simulate_strategy_performance (draws w)
         (monte_carlo_engine (cfg w)) (win_rate backtest) 5 (-2) 100 10000) in
  _calculate_probability w backtest market_data = combine posterior simulated
  /\ 0 <= _calculate_probability w backtest market_data <= 100.
Proof.
  intros Hw Hn posterior simulated.
  assert (Heq : _calculate_probability w backtest market_data
                = combine posterior simulated).
  { unfold _calculate_probability, combine. fold posterior. fold simulated.
    apply round_comp. ring. }
  split; [done |]. rewrite Heq. unfold combine.
  assert (Hp : 0 <= posterior <= 100).
  { unfold posterior.
    rewrite (posterior_value (win_rate backtest) (or_empty market_data)
               historical_performance Hw).
    apply (clamp_range 0 100). lra. }
  assert (Hs : 0 <= simulated <= 100).
  { unfold simulated. by apply probability_of_profit_range. }
  apply (round_between 0 100). change (inject_Z 0) with 0.
  change (inject_Z 100) with 100. lra.
Qed.

(** The backtest of the integration test. *)
Lemma mock_backtest_probability_in_range :
  (0 <= win_rate Examples.mock_backtest <= 100)
  /\ (0 < MONTE_CARLO_SIMULATIONS (cfg Examples.world))%N
  /\ 0 <= _calculate_probability Examples.world Examples.mock_backtest
            Examples.trending <= 100.
Proof.
  assert (Hw : 0 <= win_rate Examples.mock_backtest <= 100) by (simpl; lra).
  assert (Hn : (0 < MONTE_CARLO_SIMULATIONS (cfg Examples.world))%N) by (simpl; lia).
  split; [exact Hw |]. split; [exact Hn |].
  apply (_calculate_probability_combines Examples.world Examples.mock_backtest
           Examples.trending Hw Hn).
Defined.

Lemma generate_signal_vetoed w db strategy_id symbol direction entry_price stop_loss
    take_profit market_data backtest :
  _get_latest_backtest db strategy_id = Some backtest ->
  _validate_backtest (cfg w) backtest = false
  \/ computed_score w backtest entry_price stop_loss take_profit market_data
     < MIN_SIGNAL_SCORE (cfg w)
  \/ _calculate_probability w backtest market_data < MIN_PROBABILITY (cfg w) ->
  generate_signal w db strategy_id symbol direction entry_price stop_loss take_profit
    market_data = (None, db).
Proof.
  intros Hb Hveto. unfold generate_signal, computed_score in *. rewrite Hb.
  destruct (_get_strategy db strategy_id) as [strategy|]; [| done].
  destruct (_validate_backtest (cfg w) backtest); simpl; [| done].
  destruct Hveto as [H|[H|H]]; [done | |].
  - by rewrite (proj2 (Qlt_bool_true _ _) H).
  - rewrite (proj2 (Qlt_bool_true _ _) H). by destruct (Py.Qlt_bool _ _).
Qed.

Lemma generate_signal_gated w db strategy_id symbol direction entry_price stop_loss
    take_profit market_data :
  let run :=
    generate_signal w db strategy_id symbol direction entry_price stop_loss
      take_profit market_data in
  run.1 <> None \/ added run.2 <> added db ->
  exists strategy backtest,
    _get_strategy db strategy_id = Some strategy
    /\ _get_latest_backtest db strategy_id = Some backtest
    /\ gates_pass w backtest entry_price stop_loss take_profit market_data.
Proof.
  intros run. subst run. unfold generate_signal, gates_pass, computed_score.
  destruct (_get_strategy db strategy_id) as [strategy|]; simpl;
    [| intros [?|?]; done].
  destruct (_get_latest_backtest db strategy_id) as [backtest|]; simpl;
    [| intros [?|?]; done].
  destruct (_validate_backtest (cfg w) backtest) eqn:Hv; simpl;
    [| intros [?|?]; done].
  destruct (Py.Qlt_bool _ (MIN_SIGNAL_SCORE _)) eqn:Hscore; simpl;
    [intros [?|?]; done |].
  destruct (Py.Qlt_bool _ (MIN_PROBABILITY _)) eqn:Hprob; simpl;
    [intros [?|?]; done |].
  apply Qlt_bool_false in Hscore, Hprob.
  intros _. by exists strategy, backtest.
Qed.

Lemma generate_signal_reports w db strategy_id symbol direction entry_price stop_loss
    take_profit market_data signal backtest :
  let run :=
    generate_signal w db strategy_id symbol direction entry_price stop_loss
      take_profit market_data in
  run.1 = Some signal ->
  _get_latest_backtest db strategy_id = Some backtest ->
  probability_score signal = _calculate_probability w backtest market_data
  /\ signal_score signal
     = computed_score w backtest entry_price stop_loss take_profit market_data
  /\ added run.2 = added db ++ [signal]
  /\ signals run.2 = signals db ++ [signal].
Proof.
  intros run. subst run. unfold generate_signal, computed_score.
  intros Hrun Hb. rewrite Hb in Hrun. rewrite Hb. revert Hrun.
  destruct (_get_strategy db strategy_id) as [strategy|]; simpl; [| done].
  destruct (_validate_backtest (cfg w) backtest); simpl; [| done].
  destruct (Py.Qlt_bool _ (MIN_SIGNAL_SCORE _)); simpl; [done |].
  destruct (Py.Qlt_bool _ (MIN_PROBABILITY _)); simpl; [done |].
  destruct (build_signal_context _ strategy backtest _); simpl; [| done].
  unfold add_and_commit. destruct (commit_ok db); simpl; [| done].
  destruct (refresh_ok db); simpl; [| done].
  by intros [= <-].
Qed.

(** The converse of the gates: when the rows exist, the gates pass, the
    context can be built and the commit and the refresh succeed, a signal is
    returned. *)
Lemma generate_signal_accepts w db strategy_id symbol direction entry_price stop_loss
    take_profit market_data strategy backtest e :
  _get_strategy db strategy_id = Some strategy ->
  _get_latest_backtest db strategy_id = Some backtest ->
  gates_pass w backtest entry_price stop_loss take_profit market_data ->
  expectancy backtest = Some e ->
  commit_ok db = true ->
  refresh_ok db = true ->
  (generate_signal w db strategy_id symbol direction entry_price stop_loss take_profit
     market_data).1 <> None.
Proof.
  intros Hs Hb (Hv & Hscore & Hprob) He Hc Hr.
  unfold generate_signal, computed_score in *. rewrite Hs, Hb, Hv. simpl.
  rewrite (proj2 (Qlt_bool_false _ _) Hscore), (proj2 (Qlt_bool_false _ _) Hprob).
  unfold build_signal_context, add_and_commit. rewrite He. simpl.
  rewrite Hc. simpl. by rewrite Hr.
Qed.

(** C1. A [Signal] is built and handed to the session only when the
    strategy and its backtest exist, the backtest gate passes, the score
    reaches [MIN_SIGNAL_SCORE] and the probability reaches
    [MIN_PROBABILITY]; if the gate or either threshold fails, the call
    returns [None] and leaves the session as it was. A returned signal
    reports the computed score and probability. *)
Theorem generate_signal_only_through_gates w db strategy_id symbol direction
    entry_price stop_loss take_profit market_data :
  let run :=
    generate_signal w db strategy_id symbol direction entry_price stop_loss
      take_profit market_data in
  (run.1 <> None \/ added run.2 <> added db ->
     exists strategy backtest,
       _get_strategy db strategy_id = Some strategy
       /\ _get_latest_backtest db strategy_id = Some backtest
       /\ gates_pass w backtest entry_price stop_loss take_profit market_data)
  /\ (forall backtest,
        _get_latest_backtest db strategy_id = Some backtest ->
        _validate_backtest (cfg w) backtest = false
        \/ computed_score w backtest entry_price stop_loss take_profit market_data
           < MIN_SIGNAL_SCORE (cfg w)
        \/ _calculate_probability w backtest market_data < MIN_PROBABILITY (cfg w) ->
        run = (None, db))
  /\ (forall signal backtest,
        run.1 = Some signal ->
        _get_latest_backtest db strategy_id = Some backtest ->
        probability_score signal = _calculate_probability w backtest market_data
        /\ signal_score signal
           = computed_score w backtest entry_price stop_loss take_profit market_data
        /\ added run.2 = added db ++ [signal]
        /\ signals run.2 = signals db ++ [signal]).
Proof.
  intros run. subst run. split; [| split].
  - apply generate_signal_gated.
  - intros backtest. apply generate_signal_vetoed.
  - intros signal backtest. apply generate_signal_reports.
Qed.

(** The simulated probability of profit when every trade wins, and when
    every trade loses. *)
Lemma _calculate_probability_simulated w backtest market_data v :
  MonteCarloSimulator.probability_of_profit
    (MonteCarloSimulator.simulate_strategy_performance (draws w)
       (monte_carlo_engine (cfg w)) (win_rate backtest) 5 (-2) 100 10000) = v ->
  _calculate_probability w backtest market_data
  = Py.round
      (BayesianProbability.calculate_posterior_probability (win_rate backtest)
         (or_empty market_data) historical_performance * 0.6 + v * 0.4) 2.
Proof. intros H. unfold _calculate_probability. by rewrite H. Qed.

Lemma integration_scenario_probability :
  _calculate_probability Examples.world Examples.mock_backtest Examples.trending
  = 83.33.
Proof.
  rewrite (_calculate_probability_simulated _ _ _ 100); [by vm_compute |].
  apply probability_of_profit_all_win; simpl; done.
Qed.

(** The scenario of the integration test is accepted, so its gates pass. *)
Lemma integration_scenario_passes_gates :
  (generate_signal Examples.world Examples.db "test-strat" "BTCUSDT" "BUY"
     50000 49000 52000 Examples.trending).1 <> None
  /\ exists strategy backtest,
       _get_strategy Examples.db "test-strat" = Some strategy
       /\ _get_latest_backtest Examples.db "test-strat" = Some backtest
       /\ gates_pass Examples.world backtest 50000 49000 52000 Examples.trending.
Proof.
  assert (Hrun : (generate_signal Examples.world Examples.db "test-strat" "BTCUSDT"
                    "BUY" 50000 49000 52000 Examples.trending).1 <> None).
  { apply (generate_signal_accepts _ _ _ _ _ _ _ _ _
             {| name := "Test Strategy" |} Examples.mock_backtest 0.5);
      try reflexivity.
    unfold gates_pass, computed_score.
    rewrite integration_scenario_probability. by vm_compute. }
  split; [exact Hrun |].
  pose proof (generate_signal_only_through_gates Examples.world Examples.db
                "test-strat" "BTCUSDT" "BUY" 50000 49000 52000 Examples.trending) as H.
  cbv zeta in H. destruct H as (H & _ & _). apply H. left. exact Hrun.
Defined.

End PipelineGates.

(** ** The examples of the test suite *)

Section TestSuite.

(** [tests/test_scoring.py]: good metrics score above 6, poor ones below 5. *)
Example test_signal_scoring_logic :
  SignalScorer.calculate_signal_score SignalScorer.signal_scorer 75
    {[ "win_rate" := 65; "sharpe_ratio" := 1.5 ]} "trending" {[ "trending" := 70 ]}
    2.5 "normal" "normal" == 7.2.
Proof. by vm_compute. Qed.

Example test_signal_score_filters_poor_metrics :
  SignalScorer.calculate_signal_score SignalScorer.signal_scorer 40
    {[ "win_rate" := 30; "sharpe_ratio" := 0.5; "profit_factor" := 0.8 ]} "choppy"
    {[ "choppy" := 30 ]} 1 "high" "low" == 3.3.
Proof. by vm_compute. Qed.

(** [tests/test_integration.py]: the pipeline accepts the candidate with
    probability 83.33 and score 7.4. *)
Example test_signal_pipeline_flow :
  let run :=
    SignalPipeline.generate_signal Examples.world Examples.db "test-strat" "BTCUSDT"
      "BUY" 50000 49000 52000 Examples.trending in
  forall signal, run.1 = Some signal ->
    SignalPipeline.probability_score signal == 83.33
    /\ SignalPipeline.signal_score signal == 7.4
    /\ SignalPipeline.signals run.2 = [signal].
Proof.
  intros run signal Hrun. subst run.
  destruct (generate_signal_reports _ _ _ _ _ _ _ _ _ signal Examples.mock_backtest
              Hrun eq_refl) as (Hp & Hs & _ & Hsig).
  rewrite Hp, Hs, Hsig. clear Hrun Hp Hs Hsig.
  unfold PipelineSpec.computed_score. rewrite integration_scenario_probability.
  by vm_compute.
Qed.

(** The score alone vetoes: in the end-to-end scenario of the specification
    (150 trades, win rate 60, Sharpe 2, drawdown 10, reward twice the risk,
    no regime) the probability 76 passes and the score 6.8 does not. *)
Example score_alone_vetoes :
  let db := Examples.db_with Examples.scenario_backtest in
  SignalPipeline._validate_backtest Examples.quick_settings Examples.scenario_backtest
  = true
  /\ SignalPipeline._calculate_probability Examples.world Examples.scenario_backtest None
     == 76
  /\ PipelineSpec.computed_score Examples.world Examples.scenario_backtest
       100 99.998 100.004 None == 6.8
  /\ SignalPipeline.generate_signal Examples.world db "test-strat" "EURUSD" "BUY"
       100 99.998 100.004 None = (None, db).
Proof.
  assert (Hp : SignalPipeline._calculate_probability Examples.world
                 Examples.scenario_backtest None = 76).
  { rewrite (_calculate_probability_simulated _ _ _ 100); [by vm_compute |].
    apply probability_of_profit_all_win; simpl; done. }
  assert (Hs : PipelineSpec.computed_score Examples.world Examples.scenario_backtest
                 100 99.998 100.004 None == 6.8).
  { unfold PipelineSpec.computed_score. rewrite Hp. by vm_compute. }
  split; [reflexivity |]. split; [rewrite Hp; reflexivity |]. split; [exact Hs |].
  apply (generate_signal_vetoed _ _ _ _ _ _ _ _ _ Examples.scenario_backtest);
    [reflexivity |].
  right. left. rewrite Hs. by vm_compute.
Qed.

(** The probability alone vetoes: with a strong summary and a run of
    losing trades the score 7.6 passes and the probability 55.59 does not. *)
Example probability_alone_vetoes :
  let db := Examples.db_with Examples.strong_backtest in
  SignalPipeline._validate_backtest Examples.quick_settings Examples.strong_backtest
  = true
  /\ SignalPipeline._calculate_probability Examples.losing_world
       Examples.strong_backtest Examples.trending == 55.59
  /\ PipelineSpec.computed_score Examples.losing_world Examples.strong_backtest
       50000 49000 53000 Examples.trending == 7.6
  /\ SignalPipeline.generate_signal Examples.losing_world db "test-strat" "BTCUSDT"
       "BUY" 50000 49000 53000 Examples.trending = (None, db).
Proof.
  assert (Hp : SignalPipeline._calculate_probability Examples.losing_world
                 Examples.strong_backtest Examples.trending = 55.59).
  { rewrite (_calculate_probability_simulated _ _ _ 0); [by vm_compute |].
    apply probability_of_profit_all_lose; simpl; done. }
  assert (Hs : PipelineSpec.computed_score Examples.losing_world
                 Examples.strong_backtest 50000 49000 53000 Examples.trending == 7.6).
  { unfold PipelineSpec.computed_score. rewrite Hp. by vm_compute. }
  split; [reflexivity |]. split; [rewrite Hp; reflexivity |]. split; [exact Hs |].
  apply (generate_signal_vetoed _ _ _ _ _ _ _ _ _ Examples.strong_backtest);
    [reflexivity |].
  right. right. rewrite Hp. by vm_compute.
Qed.

(** The gate at its boundary, with the default settings. *)
Example backtest_gate_boundary :
  SignalPipeline._validate_backtest settings Examples.short_backtest = false
  /\ SignalPipeline._validate_backtest settings Examples.mock_backtest = true.
Proof. by vm_compute. Qed.

(** An RSI rule on a tick with RSI 25 and close 100. *)
Example rsi_oversold_candidate :
  let rule :=
    {| StrategyExecutor.type := Some "technical"%string;
       StrategyExecutor.condition := Some "rsi_oversold"%string;
       StrategyExecutor.parameters :=
         Some {| StrategyExecutor.threshold := Some 30;
                 StrategyExecutor.period := None |} |} in
  let tick :=
    {| StrategyExecutor.symbol := Some "EURUSD"%string;
       StrategyExecutor.close := Some 100;
       StrategyExecutor.indicators := Some {[ "rsi" := 25 ]} |} in
  let candidate :=
    StrategyExecutor.execute Examples.noon (Examples.strategy_of None [rule]) tick in
  (StrategyExecutor.sig_direction <$> candidate) = Some "BUY"%string
  /\ from_option StrategyExecutor.sig_stop_loss 0 candidate == 99.998
  /\ from_option StrategyExecutor.sig_take_profit 0 candidate == 100.004.
Proof. by vm_compute. Qed.

End TestSuite.

(** * Further properties *)

(** ** More facts about rounding *)

Lemma round_half_even_error (x : Q) :
  inject_Z (Py.round_half_even x) - (1 # 2) <= x
  /\ x <= inject_Z (Py.round_half_even x) + (1 # 2).
Proof.
  unfold Py.round_half_even.
  pose proof (Qfloor_le x) as Hf. pose proof (Qlt_floor x) as Hc.
  rewrite inject_Z_plus in Hc. change (inject_Z 1) with 1 in Hc.
  destruct (Qcompare_spec (x - inject_Z (Qfloor x)) (1 # 2)) as [E|E|E].
  - destruct (Z.even (Qfloor x)).
    + lra.
    + rewrite inject_Z_plus. change (inject_Z 1) with 1. lra.
  - lra.
  - rewrite inject_Z_plus. change (inject_Z 1) with 1. lra.
Qed.

Lemma round_half_even_mono (x y : Q) :
  x <= y -> (Py.round_half_even x <= Py.round_half_even y)%Z.
Proof.
  intros Hxy.
  destruct (Z.le_gt_cases (Py.round_half_even x) (Py.round_half_even y)) as [H|H];
    [done |].
  destruct (round_half_even_error x) as [Hx _].
  destruct (round_half_even_error y) as [_ Hy].
  assert (Hz : inject_Z (Py.round_half_even y) + 1 <= inject_Z (Py.round_half_even x)).
  { change 1 with (inject_Z 1). rewrite <- inject_Z_plus, <- Zle_Qle. lia. }
  assert (Heq : x == y) by lra.
  rewrite (round_half_even_comp x y Heq) in H. lia.
Qed.

Lemma round_half_even_Z (k : Z) : Py.round_half_even (inject_Z k) = k.
Proof.
  unfold Py.round_half_even. rewrite Qfloor_Z.
  destruct (Qcompare_spec (inject_Z k - inject_Z k) (1 # 2)) as [E|E|E]; [lra | done | lra].
Qed.

Lemma round_mono (x y : Q) (nd : nat) : x <= y -> Py.round x nd <= Py.round y nd.
Proof.
  intros Hxy. unfold Py.round. rewrite !Qred_correct.
  pose proof (pow10_pos nd) as Hp.
  assert (H : (Py.round_half_even (x * Py.pow10 nd)
               <= Py.round_half_even (y * Py.pow10 nd))%Z).
  { apply round_half_even_mono. nra. }
  rewrite Zle_Qle in H.
  apply Qle_shift_div_l; [done |].
  assert (Hd : inject_Z (Py.round_half_even (x * Py.pow10 nd)) / Py.pow10 nd
               * Py.pow10 nd
               == inject_Z (Py.round_half_even (x * Py.pow10 nd))) by (field; lra).
  lra.
Qed.

Lemma round_error (x : Q) (nd : nat) :
  Py.round x nd - (1 # 2) / Py.pow10 nd <= x
  /\ x <= Py.round x nd + (1 # 2) / Py.pow10 nd.
Proof.
  unfold Py.round. rewrite !Qred_correct.
  pose proof (pow10_pos nd) as Hp.
  destruct (round_half_even_error (x * Py.pow10 nd)) as [H1 H2].
  set (k := inject_Z (Py.round_half_even (x * Py.pow10 nd))) in *. clearbody k.
  assert (Hk : k / Py.pow10 nd - (1 # 2) / Py.pow10 nd
               == (k - (1 # 2)) / Py.pow10 nd) by (field; lra).
  assert (Hk' : k / Py.pow10 nd + (1 # 2) / Py.pow10 nd
                == (k + (1 # 2)) / Py.pow10 nd) by (field; lra).
  rewrite Hk, Hk'. split.
  - apply Qle_shift_div_r; [done | lra].
  - apply Qle_shift_div_l; [done | lra].
Qed.

Lemma round_exact (k : Z) (x : Q) (nd : nat) :
  x == inject_Z k / Py.pow10 nd -> Py.round x nd == x.
Proof.
  intros Hx. unfold Py.round. rewrite Qred_correct.
  pose proof (pow10_pos nd) as Hp.
  assert (Hk : x * Py.pow10 nd == inject_Z k) by (rewrite Hx; field; lra).
  rewrite (round_half_even_comp _ _ Hk), round_half_even_Z. by rewrite Hx.
Qed.

(** ** Values up to rounding *)

Lemma close_of_Qeq (x y : Q) : x == y -> Rounding.close x y.
Proof.
  intros H. unfold Rounding.close, Rounding.margin.
  assert (Hz : x - y == 0) by (rewrite H; ring).
  rewrite Hz. change (Qabs 0) with 0.
  pose proof (Qabs_nonneg y). nra.
Qed.


(** ** More of the rule engine *)

Section RuleEngineMore.
Import StrategyExecutor RuleEngine.

Lemma false_rule_blocks_strategy now rule md strategy :
  _evaluate_single_rule now rule md = false ->
  In rule (strategy_rules strategy) ->
  execute now strategy md = None.
Proof.
  intros Hf Hin. rewrite execute_cases.
  destruct (_evaluate_rules now (strategy_rules strategy) md) eqn:E;
    [| by rewrite andb_false_r].
  apply _evaluate_rules_spec in E as [_ Hall].
  rewrite Forall_forall in Hall.
  apply list_elem_of_In in Hin. specialize (Hall rule Hin). congruence.
Qed.

(** X1. A technical rule (RSI or EMA) is false on a tick that carries no
    indicator, so a strategy with such a rule yields no candidate for it. *)
Theorem technical_rule_needs_indicators now rule md :
  type rule = Some "technical"%string ->
  get_indicators md = ∅ ->
  _evaluate_single_rule now rule md = false
  /\ forall strategy, In rule (strategy_rules strategy) ->
       execute now strategy md = None.
Proof.
  intros Ht Hi.
  assert (Hf : _evaluate_single_rule now rule md = false).
  { unfold _evaluate_single_rule, _check_rsi, _check_above_ema.
    rewrite Ht, Hi. simpl. rewrite !lookup_empty.
    destruct (Py.eq_str (condition rule) "rsi_oversold"); [done |].
    destruct (Py.eq_str (condition rule) "rsi_overbought"); [done |].
    destruct (Py.eq_str (condition rule) "above_ema"); [| done].
    by destruct (close md). }
  split; [done |]. intros strategy. by apply false_rule_blocks_strategy.
Qed.

Lemma usdjpy_tick_blocks_rsi_rule :
  get_indicators MoreExamples.usdjpy_tick = ∅
  /\ execute Examples.noon
       (Examples.strategy_of None [MoreExamples.rsi_rule "rsi_oversold" None])
       MoreExamples.usdjpy_tick = None.
Proof.
  split; [reflexivity |].
  destruct (technical_rule_needs_indicators Examples.noon
              (MoreExamples.rsi_rule "rsi_oversold" None) MoreExamples.usdjpy_tick
              eq_refl eq_refl) as [_ H].
  apply H. simpl. by left.
Defined.

(** The threshold a rule of [_check_rsi] compares with. *)
Lemma _check_rsi_cases md params mode :
  _check_rsi md params mode = true ->
  exists rsi, get_indicators md !! "rsi" = Some rsi
    /\ if String.eqb mode "oversold"
       then rsi < default 30 (threshold params)
       else default 70 (threshold params) < rsi.
Proof.
  unfold _check_rsi. destruct (get_indicators md !! "rsi") as [rsi|]; [| done].
  intros H. exists rsi. split; [done |].
  destruct (String.eqb mode "oversold"); by apply Qlt_bool_true.
Qed.

(** X2. An oversold rule and an overbought rule whose thresholds do not
    cross (as the defaults 30 and 70) are never true together, so a strategy
    that has both yields no candidate. *)
Theorem rsi_rules_exclude_each_other now md oversold overbought :
  type oversold = Some "technical"%string ->
  condition oversold = Some "rsi_oversold"%string ->
  type overbought = Some "technical"%string ->
  condition overbought = Some "rsi_overbought"%string ->
  default 30 (threshold (default no_parameters (parameters oversold)))
  <= default 70 (threshold (default no_parameters (parameters overbought))) ->
  _evaluate_single_rule now oversold md && _evaluate_single_rule now overbought md
  = false
  /\ forall strategy,
       In oversold (strategy_rules strategy) ->
       In overbought (strategy_rules strategy) ->
       execute now strategy md = None.
Proof.
  intros Ht1 Hc1 Ht2 Hc2 Hle.
  assert (H1 : _evaluate_single_rule now oversold md
               = _check_rsi md (default no_parameters (parameters oversold)) "oversold").
  { unfold _evaluate_single_rule. by rewrite Ht1, Hc1. }
  assert (H2 : _evaluate_single_rule now overbought md
               = _check_rsi md (default no_parameters (parameters overbought))
                   "overbought").
  { unfold _evaluate_single_rule. by rewrite Ht2, Hc2. }
  assert (Hex : _evaluate_single_rule now oversold md
                && _evaluate_single_rule now overbought md = false).
  { rewrite H1, H2. apply not_true_iff_false. intros H.
    apply andb_true_iff in H as [Ha Hb].
    apply _check_rsi_cases in Ha as (rsi & Hr & Ha).
    apply _check_rsi_cases in Hb as (rsi' & Hr' & Hb).
    rewrite Hr in Hr'. injection Hr' as <-. simpl in Ha, Hb. lra. }
  split; [done |]. intros strategy Hin1 Hin2.
  apply andb_false_iff in Hex as [Hf|Hf];
    eapply false_rule_blocks_strategy; eauto.
Qed.

Lemma default_rsi_rules_exclude_each_other :
  execute Examples.noon
    (Examples.strategy_of None
       [MoreExamples.rsi_rule "rsi_oversold" None;
        MoreExamples.rsi_rule "rsi_overbought" None])
    MoreExamples.eurusd_tick = None.
Proof.
  destruct (rsi_rules_exclude_each_other Examples.noon MoreExamples.eurusd_tick
              (MoreExamples.rsi_rule "rsi_oversold" None)
              (MoreExamples.rsi_rule "rsi_overbought" None)
              eq_refl eq_refl eq_refl eq_refl) as [_ H].
  { simpl. lra. }
  apply H; simpl; tauto.
Defined.



(** In exact arithmetic: for a close with at most five decimals and whole
    pip distances the rounding of the candidate changes nothing, and the
    ratio of the two distances is the ratio of the pips. *)
Lemma candidate_risk_reward_exact now strategy md (k n m : Z) :
  let risk :=
    default no_risk_management (risk_management (default no_config (config strategy))) in
  default 0 (close md) == inject_Z k / 100000 ->
  default 20 (stop_loss_pips risk) == inject_Z n -> (0 < n)%Z ->
  default 40 (take_profit_pips risk) == inject_Z m -> (0 <= m)%Z ->
  let candidate := _generate_signal now strategy md in
  SignalPipeline.risk_reward_of (sig_entry_price candidate) (sig_stop_loss candidate)
    (sig_take_profit candidate) == inject_Z m / inject_Z n.
Proof.
  intros risk Hk Hn Hnpos Hm Hmpos candidate. subst candidate.
  unfold _generate_signal. fold risk. simpl.
  set (price := default 0 (close md)) in *.
  set (sl := default 20 (stop_loss_pips risk)) in *.
  set (tp := default 40 (take_profit_pips risk)) in *.
  set (pip := if negb (Py.contains "JPY" (default "UNKNOWN"%string (symbol md)))
              then 0.0001 else 0.01).
  assert (Hpip : exists j : Z, (0 < j)%Z /\ pip == inject_Z j / 100000).
  { unfold pip. destruct (negb _); [exists 10%Z | exists 1000%Z]; by vm_compute. }
  destruct Hpip as (j & Hj & Hpip).
  assert (Hnq : 0 < inject_Z n) by (change 0 with (inject_Z 0); by rewrite <- Zlt_Qlt).
  assert (Hmq : 0 <= inject_Z m) by (change 0 with (inject_Z 0); by rewrite <- Zle_Qle).
  assert (Hjq : 0 < inject_Z j) by (change 0 with (inject_Z 0); by rewrite <- Zlt_Qlt).
  assert (Hsl : Py.round (price - sl * pip) 5 == price - sl * pip).
  { apply (round_exact (k - n * j)). change (Py.pow10 5) with 100000.
    rewrite Hk, Hn, Hpip. unfold Zminus.
    rewrite inject_Z_plus, inject_Z_opp, inject_Z_mult. field. }
  assert (Htp : Py.round (price + tp * pip) 5 == price + tp * pip).
  { apply (round_exact (k + m * j)). change (Py.pow10 5) with 100000.
    rewrite Hk, Hm, Hpip. rewrite inject_Z_plus, inject_Z_mult. field. }
  assert (Hpp : 0 < pip) by (rewrite Hpip; div_literals; lra).
  unfold SignalPipeline.risk_reward_of, Py.abs.
  assert (Hne : Qeq_bool price (Py.round (price - sl * pip) 5) = false).
  { apply Qeq_bool_false. rewrite Hsl, Hn. nra. }
  rewrite Hne. cbn [negb]. rewrite Hsl, Htp, Hn, Hm.
  assert (Hq : (price + inject_Z m * pip - price) / (price - (price - inject_Z n * pip))
               == inject_Z m / inject_Z n).
  { field. split; [lra |]. intros H. clearbody price sl tp pip. nra. }
  rewrite Hq. apply Qabs_pos. apply Qle_shift_div_l; lra.
Qed.

(** X4. For a close of at most 100000 with at most five decimals and whole
    pip distances of at most a million pips, the risk/reward ratio that the
    pipeline computes from the candidate is the target distance divided by
    the stop distance (2 with the defaults), whatever the pip size, up to
    the rounding of the price differences (2.0000000000001421 on USDJPY at
    149.25, in binary arithmetic). *)
Theorem candidate_risk_reward_is_pip_ratio now strategy md (k n m : Z) :
  let risk :=
    default no_risk_management (risk_management (default no_config (config strategy))) in
  default 0 (close md) == inject_Z k / 100000 -> (0 <= k <= 10000000000)%Z ->
  default 20 (stop_loss_pips risk) == inject_Z n -> (0 < n <= 1000000)%Z ->
  default 40 (take_profit_pips risk) == inject_Z m -> (0 <= m <= 1000000)%Z ->
  let candidate := _generate_signal now strategy md in
  Rounding.close
    (SignalPipeline.risk_reward_of (sig_entry_price candidate)
       (sig_stop_loss candidate) (sig_take_profit candidate))
    (inject_Z m / inject_Z n).
Proof.
  intros risk Hk _ Hn [Hnpos _] Hm [Hmpos _] candidate. apply close_of_Qeq.
  by apply (candidate_risk_reward_exact now strategy md k n m).
Qed.

Lemma default_candidate_risk_reward_is_2 :
  let candidate :=
    _generate_signal Examples.noon (Examples.strategy_of None []) MoreExamples.eurusd_tick in
  Rounding.close
    (SignalPipeline.risk_reward_of (sig_entry_price candidate)
       (sig_stop_loss candidate) (sig_take_profit candidate))
    (inject_Z 40 / inject_Z 20).
Proof.
  apply (candidate_risk_reward_is_pip_ratio Examples.noon (Examples.strategy_of None [])
           MoreExamples.eurusd_tick 108520 20 40); try reflexivity; lia.
Defined.

End RuleEngineMore.

(** ** More of the scorer *)

Section ScorerMore.
Import SignalScorer.


Lemma _calculate_risk_reward_factor_range (rr : Q) :
  0 <= _calculate_risk_reward_factor rr <= 10.
Proof. unfold _calculate_risk_reward_factor, Py.max. cmp_cases; lra. Qed.

Lemma _calculate_volatility_factor_range (current optimal : string) :
  3 <= _calculate_volatility_factor current optimal <= 10.
Proof.
  unfold _calculate_volatility_factor.
  repeat (match goal with |- context [if ?b then _ else _] => destruct b end); lra.
Qed.

Lemma factors_range_aux metrics regime table rr current optimal :
  0 <= _calculate_performance_factor metrics <= 10
  /\ 0 <= _calculate_regime_factor regime table <= 10
  /\ 0 <= _calculate_risk_reward_factor rr <= 10
  /\ 3 <= _calculate_volatility_factor current optimal <= 10.
Proof.
  split; [apply (clamp_range 0 10); lra |].
  split; [apply (clamp_range 0 10); lra |].
  split; [apply _calculate_risk_reward_factor_range |].
  apply _calculate_volatility_factor_range.
Qed.

(** X5. Every factor stays on its documented 0 to 10 scale, whatever the
    metrics, the regime table, the ratio or the volatility labels; the
    volatility factor is never below 3. *)
Theorem factors_stay_on_scale metrics regime table rr current optimal :
  0 <= _calculate_performance_factor metrics <= 10
  /\ 0 <= _calculate_regime_factor regime table <= 10
  /\ 0 <= _calculate_risk_reward_factor rr <= 10
  /\ 3 <= _calculate_volatility_factor current optimal <= 10.
Proof. apply factors_range_aux. Qed.

Lemma weighted_sum_default (a b c d e : Q) :
  weighted_sum signal_scorer a b c d e
  = Py.Return (a * 0.35 + b * 0.25 + c * 0.20 + d * 0.15 + e * 0.05).
Proof. reflexivity. Qed.

(** X6. With the default weights, a probability in [0, 100] and inputs of
    ordinary size, the weighted sum already lies in [0.15, 10]: the clamp
    changes nothing and the neutral fallback 5.0 is never taken. The score
    is that sum rounded to one decimal, so it is at least 0.1 and within
    0.05 of the sum, up to the rounding of the sum itself (which decides a
    tie: 4.3 for the sum 4.35, in binary arithmetic). *)
Theorem default_score_is_rounded_weighted_sum p metrics regime table rr current optimal :
  0 <= p <= 100 ->
  map_Forall (fun _ value => Rounding.ordinary value) metrics ->
  map_Forall (fun _ value => Rounding.ordinary value) table ->
  Rounding.ordinary rr ->
  let total :=
    p / 100 * 10 * 0.35
    + _calculate_performance_factor metrics * 0.25
    + _calculate_regime_factor regime table * 0.20
    + _calculate_risk_reward_factor rr * 0.15
    + _calculate_volatility_factor current optimal * 0.05 in
  let score :=
    calculate_signal_score signal_scorer p metrics regime table rr current optimal in
  0.15 <= total <= 10
  /\ Qabs (score - total) <= 0.05 + Rounding.margin
  /\ 0.1 <= score.
Proof.
  intros Hp _ _ _ total score.
  destruct (factors_range_aux metrics regime table rr current optimal)
    as (H1 & H2 & H3 & H4).
  assert (Ht : 0.15 <= total <= 10).
  { unfold total. div_literals. lra. }
  split; [done |].
  assert (Hs : score = Py.round total 1).
  { unfold score, calculate_signal_score. rewrite weighted_sum_default. simpl.
    apply round_comp. fold total. apply clamp_id. lra. }
  rewrite Hs. split.
  - destruct (round_error total 1) as [He1 He2].
    assert (Hh : (1 # 2) / Py.pow10 1 == 0.05) by reflexivity.
    rewrite Hh in He1, He2. unfold Rounding.margin.
    apply Qabs_Qle_condition. lra.
  - assert (Hr : Py.round 0.15 1 <= Py.round total 1) by (apply round_mono; lra).
    assert (Hv : Py.round 0.15 1 == 0.2) by reflexivity.
    lra.
Qed.

Lemma default_score_at_75 :
  (0 <= 75 <= 100)
  /\ 0.1 <= calculate_signal_score signal_scorer 75
              {[ "win_rate" := 65; "sharpe_ratio" := 1.5 ]} "trending"
              {[ "trending" := 70 ]} 2.5 "normal" "normal".
Proof.
  split; [lra |].
  apply (default_score_is_rounded_weighted_sum 75
           {[ "win_rate" := 65; "sharpe_ratio" := 1.5 ]} "trending"
           {[ "trending" := 70 ]} 2.5 "normal" "normal").
  - lra.
  - apply map_Forall_insert_2; [vm_compute; discriminate |].
    apply map_Forall_singleton. vm_compute. discriminate.
  - apply map_Forall_singleton. vm_compute. discriminate.
  - vm_compute. discriminate.
Defined.





(** X9. The volatility factor depends on the distance of the two labels on
    the scale only: it is symmetric, it is 10 exactly when both labels have
    the same level, and a label that is not on the scale counts as
    [normal]. *)
Theorem volatility_factor_symmetric current optimal :
  _calculate_volatility_factor current optimal
  = _calculate_volatility_factor optimal current
  /\ (_calculate_volatility_factor current optimal == 10 <->
      default 3%Z (volatility_scale !! current)
      = default 3%Z (volatility_scale !! optimal))
  /\ (volatility_scale !! current = None ->
      _calculate_volatility_factor current optimal
      = _calculate_volatility_factor "normal" optimal).
Proof.
  unfold _calculate_volatility_factor.
  set (a := default 3%Z (volatility_scale !! current)).
  set (b := default 3%Z (volatility_scale !! optimal)).
  split; [| split].
  - by replace (Z.abs (b - a)) with (Z.abs (a - b)) by lia.
  - destruct (Z.eqb_spec (Z.abs (a - b)) 0) as [E|E].
    { split; [lia | reflexivity]. }
    split; [| lia].
    destruct (Z.abs (a - b) =? 1)%Z; [intros H; by vm_compute in H |].
    destruct (Z.abs (a - b) =? 2)%Z; intros H; by vm_compute in H.
  - intros Hn. subst a. by rewrite Hn.
Qed.

Lemma unknown_volatility_counts_as_normal :
  volatility_scale !! "extreme" = None
  /\ _calculate_volatility_factor "extreme" "high"
     = _calculate_volatility_factor "normal" "high".
Proof.
  split; [reflexivity |].
  destruct (volatility_factor_symmetric "extreme" "high") as (_ & _ & H).
  apply H. reflexivity.
Defined.

End ScorerMore.

(** ** More of the posterior update *)

Section PosteriorMore.
Import BayesianProbability.

Lemma String_length_append (s t : string) :
  String.length (s +:+ t) = (String.length s + String.length t)%nat.
Proof. induction s as [|a s IH]; simpl; [done | by rewrite IH]. Qed.

Lemma append_suffix_eq (s1 s2 t1 t2 : string) :
  String.length t1 = String.length t2 ->
  s1 +:+ t1 = s2 +:+ t2 -> s1 = s2 /\ t1 = t2.
Proof.
  intros Hlen. revert s2. induction s1 as [|a s1 IH]; intros [|b s2] H.
  - done.
  - exfalso. apply (f_equal String.length) in H.
    rewrite !String_length_append in H. simpl in H. lia.
  - exfalso. apply (f_equal String.length) in H.
    rewrite !String_length_append in H. simpl in H. lia.
  - cbn in H. injection H as -> H. destruct (IH s2 H) as [-> ->]. done.
Qed.

Lemma equal_likelihoods_keep_prior prior cond hp :
  0 <= prior <= 100 ->
  _calculate_likelihood cond hp "success" == _calculate_likelihood cond hp "failure" ->
  calculate_posterior_probability prior cond hp == prior.
Proof.
  intros Hprior Heq. rewrite (posterior_value prior cond hp Hprior).
  pose proof (_calculate_likelihood_range cond hp "success") as Hs.
  set (ls := _calculate_likelihood cond hp "success") in *.
  set (lf := _calculate_likelihood cond hp "failure") in *. clearbody ls lf.
  assert (Hq : ls * (prior / 100) / (ls * (prior / 100) + lf * (1 - prior / 100)) * 100
               == prior).
  { rewrite <- Heq. field. lra. }
  rewrite clamp_id; [exact Hq |]. rewrite Hq. lra.
Qed.

Lemma same_rates_same_likelihoods cond hp :
  let regime := default "unknown"%string (cond !! "regime") in
  default 0.5 (rates hp !! (regime +:+ "_success_rate"))
  = default 0.5 (rates hp !! (regime +:+ "_failure_rate")) ->
  _calculate_likelihood cond hp "success" = _calculate_likelihood cond hp "failure".
Proof.
  intros regime Hrates. unfold _calculate_likelihood. fold regime.
  change ("_" +:+ "success" +:+ "_rate") with "_success_rate".
  change ("_" +:+ "failure" +:+ "_rate") with "_failure_rate".
  by rewrite Hrates.
Qed.

(** X10. Without evidence there is no update: when the table gives the
    current regime the same rate for success and for failure (in particular
    when it has an entry for neither, both defaulting to 0.5), the posterior
    of a prior in [0, 100] is the prior, up to the rounding of the quotient
    (55.000000000000007 for 55, in binary arithmetic). *)
Theorem posterior_without_evidence_is_prior prior cond hp :
  0 <= prior <= 100 ->
  let regime := default "unknown"%string (cond !! "regime") in
  default 0.5 (rates hp !! (regime +:+ "_success_rate"))
  = default 0.5 (rates hp !! (regime +:+ "_failure_rate")) ->
  Rounding.close (calculate_posterior_probability prior cond hp) prior.
Proof.
  intros Hprior regime Hrates. apply close_of_Qeq.
  apply equal_likelihoods_keep_prior; [done |].
  by rewrite (same_rates_same_likelihoods cond hp Hrates).
Qed.

Lemma posterior_without_regime_is_prior :
  (0 <= 62 <= 100)
  /\ Rounding.close (calculate_posterior_probability 62 ∅ Examples.test_table) 62.
Proof.
  split; [lra |].
  apply (posterior_without_evidence_is_prior 62 ∅ Examples.test_table); [lra |].
  reflexivity.
Defined.




End PosteriorMore.

(** ** The confidence interval *)

Section Interval.
Import ConfidenceInterval.




End Interval.

(** ** More of the simulation *)

Section SimulationMore.
Import MonteCarloSimulator.









End SimulationMore.

Section SingleTradeFacts.
Import SingleTrade.





End SingleTradeFacts.

(** ** More of the pipeline *)

Section PipelineMore.
Import SignalPipeline PipelineSpec.

(** X16. The converse of the gates. When the strategy and its backtest
    exist, the three gates pass, the expectancy is not NULL and both the
    commit and the refresh that follows it succeed, the call returns a
    signal: it carries the arguments of the call, the computed probability
    and score, the answer of the enrichment call, the status [active] and
    the expiry [now + SIGNAL_EXPIRY_HOURS], and it is appended once to the
    session and to the [signals] table. *)
Theorem generate_signal_accepts_and_stores w db strategy_id symbol direction
    entry_price stop_loss take_profit market_data strategy backtest e :
  _get_strategy db strategy_id = Some strategy ->
  _get_latest_backtest db strategy_id = Some backtest ->
  gates_pass w backtest entry_price stop_loss take_profit market_data ->
  expectancy backtest = Some e ->
  commit_ok db = true ->
  refresh_ok db = true ->
  let run :=
    generate_signal w db strategy_id symbol direction entry_price stop_loss
      take_profit market_data in
  exists signal,
    run.1 = Some signal
    /\ SignalPipeline.strategy_id signal = strategy_id
    /\ SignalPipeline.symbol signal = symbol
    /\ SignalPipeline.direction signal = direction
    /\ SignalPipeline.entry_price signal = entry_price
    /\ SignalPipeline.stop_loss signal = stop_loss
    /\ SignalPipeline.take_profit signal = take_profit
    /\ probability_score signal = _calculate_probability w backtest market_data
    /\ signal_score signal
       = computed_score w backtest entry_price stop_loss take_profit market_data
    /\ status signal = "active"%string
    /\ expires_at signal = (utc_seconds (now w) + 3600 * SIGNAL_EXPIRY_HOURS (cfg w))%Z
    /\ sig_confidence_level signal = confidence_level (gemini_context signal)
    /\ sig_position_sizing signal = position_sizing (gemini_context signal)
    /\ added run.2 = added db ++ [signal]
    /\ signals run.2 = signals db ++ [signal].
Proof.
  intros Hs Hb (Hv & Hscore & Hprob) He Hc Hr run. subst run.
  unfold generate_signal, computed_score in *. rewrite Hs, Hb, Hv. simpl.
  rewrite (proj2 (Qlt_bool_false _ _) Hscore), (proj2 (Qlt_bool_false _ _) Hprob).
  unfold build_signal_context, add_and_commit. rewrite He. simpl. rewrite Hc. simpl.
  rewrite Hr. simpl. eexists. repeat split.
Qed.

Lemma integration_scenario_is_stored :
  exists signal,
    (generate_signal Examples.world Examples.db "test-strat" "BTCUSDT" "BUY"
       50000 49000 52000 Examples.trending).1 = Some signal
    /\ status signal = "active"%string.
Proof.
  destruct (generate_signal_accepts_and_stores Examples.world Examples.db "test-strat"
              "BTCUSDT" "BUY" 50000 49000 52000 Examples.trending
              {| name := "Test Strategy" |} Examples.mock_backtest 0.5)
    as (signal & Hrun & H); try reflexivity.
  - unfold gates_pass, computed_score.
    rewrite integration_scenario_probability. by vm_compute.
  - exists signal. split; [exact Hrun | tauto].
Defined.

(** X17. Absent rows and failing collaborators end in [None]. A missing
    strategy or backtest, or a NULL expectancy (the context builder raises),
    leaves the session as it was. A failing commit leaves the [signals]
    table as it was, the [Signal] object having been added to the session
    before. *)
Theorem generate_signal_failures_return_none w db strategy_id symbol direction
    entry_price stop_loss take_profit market_data :
  let run :=
    generate_signal w db strategy_id symbol direction entry_price stop_loss
      take_profit market_data in
  (_get_strategy db strategy_id = None \/ _get_latest_backtest db strategy_id = None ->
     run = (None, db))
  /\ (forall backtest,
        _get_latest_backtest db strategy_id = Some backtest ->
        expectancy backtest = None -> run = (None, db))
  /\ (commit_ok db = false ->
        run.1 = None /\ signals run.2 = signals db
        /\ (added run.2 = added db \/ exists signal, added run.2 = added db ++ [signal])).
Proof.
  intros run. subst run. unfold generate_signal.
  split; [| split].
  - intros [H|H]; rewrite H; [done |]. by destruct (_get_strategy db strategy_id).
  - intros backtest Hb He. rewrite Hb.
    destruct (_get_strategy db strategy_id); [| done].
    destruct (negb _); [done |]. simpl.
    destruct (Py.Qlt_bool _ (MIN_SIGNAL_SCORE _)); [done |].
    destruct (Py.Qlt_bool _ (MIN_PROBABILITY _)); [done |].
    unfold build_signal_context. by rewrite He.
  - intros Hc.
    destruct (_get_strategy db strategy_id); [| by auto].
    destruct (_get_latest_backtest db strategy_id); [| by auto].
    destruct (negb _); [by auto |]. simpl.
    destruct (Py.Qlt_bool _ (MIN_SIGNAL_SCORE _)); [by auto |].
    destruct (Py.Qlt_bool _ (MIN_PROBABILITY _)); [by auto |].
    destruct (build_signal_context _ _ _ _); [| by auto].
    unfold add_and_commit. rewrite Hc. simpl. eauto.
Qed.

Lemma unknown_strategy_returns_none :
  _get_strategy Examples.db "no-such-strategy" = None
  /\ generate_signal Examples.world Examples.db "no-such-strategy" "BTCUSDT" "BUY"
       50000 49000 52000 Examples.trending = (None, Examples.db).
Proof.
  split; [reflexivity |].
  destruct (generate_signal_failures_return_none Examples.world Examples.db
              "no-such-strategy" "BTCUSDT" "BUY" 50000 49000 52000 Examples.trending)
    as (H & _ & _).
  apply H. left. reflexivity.
Defined.

(** X18. What the call never does: it never changes the [strategies] and
    the backtest rows, never drops or reorders a stored signal, and stores
    at most one new signal. A signal it returns is the one it stored. When
    it returns [None] the [signals] table is as it was, with one exception:
    a refresh that fails after a successful commit leaves the new row
    stored. *)
Theorem generate_signal_only_appends w db strategy_id symbol direction
    entry_price stop_loss take_profit market_data :
  let run :=
    generate_signal w db strategy_id symbol direction entry_price stop_loss
      take_profit market_data in
  strategies run.2 = strategies db
  /\ latest_backtest run.2 = latest_backtest db
  /\ commit_ok run.2 = commit_ok db
  /\ refresh_ok run.2 = refresh_ok db
  /\ match run.1 with
     | Some signal =>
         signals run.2 = signals db ++ [signal] /\ added run.2 = added db ++ [signal]
     | None =>
         signals run.2 = signals db
         \/ (commit_ok db = true /\ refresh_ok db = false
             /\ exists signal,
                  signals run.2 = signals db ++ [signal]
                  /\ added run.2 = added db ++ [signal])
     end
  /\ (refresh_ok db = true -> run.1 = None -> signals run.2 = signals db).
Proof.
  intros run. subst run. unfold generate_signal.
  destruct (_get_strategy db strategy_id);
    [| simpl; repeat split; by auto].
  destruct (_get_latest_backtest db strategy_id);
    [| simpl; repeat split; by auto].
  destruct (negb _); [simpl; repeat split; by auto |]. simpl.
  destruct (Py.Qlt_bool _ (MIN_SIGNAL_SCORE _)); [simpl; repeat split; by auto |].
  destruct (Py.Qlt_bool _ (MIN_PROBABILITY _)); [simpl; repeat split; by auto |].
  destruct (build_signal_context _ _ _ _); [| simpl; repeat split; by auto].
  unfold add_and_commit.
  destruct (commit_ok db) eqn:Hc; simpl; [| repeat split; by auto].
  destruct (refresh_ok db) eqn:Hr; simpl; [repeat split; by auto |].
  repeat split; try done. right. repeat split. by eexists.
Qed.

Lemma unknown_strategy_stores_nothing :
  signals
    (generate_signal Examples.world Examples.db "no-such-strategy" "BTCUSDT" "BUY"
       50000 49000 52000 Examples.trending).2
  = signals Examples.db.
Proof.
  destruct (generate_signal_only_appends Examples.world Examples.db "no-such-strategy"
              "BTCUSDT" "BUY" 50000 49000 52000 Examples.trending)
    as (_ & _ & _ & _ & _ & H).
  apply H; reflexivity.
Defined.

Lemma pipeline_rates_agree regime :
  regime <> "trending"%string ->
  default 0.5 (BayesianProbability.rates historical_performance
               !! (regime +:+ "_success_rate"))
  = default 0.5 (BayesianProbability.rates historical_performance
                 !! (regime +:+ "_failure_rate")).
Proof.
  intros Hne. unfold historical_performance. simpl.
  assert (Hf1 : regime +:+ "_failure_rate" <> "trending_success_rate"%string).
  { intros H. change "trending_success_rate"%string
      with ("trending" +:+ "_success_rate") in H.
    by apply append_suffix_eq in H as [_ H]. }
  assert (Hf2 : regime +:+ "_failure_rate" <> "ranging_success_rate"%string).
  { intros H. change "ranging_success_rate"%string
      with ("ranging" +:+ "_success_rate") in H.
    by apply append_suffix_eq in H as [_ H]. }
  assert (Hs1 : regime +:+ "_success_rate" <> "trending_success_rate"%string).
  { intros H. change "trending_success_rate"%string
      with ("trending" +:+ "_success_rate") in H.
    by apply append_suffix_eq in H as [H _]. }
  rewrite (lookup_insert_ne _ "trending_success_rate" (regime +:+ "_failure_rate"))
    by done.
  rewrite (lookup_insert_ne _ "trending_success_rate" (regime +:+ "_success_rate"))
    by done.
  rewrite (lookup_singleton_ne "ranging_success_rate" (regime +:+ "_failure_rate"))
    by done.
  destruct (decide (regime +:+ "_success_rate" = "ranging_success_rate"%string))
    as [->|Hs2].
  - by rewrite lookup_singleton_eq.
  - by rewrite lookup_singleton_ne.
Qed.

Lemma posterior_outside_trending (prior : Q) market_data :
  0 <= prior <= 100 ->
  or_empty market_data !! "regime" <> Some "trending"%string ->
  BayesianProbability.calculate_posterior_probability prior (or_empty market_data)
    historical_performance == prior.
Proof.
  intros Hw Hregime.
  apply equal_likelihoods_keep_prior; [done |].
  rewrite (same_rates_same_likelihoods (or_empty market_data) historical_performance);
    [reflexivity |].
  apply pipeline_rates_agree.
  destruct (or_empty market_data !! "regime") as [r|]; simpl; [congruence | done].
Qed.

(** X19. In the pipeline only a trending regime moves the probability: its
    table has no failure rate and gives the ranging regime the default rate
    0.5. For a win rate in [0, 100] and at least one simulation, two
    market data with the same volatility whose regimes both differ from
    [trending] (or are absent) give the same probability; the posterior is
    then the win rate, up to rounding, and the probability lies within a
    hundredth of 0.6 x win rate + 0.4 x simulated: half of it is the
    rounding to two decimals, the rest covers the rounding before it. *)
Theorem only_trending_regime_updates_probability w backtest market_data market_data' :
  0 <= win_rate backtest <= 100 ->
  (0 < MONTE_CARLO_SIMULATIONS (cfg w))%N ->
  or_empty market_data !! "regime" <> Some "trending"%string ->
  or_empty market_data' !! "regime" <> Some "trending"%string ->
  or_empty market_data !! "volatility" = or_empty market_data' !! "volatility" ->
  let simulated :=
    MonteCarloSimulator.probability_of_profit
      (MonteCarloSimulator.simulate_strategy_performance (draws w)
         (monte_carlo_engine (cfg w)) (win_rate backtest) 5 (-2) 100 10000) in
  _calculate_probability w backtest market_data
  = _calculate_probability w backtest market_data'
  /\ Rounding.close
       (BayesianProbability.calculate_posterior_probability (win_rate backtest)
          (or_empty market_data) historical_performance)
       (win_rate backtest)
  /\ Qabs (_calculate_probability w backtest market_data
           - (win_rate backtest * 0.6 + simulated * 0.4))
     <= 0.01.
Proof.
  intros Hw _ Hregime Hregime' _ simulated.
  pose proof (posterior_outside_trending (win_rate backtest) market_data Hw Hregime)
    as Hpost.
  pose proof (posterior_outside_trending (win_rate backtest) market_data' Hw Hregime')
    as Hpost'.
  split; [| split].
  - unfold _calculate_probability. apply round_comp. by rewrite Hpost, Hpost'.
  - by apply close_of_Qeq.
  - assert (Hp : _calculate_probability w backtest market_data
                 = Py.round (win_rate backtest * 0.6 + simulated * 0.4) 2).
    { unfold _calculate_probability. apply round_comp. by rewrite Hpost. }
    rewrite Hp.
    pose proof (round_error (win_rate backtest * 0.6 + simulated * 0.4) 2) as He.
    revert He. generalize (win_rate backtest * 0.6 + simulated * 0.4).
    intros x [He1 He2]. apply Qabs_Qle_condition.
    assert (Hh : (1 # 2) / Py.pow10 2 == 0.005) by reflexivity.
    rewrite Hh in He1, He2. lra.
Qed.

Lemma ranging_regime_keeps_win_rate :
  _calculate_probability Examples.world Examples.mock_backtest
    (Some {[ "regime" := "ranging" ]}%string)
  = _calculate_probability Examples.world Examples.mock_backtest None.
Proof.
  destruct (only_trending_regime_updates_probability Examples.world
              Examples.mock_backtest (Some {[ "regime" := "ranging" ]}%string) None)
    as [H _]; [simpl; lra | reflexivity | by vm_compute | by vm_compute | by vm_compute
              | exact H].
Defined.

End PipelineMore.

(** ** The distributor *)

Section Distributor.
Import SignalDistributor DistributorSpec.

Lemma broadcast_signal_active peers self signal :
  active_connections (broadcast_signal peers self signal).2
  = filter (fun c => sent_and_logged peers signal c = true) (active_connections self).
Proof.
  unfold broadcast_signal. case_bool_decide as He; simpl.
  - rewrite He. apply leibniz_equiv. intros c. rewrite elem_of_filter.
    split; [intros Hc; by apply not_elem_of_empty in Hc | tauto].
  - apply leibniz_equiv. intros c. rewrite elem_of_difference, !elem_of_filter.
    destruct (sent_and_logged peers signal c); [tauto |].
    split.
    + intros [Hx Hn]. exfalso. apply Hn. split; [discriminate | exact Hx].
    + intros [Hf _]. discriminate Hf.
Qed.

Lemma broadcast_signal_reached peers self signal :
  (broadcast_signal peers self signal).1
  = filter (fun c => delivers peers c = true) (active_connections self).
Proof.
  unfold broadcast_signal. case_bool_decide as He; simpl; [| done].
  rewrite He. apply leibniz_equiv. intros c. rewrite elem_of_filter.
  split; [intros Hc; by apply not_elem_of_empty in Hc | tauto].
Qed.

Lemma broadcast_signal_count peers self signal :
  connection_count (broadcast_signal peers self signal).2 = connection_count self.
Proof. unfold broadcast_signal. by case_bool_decide. Qed.

Lemma broadcast_signal_subseteq peers self signal :
  active_connections (broadcast_signal peers self signal).2 ⊆ active_connections self.
Proof.
  rewrite broadcast_signal_active. intros c. rewrite elem_of_filter. tauto.
Qed.

(** X20. A broadcast reaches exactly the active connections whose send
    succeeds. With a signal that has its symbol and its direction it keeps
    exactly the connections it reached; with a signal that lacks one of
    them the log line fails after each send, and every connection is
    removed, the reached ones too. No connection is added, the connection
    counter is untouched, and a second broadcast to the same peers changes
    nothing more. *)
Theorem broadcast_keeps_the_reached_connections peers self signal :
  let result := broadcast_signal peers self signal in
  (forall c, c ∈ result.1 <-> c ∈ active_connections self /\ delivers peers c = true)
  /\ (has_symbol signal && has_direction signal = true ->
        active_connections result.2 = result.1)
  /\ (has_symbol signal && has_direction signal = false ->
        active_connections result.2 = ∅)
  /\ active_connections result.2 ⊆ active_connections self
  /\ connection_count result.2 = connection_count self
  /\ (broadcast_signal peers result.2 signal).2 = result.2.
Proof.
  intros result. subst result.
  split; [| split; [| split; [| split; [| split]]]].
  - intros c. rewrite broadcast_signal_reached, elem_of_filter. tauto.
  - intros Hk. rewrite broadcast_signal_active, broadcast_signal_reached.
    apply leibniz_equiv. intros c. rewrite !elem_of_filter.
    unfold sent_and_logged. rewrite <- andb_assoc, Hk, andb_true_r. tauto.
  - intros Hk. rewrite broadcast_signal_active.
    apply leibniz_equiv. intros c. rewrite elem_of_filter.
    unfold sent_and_logged. rewrite <- andb_assoc, Hk, andb_false_r.
    split; [intros [Hf _]; discriminate Hf |].
    intros Hc. by apply not_elem_of_empty in Hc.
  - apply broadcast_signal_subseteq.
  - apply broadcast_signal_count.
  - pose proof (broadcast_signal_active peers
                  (broadcast_signal peers self signal).2 signal) as H2.
    pose proof (broadcast_signal_count peers
                  (broadcast_signal peers self signal).2 signal) as Hcount.
    destruct (broadcast_signal peers (broadcast_signal peers self signal).2 signal).2
      as [a2 n2].
    pose proof (broadcast_signal_active peers self signal) as H1.
    destruct (broadcast_signal peers self signal).2 as [a1 n1]. simpl in *.
    subst n2. f_equal. rewrite H2, H1.
    apply leibniz_equiv. intros c. rewrite !elem_of_filter. tauto.
Qed.

Lemma signal_without_symbol_drops_every_connection :
  let peers := {| accepts := fun _ => true; delivers := fun _ => true |} in
  let signal := {| has_symbol := false; has_direction := true |} in
  active_connections
    (broadcast_signal peers (connect peers __init__ 7%nat).2 signal).2 = ∅.
Proof.
  destruct (broadcast_keeps_the_reached_connections
              {| accepts := fun _ => true; delivers := fun _ => true |}
              (connect {| accepts := fun _ => true; delivers := fun _ => true |}
                 __init__ 7%nat).2
              {| has_symbol := false; has_direction := true |})
    as (_ & _ & H & _).
  apply H. reflexivity.
Defined.

Lemma size_add_connection (c : nat) (X : gset nat) :
  (size ({[ c ]} ∪ X) <= size X + 1)%nat.
Proof.
  rewrite size_union_alt, size_singleton.
  pose proof (subseteq_size (X ∖ {[ c ]}) X) as H.
  assert (Hs : X ∖ {[ c ]} ⊆ X).
  { intros x. rewrite elem_of_difference. tauto. }
  specialize (H Hs). lia.
Qed.

Lemma step_keeps_count_above_size self op :
  (Z.of_nat (size (active_connections self)) <= connection_count self)%Z ->
  (Z.of_nat (size (active_connections (step self op)))
   <= connection_count (step self op))%Z.
Proof.
  intros H. destruct op as [peers c|c|peers signal]; simpl.
  - unfold connect. destruct (accepts peers c); simpl; [| done].
    pose proof (size_add_connection c (active_connections self)).
    destruct (delivers peers c); simpl; lia.
  - pose proof (subseteq_size (active_connections self ∖ {[ c ]})
                  (active_connections self)) as Hs.
    assert (Hsub : active_connections self ∖ {[ c ]} ⊆ active_connections self).
    { intros x. rewrite elem_of_difference. tauto. }
    specialize (Hs Hsub). lia.
  - rewrite broadcast_signal_count.
    pose proof (subseteq_size _ _ (broadcast_signal_subseteq peers self signal)) as Hs.
    lia.
Qed.

(** X21. Through any sequence of connects, disconnects and broadcasts from
    the initial state, whatever the peers do, the connection counter is at
    least the number of active connections. Connecting a new peer and
    disconnecting it restores the set of connections; the counter keeps the
    increment. *)
Theorem connection_count_bounds_active_connections (ops : list Op) :
  (Z.of_nat (size (active_connections (fold_left step ops __init__)))
   <= connection_count (fold_left step ops __init__))%Z
  /\ forall peers self c,
       accepts peers c = true -> c ∉ active_connections self ->
       let connected := (connect peers self c).2 in
       c ∈ active_connections connected
       /\ active_connections (disconnect connected c) = active_connections self
       /\ connection_count (disconnect connected c) = (connection_count self + 1)%Z.
Proof.
  split.
  - assert (Hgen : forall self,
      (Z.of_nat (size (active_connections self)) <= connection_count self)%Z ->
      (Z.of_nat (size (active_connections (fold_left step ops self)))
       <= connection_count (fold_left step ops self))%Z).
    { induction ops as [|op ops IH]; intros self H; simpl; [done |].
      apply IH. by apply step_keeps_count_above_size. }
    apply Hgen. unfold __init__. cbn [active_connections connection_count].
    rewrite size_empty. lia.
  - intros peers self c Ha Hc connected. subst connected. unfold connect.
    rewrite Ha. simpl.
    assert (Hin : c ∈ ({[ c ]} ∪ active_connections self : gset nat)).
    { apply elem_of_union_l. by apply elem_of_singleton. }
    assert (Hback : ({[ c ]} ∪ active_connections self) ∖ {[ c ]}
                    = active_connections self).
    { apply leibniz_equiv. intros x.
      rewrite elem_of_difference, elem_of_union, elem_of_singleton.
      split; [intros [[->|Hx] Hn]; [done | exact Hx] |].
      intros Hx. split; [by right | by intros ->]. }
    destruct (delivers peers c); simpl; by rewrite Hback.
Qed.

Lemma connect_then_disconnect_from_empty :
  let peers := {| accepts := fun _ => true; delivers := fun _ => true |} in
  active_connections (disconnect (connect peers __init__ 7%nat).2 7%nat)
  = active_connections __init__.
Proof.
  destruct (connection_count_bounds_active_connections []) as [_ H].
  destruct (H {| accepts := fun _ => true; delivers := fun _ => true |} __init__ 7%nat)
    as (_ & Hr & _); [reflexivity | apply not_elem_of_empty |].
  exact Hr.
Defined.

End Distributor.

(** ** The trigger *)

Section Trigger.
Import StrategyTriggerSystem TriggerSpec.

Lemma trigger_score :
  SignalScorer.calculate_signal_score SignalScorer.signal_scorer 75
    {[ "win_rate" := 65; "sharpe_ratio" := 1.5 ]} "trending"
    {[ "trending" := 70; "ranging" := 40 ]} 2.5 "normal" "normal" = 36 # 5.
Proof. by vm_compute. Qed.

Lemma _generate_signal_named now strategy candidate n :
  name strategy = Some n ->
  exists signal,
    _generate_signal now strategy candidate = Some signal
    /\ signal_score signal = 36 # 5
    /\ probability_score signal = 75
    /\ confidence_level signal = "Medium"%string
    /\ strategy_name signal = n
    /\ symbol signal = StrategyExecutor.sig_symbol candidate
    /\ entry_price signal = StrategyExecutor.sig_entry_price candidate
    /\ stop_loss signal = StrategyExecutor.sig_stop_loss candidate
    /\ take_profit signal = StrategyExecutor.sig_take_profit candidate.
Proof.
  intros Hn. unfold _generate_signal. cbv zeta. rewrite Hn, trigger_score.
  eexists. split; [reflexivity |]. repeat split.
Qed.

(** X22. The trigger's own [_generate_signal] never rejects a candidate: it
    scores fixed inputs, so every candidate of a strategy with a name gets
    the score 7.2 and the probability 75, which pass the filter (7.0 and
    65), with confidence [Medium] and the prices of the candidate. Only a
    strategy without a name yields [None]. *)
Theorem trigger_never_rejects_a_candidate now strategy candidate :
  (forall n, name strategy = Some n ->
     exists signal,
       _generate_signal now strategy candidate = Some signal
       /\ signal_score signal == 7.2
       /\ probability_score signal == 75
       /\ SignalQualityFilter.validate SignalQualityFilter.signal_filter
            (Some (view signal)) = true
       /\ confidence_level signal = "Medium"%string
       /\ strategy_name signal = n
       /\ symbol signal = StrategyExecutor.sig_symbol candidate
       /\ entry_price signal = StrategyExecutor.sig_entry_price candidate
       /\ stop_loss signal = StrategyExecutor.sig_stop_loss candidate
       /\ take_profit signal = StrategyExecutor.sig_take_profit candidate)
  /\ (name strategy = None -> _generate_signal now strategy candidate = None).
Proof.
  split.
  - intros n Hn.
    destruct (_generate_signal_named now strategy candidate n Hn)
      as (signal & Hg & Hs & Hp & Hc & Hrest).
    exists signal. split; [exact Hg |].
    split; [by rewrite Hs |]. split; [by rewrite Hp |].
    split; [| split; [exact Hc | exact Hrest]].
    unfold SignalQualityFilter.validate, view. simpl. by rewrite Hs, Hp.
  - intros Hn. unfold _generate_signal. cbv zeta. by rewrite Hn.
Qed.

Lemma sweep_strategy_signal_is_medium :
  exists signal,
    _generate_signal Examples.noon TriggerExamples.sweep_strategy
      (StrategyExecutor._generate_signal Examples.noon
         (executor_view TriggerExamples.sweep_strategy) MoreExamples.eurusd_tick)
    = Some signal
    /\ confidence_level signal = "Medium"%string.
Proof.
  destruct (trigger_never_rejects_a_candidate Examples.noon
              TriggerExamples.sweep_strategy
              (StrategyExecutor._generate_signal Examples.noon
                 (executor_view TriggerExamples.sweep_strategy)
                 MoreExamples.eurusd_tick)) as [H _].
  destruct (H (Json.JStr "Sweep") eq_refl) as (signal & Hg & _ & _ & _ & Hc & _).
  exists signal. by split.
Defined.

Lemma check_strategy_effect now peers candle self strategy :
  let after := check_strategy now peers candle self strategy in
  active_strategies after = active_strategies self
  /\ running after = running self
  /\ signals_generated after
     = (signals_generated self + if fires now candle strategy then 1 else 0)%Z
  /\ length (outbox after)
     = (length (outbox self) + if fires now candle strategy then 1 else 0)%nat
  /\ (fires now candle strategy = false -> after = self).
Proof.
  intros after. subst after. unfold check_strategy, fires.
  destruct (StrategyExecutor.execute _ _ _) as [candidate|];
    [| repeat split; simpl; lia].
  destruct (name strategy) as [n|] eqn:Hn; [| repeat split; simpl; lia].
  destruct (StrategyExecutor.symbol (tick candle)); [| repeat split; simpl; lia].
  destruct (_generate_signal_named now strategy candidate n Hn) as (signal & -> & _).
  unfold _distribute_signal.
  destruct (SignalDistributor.broadcast_signal peers (distributor self)) as [reached d].
  simpl. rewrite length_app. simpl. repeat split; try lia; discriminate.
Qed.

Lemma fold_check_strategy now peers candle strategies self :
  let after := fold_left (check_strategy now peers candle) strategies self in
  active_strategies after = active_strategies self
  /\ running after = running self
  /\ signals_generated after
     = (signals_generated self
        + Z.of_nat (length (List.filter (fires now candle) strategies)))%Z
  /\ length (outbox after)
     = (length (outbox self) + length (List.filter (fires now candle) strategies))%nat
  /\ (Forall (fun s => fires now candle s = false) strategies -> after = self).
Proof.
  revert self. induction strategies as [|s rest IH]; intros self; simpl.
  { repeat split; lia. }
  destruct (IH (check_strategy now peers candle self s)) as (Ha & Hr & Hg & Ho & Hn).
  destruct (check_strategy_effect now peers candle self s)
    as (Ha' & Hr' & Hg' & Ho' & Hn').
  simpl in *. rewrite Ha, Hr, Hg, Ho, Ha', Hr', Hg', Ho'.
  repeat split.
  - destruct (fires now candle s); simpl; lia.
  - destruct (fires now candle s); simpl; lia.
  - intros Hall. apply Forall_cons in Hall as [Hs Hrest].
    rewrite (Hn Hrest). by apply Hn'.
Qed.

(** X23. [_on_market_data] ignores a candle that is not closed. On a closed
    candle it keeps the list of strategies and adds to the counter of
    signals, and to what the distributor sends, one per strategy that gets
    through: its rules match, it has a name and the candle has a symbol. A
    strategy that fails does not stop the ones after it, and a candle
    without a symbol generates nothing. *)
Theorem on_market_data_counts_the_strategies_that_fire now peers self candle :
  let after := _on_market_data now peers self candle in
  (default false (is_closed candle) = false -> after = self)
  /\ (default false (is_closed candle) = true ->
        active_strategies after = active_strategies self
        /\ signals_generated after
           = (signals_generated self
              + Z.of_nat (length (List.filter (fires now candle)
                                    (active_strategies self))))%Z
        /\ length (outbox after)
           = (length (outbox self)
              + length (List.filter (fires now candle) (active_strategies self)))%nat)
  /\ (StrategyExecutor.symbol (tick candle) = None -> after = self).
Proof.
  intros after. subst after. unfold _on_market_data.
  destruct (fold_check_strategy now peers candle (active_strategies self) self)
    as (Ha & _ & Hg & Ho & Hn).
  split; [by intros -> |]. split.
  - intros ->. simpl. tauto.
  - intros Hs. destruct (negb _); [done |]. apply Hn.
    apply Forall_forall. intros s _. unfold fires. rewrite Hs.
    destruct (StrategyExecutor.execute _ _ _); [| done]. by destruct (name s).
Qed.

Lemma open_candle_is_ignored :
  let self := add_strategy __init__ TriggerExamples.sweep_strategy in
  _on_market_data Examples.noon TriggerExamples.quiet_peers self
    TriggerExamples.open_candle = self.
Proof.
  destruct (on_market_data_counts_the_strategies_that_fire Examples.noon
              TriggerExamples.quiet_peers
              (add_strategy __init__ TriggerExamples.sweep_strategy)
              TriggerExamples.open_candle) as (H & _ & _).
  apply H. reflexivity.
Defined.

Lemma no_config_never_matches now strategy md :
  StrategyExecutor.config strategy = None ->
  StrategyExecutor.execute now strategy md = None.
Proof.
  intros Hc. unfold StrategyExecutor.execute. rewrite Hc. simpl.
  by destruct (negb _).
Qed.

Lemma configless_strategies_never_fire now peers self candle :
  Forall (fun s => StrategyExecutor.config (executor_view s) = None)
    (active_strategies self) ->
  _on_market_data now peers self candle = self.
Proof.
  intros Hall. unfold _on_market_data. destruct (negb _); [done |].
  destruct (fold_check_strategy now peers candle (active_strategies self) self)
    as (_ & _ & _ & _ & Hn).
  apply Hn. apply Forall_forall. intros s Hs.
  rewrite Forall_forall in Hall. specialize (Hall s Hs).
  unfold fires. by rewrite (no_config_never_matches now _ _ Hall).
Qed.

(** X24. [add_strategy] looks at the top level of the dictionary: a
    strategy is appended, after the ones already there, when its [name] and
    its top-level [rules] are truthy, and dropped otherwise. The executor
    reads the rules under [config]: a strategy without a [config] entry is
    accepted all the same, and then never yields a candidate. *)
Theorem add_strategy_checks_the_top_level self strategy :
  (Json.truthy_at (name strategy) && Json.truthy_at (rules strategy) = true ->
     active_strategies (add_strategy self strategy)
     = active_strategies self ++ [strategy])
  /\ (Json.truthy_at (name strategy) && Json.truthy_at (rules strategy) = false ->
        add_strategy self strategy = self)
  /\ (StrategyExecutor.config (executor_view strategy) = None ->
        forall now md,
          StrategyExecutor.execute now (executor_view strategy) md = None).
Proof.
  unfold add_strategy. split; [by intros -> |]. split; [by intros -> |].
  intros Hc now md. by apply no_config_never_matches.
Qed.

Lemma parsed_strategy_is_accepted_and_never_fires :
  active_strategies (add_strategy __init__ TriggerExamples.london_breakout)
  = [TriggerExamples.london_breakout]
  /\ StrategyExecutor.execute Examples.noon
       (executor_view TriggerExamples.london_breakout) MoreExamples.eurusd_tick = None.
Proof.
  destruct (add_strategy_checks_the_top_level __init__ TriggerExamples.london_breakout)
    as (Hadd & _ & Hnever).
  split; [apply Hadd; reflexivity | apply Hnever; reflexivity].
Defined.

End Trigger.

(** ** The parser *)

Section Parser.
Import StrategyParser ParserSpec.

Lemma existsb_is_string key items :
  existsb (fun item => match item with
                       | Json.JStr s => String.eqb s key
                       | _ => false
                       end) items = true
  <-> In (Json.JStr key) items.
Proof.
  rewrite existsb_exists. split.
  - intros (item & Hin & Heq). destruct item; try discriminate.
    apply String.eqb_eq in Heq. by subst.
  - intros Hin. exists (Json.JStr key). split; [exact Hin |]. apply String.eqb_refl.
Qed.

Lemma parse_json_strategy_object now fields :
  parse_json_strategy now (inr (Json.JObj fields))
  = match Json.assoc "name" fields, Json.assoc "rules" fields with
    | None, _ => Py.Return (invalid "Missing required field: name")
    | Some _, None => Py.Return (invalid "Missing required field: rules")
    | Some name, Some rules =>
        if no_rule rules
        then Py.Return (invalid "Strategy must have at least one rule")
        else Py.Return {| name := Some name;
                          type := None;
                          rules := Some rules;
                          entry := Some (default (Json.JObj []) (Json.assoc "entry" fields));
                          risk_management :=
                            Some (default (Json.JObj [])
                                    (Json.assoc "risk_management" fields));
                          raw_code := None;
                          parsed_at := Some (utc_iso now);
                          valid := Some true;
                          error := None |}
    end.
Proof.
  unfold parse_json_strategy. simpl.
  destruct (Json.assoc "name" fields) as [n|]; simpl; [| done].
  destruct (Json.assoc "rules" fields) as [r|]; simpl; [| done].
  by destruct (no_rule r).
Qed.

Lemma no_rule_false rules :
  no_rule rules = false <-> exists items, rules = Json.JArr items /\ items <> [].
Proof.
  split.
  - destruct rules as [| | | |[|item items]|]; try discriminate.
    intros _. by exists (item :: items).
  - intros (items & -> & Hne). by destruct items.
Qed.

Lemma parse_json_strategy_raises now v :
  passes_as_container v -> parse_json_strategy now (inr v) = Py.Raise "TypeError".
Proof.
  destruct v as [| | |s|items|fields]; simpl; try done.
  - intros [-> ->]. reflexivity.
  - intros [Hn Hr]. apply existsb_is_string in Hn, Hr.
    unfold parse_json_strategy. simpl. rewrite Hn. simpl. by rewrite Hr.
Qed.

Lemma parse_json_strategy_returns now v :
  ~ passes_as_container v -> exists parsed, parse_json_strategy now (inr v) = Py.Return parsed.
Proof.
  destruct v as [| | |s|items|fields]; intros Hn; cbn [passes_as_container] in Hn;
    try (exfalso; by apply Hn).
  - unfold parse_json_strategy. simpl.
    destruct (Py.contains "name" s) eqn:H1; simpl; [| by eexists].
    destruct (Py.contains "rules" s) eqn:H2; simpl; [| by eexists].
    exfalso. by apply Hn.
  - unfold parse_json_strategy. simpl.
    destruct (existsb _ items) eqn:H1; simpl; [| by eexists].
    destruct (existsb _ items) eqn:H2 in |- *; simpl; [| by eexists].
    exfalso. apply Hn. split; by apply existsb_is_string.
  - rewrite parse_json_strategy_object.
    destruct (Json.assoc "name" fields); [| by eexists].
    destruct (Json.assoc "rules" fields) as [r|]; [| by eexists].
    destruct (no_rule r); by eexists.
Qed.

Lemma parse_json_strategy_valid now v parsed :
  parse_json_strategy now (inr v) = Py.Return parsed ->
  valid parsed = Some true ->
  exists fields n items,
    v = Json.JObj fields
    /\ Json.assoc "name" fields = Some n
    /\ Json.assoc "rules" fields = Some (Json.JArr items)
    /\ items <> []
    /\ name parsed = Some n
    /\ rules parsed = Some (Json.JArr items)
    /\ entry parsed = Some (default (Json.JObj []) (Json.assoc "entry" fields))
    /\ risk_management parsed
       = Some (default (Json.JObj []) (Json.assoc "risk_management" fields)).
Proof.
  destruct v as [| | |s|items|fields]; try discriminate.
  - unfold parse_json_strategy. simpl.
    destruct (Py.contains "name" s); simpl; [| intros [= <-]; discriminate].
    destruct (Py.contains "rules" s); simpl; [discriminate | intros [= <-]; discriminate].
  - unfold parse_json_strategy. simpl.
    destruct (existsb _ items); simpl; [| intros [= <-]; discriminate].
    destruct (existsb _ items); simpl; [discriminate | intros [= <-]; discriminate].
  - rewrite parse_json_strategy_object.
    destruct (Json.assoc "name" fields) as [n|] eqn:Hname;
      [| intros [= <-]; discriminate].
    destruct (Json.assoc "rules" fields) as [r|] eqn:Hrules;
      [| intros [= <-]; discriminate].
    destruct (no_rule r) eqn:Hr; [intros [= <-]; discriminate |].
    apply no_rule_false in Hr as (items & -> & Hne).
    intros [= <-] _. exists fields, n, items. by repeat split.
Qed.

(** X25. [parse_json_strategy] on the outcome of [json.loads]. A decoding
    error gives an invalid result with its message. A decoded dictionary
    never raises, and the result is valid exactly when the dictionary has a
    [name] and a [rules] entry that is a non-empty list; a valid result
    carries the name and the rules unchanged, and empty dictionaries for a
    missing [entry] or [risk_management]. A decoded value that is no
    dictionary is never valid: a number, a boolean or [null], and a string
    or a list that contains both words, end in a [TypeError] that the
    function does not catch. *)
Theorem parse_json_strategy_accepts_iff now :
  (forall e, parse_json_strategy now (inl e) = Py.Return (invalid ("Invalid JSON: " +:+ e)))
  /\ (forall v, passes_as_container v ->
                parse_json_strategy now (inr v) = Py.Raise "TypeError")
  /\ (forall v, ~ passes_as_container v ->
                exists parsed,
                  parse_json_strategy now (inr v) = Py.Return parsed
                  /\ (valid parsed = Some true \/ valid parsed = Some false))
  /\ (forall v parsed,
        parse_json_strategy now (inr v) = Py.Return parsed ->
        (valid parsed = Some true <->
         exists fields n items,
           v = Json.JObj fields
           /\ Json.assoc "name" fields = Some n
           /\ Json.assoc "rules" fields = Some (Json.JArr items)
           /\ items <> [])
        /\ (valid parsed = Some true ->
            exists fields,
              v = Json.JObj fields
              /\ name parsed = Json.assoc "name" fields
              /\ rules parsed = Json.assoc "rules" fields
              /\ entry parsed = Some (default (Json.JObj []) (Json.assoc "entry" fields))
              /\ risk_management parsed
                 = Some (default (Json.JObj []) (Json.assoc "risk_management" fields)))).
Proof.
  split; [done |]. split; [intros v; apply parse_json_strategy_raises |].
  split.
  - intros v Hv. destruct (parse_json_strategy_returns now v Hv) as [parsed Hp].
    exists parsed. split; [exact Hp |].
    destruct (valid parsed) as [[|]|] eqn:Hvalid; [by left | by right |].
    exfalso. revert Hp Hvalid. clear.
    destruct v as [| | |s|items|fields]; try discriminate.
    + unfold parse_json_strategy. simpl.
      destruct (Py.contains "name" s); simpl; [| intros [= <-]; discriminate].
      destruct (Py.contains "rules" s); simpl; [discriminate | intros [= <-]; discriminate].
    + unfold parse_json_strategy. simpl.
      destruct (existsb _ items); simpl; [| intros [= <-]; discriminate].
      destruct (existsb _ items); simpl; [discriminate | intros [= <-]; discriminate].
    + rewrite parse_json_strategy_object.
      destruct (Json.assoc "name" fields); [| intros [= <-]; discriminate].
      destruct (Json.assoc "rules" fields) as [r|]; [| intros [= <-]; discriminate].
      destruct (no_rule r); intros [= <-]; discriminate.
  - intros v parsed Hp. split; [split |].
    + intros Hvalid.
      destruct (parse_json_strategy_valid now v parsed Hp Hvalid)
        as (fields & n & items & Hv & Hn & Hr & Hne & _).
      by exists fields, n, items.
    + intros (fields & n & items & -> & Hn & Hr & Hne).
      rewrite parse_json_strategy_object, Hn, Hr in Hp.
      assert (Hno : no_rule (Json.JArr items) = false).
      { apply no_rule_false. by exists items. }
      rewrite Hno in Hp. by injection Hp as <-.
    + intros Hvalid.
      destruct (parse_json_strategy_valid now v parsed Hp Hvalid)
        as (fields & n & items & Hv & Hn & Hr & Hne & Hname & Hrules & He & Hrm).
      exists fields. by rewrite Hn, Hr.
Qed.

Lemma london_breakout_is_parsed :
  exists parsed,
    parse_json_strategy Examples.noon (inr ParserExamples.london_breakout)
    = Py.Return parsed
    /\ (valid parsed = Some true \/ valid parsed = Some false).
Proof.
  destruct (parse_json_strategy_accepts_iff Examples.noon) as (_ & _ & H & _).
  apply H. simpl. tauto.
Defined.

End Parser.

Section ParserAndTrigger.
Import StrategyParser ParserSpec.

Lemma parse_json_strategy_outcome now decoded parsed :
  parse_json_strategy now decoded = Py.Return parsed ->
  (valid parsed = Some true
   /\ exists n items, name parsed = Some n /\ rules parsed = Some (Json.JArr items)
                      /\ items <> [])
  \/ (valid parsed = Some false /\ name parsed = None /\ rules parsed = None).
Proof.
  destruct decoded as [e|v].
  - intros [= <-]. by right.
  - intros Hp. destruct (valid parsed) as [[|]|] eqn:Hvalid.
    + left. split; [done |].
      destruct (parse_json_strategy_valid now v parsed Hp Hvalid)
        as (fields & n & items & _ & _ & _ & Hne & Hname & Hrules & _).
      by exists n, items.
    + right. split; [done |]. revert Hp Hvalid. clear.
      destruct v as [| | |s|items|fields]; try discriminate.
      * unfold parse_json_strategy. simpl.
        destruct (Py.contains "name" s); simpl; [| by intros [= <-]].
        destruct (Py.contains "rules" s); simpl; [discriminate | by intros [= <-]].
      * unfold parse_json_strategy. simpl.
        destruct (existsb _ items); simpl; [| by intros [= <-]].
        destruct (existsb _ items); simpl; [discriminate | by intros [= <-]].
      * rewrite parse_json_strategy_object.
        destruct (Json.assoc "name" fields); [| by intros [= <-]].
        destruct (Json.assoc "rules" fields) as [r|]; [| by intros [= <-]].
        destruct (no_rule r); intros [= <-]; [done | discriminate].
    + exfalso. revert Hp Hvalid. clear.
      destruct v as [| | |s|items|fields]; try discriminate.
      * unfold parse_json_strategy. simpl.
        destruct (Py.contains "name" s); simpl; [| intros [= <-]; discriminate].
        destruct (Py.contains "rules" s); simpl;
          [discriminate | intros [= <-]; discriminate].
      * unfold parse_json_strategy. simpl.
        destruct (existsb _ items); simpl; [| intros [= <-]; discriminate].
        destruct (existsb _ items); simpl;
          [discriminate | intros [= <-]; discriminate].
      * rewrite parse_json_strategy_object.
        destruct (Json.assoc "name" fields); [| intros [= <-]; discriminate].
        destruct (Json.assoc "rules" fields) as [r|]; [| intros [= <-]; discriminate].
        destruct (no_rule r); intros [= <-]; discriminate.
Qed.

(** X26. A strategy that comes from [parse_json_strategy] and is added to
    the trigger, as [example_live_system] does: the trigger accepts it
    exactly when it is valid and its name is truthy, and it never fires,
    because the parser writes the rules at top level and the executor reads
    them under [config]. A trigger that holds only such strategies is
    left unchanged by every candle: it generates no signal. *)
Theorem parsed_strategies_never_trigger now self decoded loaded :
  LiveSystem.load now self decoded = Py.Return loaded ->
  Forall (fun s => StrategyExecutor.config (StrategyTriggerSystem.executor_view s) = None)
    (StrategyTriggerSystem.active_strategies self) ->
  (exists parsed,
     parse_json_strategy now decoded = Py.Return parsed
     /\ (valid parsed = Some true /\ Json.truthy_at (name parsed) = true ->
           StrategyTriggerSystem.active_strategies loaded
           = StrategyTriggerSystem.active_strategies self
             ++ [LiveSystem.as_trigger_strategy parsed])
     /\ (valid parsed = Some false \/ Json.truthy_at (name parsed) = false ->
           loaded = self))
  /\ forall now' peers candle,
       StrategyTriggerSystem._on_market_data now' peers loaded candle = loaded.
Proof.
  unfold LiveSystem.load. intros Hload Hall.
  destruct (parse_json_strategy now decoded) as [parsed|] eqn:Hp; [| discriminate].
  simpl in Hload. injection Hload as <-.
  pose proof (parse_json_strategy_outcome now decoded parsed Hp) as Hout.
  split.
  - exists parsed. split; [done |]. unfold StrategyTriggerSystem.add_strategy. simpl.
    split.
    + intros [Hv Hn]. rewrite Hn.
      destruct Hout as [(_ & n & items & _ & -> & Hne) | (Hf & _)]; [| congruence].
      by destruct items.
    + intros [Hv | Hn].
      * destruct Hout as [(Ht & _) | (_ & -> & _)]; [congruence | done].
      * by rewrite Hn.
  - intros now' peers candle. apply configless_strategies_never_fire.
    unfold StrategyTriggerSystem.add_strategy. destruct (_ && _); [| exact Hall].
    simpl. apply Forall_app. split; [exact Hall |]. by apply Forall_singleton.
Qed.

Lemma london_breakout_never_triggers :
  exists loaded,
    LiveSystem.load Examples.noon StrategyTriggerSystem.__init__
      (inr ParserExamples.london_breakout) = Py.Return loaded
    /\ length (StrategyTriggerSystem.active_strategies loaded) = 1%nat
    /\ StrategyTriggerSystem._on_market_data Examples.noon TriggerExamples.quiet_peers
         loaded TriggerExamples.closed_candle = loaded.
Proof.
  destruct (parsed_strategies_never_trigger Examples.noon StrategyTriggerSystem.__init__
              (inr ParserExamples.london_breakout) _ eq_refl (List.Forall_nil _)) as [_ H].
  eexists. split; [reflexivity |]. split; [reflexivity |]. apply H.
Defined.

Lemma times_pips entry fallback :
  Qle_bool Json.float_limit (Qabs fallback) = false ->
  pips_number entry = true ->
  times (default (Json.JNum fallback) entry) 0.0001
  = Py.Return (match entry with
               | Some (Json.JNum pips) => pips
               | _ => fallback
               end * 0.0001).
Proof.
  intros Hf. destruct entry as [[| |q| | |]|]; try discriminate; simpl.
  - unfold Py.Qlt_bool. intros H. apply negb_true_iff in H. by rewrite H.
  - intros _. by rewrite Hf.
Qed.

Lemma times_overflow q factor :
  Json.float_limit <= Qabs q -> times (Json.JNum q) factor = Py.Raise "OverflowError".
Proof. intros H. simpl. apply Qle_bool_iff in H. by rewrite H. Qed.

Lemma _generate_signal_returns strategy md n :
  name strategy = Some n ->
  numeric_pips (default (Json.JObj []) (risk_management strategy)) = true ->
  exists signal sl tp,
    _generate_signal strategy md = Py.Return signal
    /\ symbol signal = default "EURUSD"%string (StrategyExecutor.symbol md)
    /\ direction signal = "BUY"%string
    /\ entry_price signal = default 1.0850 (StrategyExecutor.close md)
    /\ stop_loss signal = entry_price signal - sl * 0.0001
    /\ take_profit signal = entry_price signal + tp * 0.0001
    /\ strategy_name signal = n
    /\ (forall fields,
          default (Json.JObj []) (risk_management strategy) = Json.JObj fields ->
          sl = match Json.assoc "stop_loss_pips" fields with
               | Some (Json.JNum pips) => pips
               | _ => 15
               end
          /\ tp = match Json.assoc "take_profit_pips" fields with
                  | Some (Json.JNum pips) => pips
                  | _ => 40
                  end).
Proof.
  intros Hn Hnum. unfold _generate_signal. cbv zeta. rewrite Hn.
  destruct (default (Json.JObj []) (risk_management strategy))
    as [| | | | |fields] eqn:Hrisk; try discriminate.
  cbn [numeric_pips] in Hnum. apply andb_prop in Hnum as [Hsl Htp].
  cbn [get mbind Exc_bind Py.bind mret Exc_ret].
  rewrite (times_pips _ 15 eq_refl Hsl). cbn [mbind Exc_bind Py.bind mret Exc_ret].
  rewrite (times_pips _ 40 eq_refl Htp). cbn [mbind Exc_bind Py.bind mret Exc_ret].
  eexists; eexists; eexists. split; [reflexivity |].
  cbn [symbol direction entry_price stop_loss take_profit strategy_name].
  repeat (split; [reflexivity |]). by intros ? [= <-].
Qed.

Lemma rules_met_dictionaries items md :
  Forall (fun rule => is_dictionary rule = true) items ->
  rules_met items md = Py.Return (map known_type items).
Proof.
  induction 1 as [|rule rest Hd _ IH]; [done |].
  cbn [rules_met]. rewrite IH. destruct rule as [| | | | |fields]; try discriminate.
  simpl.
  destruct (Json.assoc "type" fields) as [[| | |t| |]|]; simpl; try done.
  unfold eq_str.
  destruct (String.eqb t "price_action") eqn:H1.
  { apply String.eqb_eq in H1 as ->. done. }
  destruct (String.eqb t "technical") eqn:H2.
  { apply String.eqb_eq in H2 as ->. done. }
  destruct (String.eqb t "session") eqn:H3.
  { apply String.eqb_eq in H3 as ->. done. }
  apply String.eqb_neq in H1, H2, H3.
  rewrite bool_decide_eq_false_2; [done |].
  rewrite !elem_of_cons, elem_of_nil. tauto.
Qed.

Lemma rules_met_raises items md :
  ~ Forall (fun rule => is_dictionary rule = true) items ->
  rules_met items md = Py.Raise "AttributeError".
Proof.
  induction items as [|rule rest IH]; intros Hn.
  { exfalso. apply Hn. constructor. }
  cbn [rules_met].
  destruct rule as [| | | | |fields]; try done.
  rewrite IH; [| intros Hrest; apply Hn; by constructor].
  assert (exists result, _evaluate_rule (Json.JObj fields) md = Py.Return result)
    as [result ->]; [| reflexivity].
  simpl. repeat (destruct (eq_str _ _); [by eexists |]). by eexists.
Qed.

Lemma forallb_id_map {A} (f : A -> bool) l : forallb id (map f l) = forallb f l.
Proof. induction l as [|x l IH]; [done |]. simpl. by rewrite IH. Qed.

(** X27. [execute_strategy] of the parser looks at the types of the rules
    only, never at their conditions or at the tick. For a valid strategy
    with a list of rules: when a rule is no dictionary the call raises,
    also after a rule has failed, since every rule is evaluated; otherwise
    it goes on exactly when every rule has one of the types [price_action],
    [technical] and [session], and returns [None] when one has not. Going
    on, a strategy without a name raises [KeyError]; with a name, and with
    a close and pips of ordinary size or absent, the call returns a signal,
    a [BUY] at the close (1.0850 without one) with the stop and the target
    at the pips times 0.0001 below and above it (15 and 40 without them),
    not rounded to a number of decimals, up to the margin of the
    floating-point product and difference; a whole number of pips too
    large for a float raises [OverflowError]. *)
Theorem execute_strategy_reads_rule_types_only strategy items md :
  valid strategy = Some true ->
  rules strategy = Some (Json.JArr items) ->
  (~ Forall (fun rule => is_dictionary rule = true) items ->
     execute_strategy strategy md = Py.Raise "AttributeError")
  /\ (Forall (fun rule => is_dictionary rule = true) items ->
      (forallb known_type items = false ->
         execute_strategy strategy md = Py.Return None)
      /\ (forallb known_type items = true ->
          (name strategy = None -> execute_strategy strategy md = Py.Raise "KeyError")
          /\ (forall n,
                name strategy = Some n ->
                let risk := default (Json.JObj []) (risk_management strategy) in
                let sl := pips_of "stop_loss_pips" 15 risk in
                let tp := pips_of "take_profit_pips" 40 risk in
                numeric_pips risk = true ->
                Rounding.ordinary sl -> Rounding.ordinary tp ->
                Rounding.ordinary (default 1.0850 (StrategyExecutor.close md)) ->
                exists signal,
                  execute_strategy strategy md = Py.Return (Some signal)
                  /\ direction signal = "BUY"%string
                  /\ entry_price signal = default 1.0850 (StrategyExecutor.close md)
                  /\ Rounding.close (stop_loss signal) (entry_price signal - sl * 0.0001)
                  /\ Rounding.close (take_profit signal)
                       (entry_price signal + tp * 0.0001))
          /\ (forall n fields pips,
                name strategy = Some n ->
                risk_management strategy = Some (Json.JObj fields) ->
                Json.assoc "stop_loss_pips" fields = Some (Json.JNum pips) ->
                Json.float_limit <= Qabs pips ->
                execute_strategy strategy md = Py.Raise "OverflowError"))).
Proof.
  intros Hvalid Hrules. unfold execute_strategy.
  rewrite Hvalid, Hrules. simpl. split.
  - intros Hn. by rewrite rules_met_raises.
  - intros Hd. rewrite (rules_met_dictionaries items md Hd). simpl.
    rewrite forallb_id_map. split; [by intros -> |].
    intros ->. split; [by intros -> |]. split.
    + intros n Hname Hnum _ _ _. rewrite Hname.
      destruct (_generate_signal_returns strategy md n Hname Hnum)
        as (signal & sl & tp & -> & _ & Hdir & He & Hsl & Htp & _ & Hpips).
      change (from_option id (Json.JObj []) (risk_management strategy))
        with (default (Json.JObj []) (risk_management strategy)) in *.
      destruct (default (Json.JObj []) (risk_management strategy))
        as [| | | | |fields]; try discriminate.
      destruct (Hpips fields eq_refl) as [-> ->]. cbn [pips_of].
      exists signal.
      split; [reflexivity |]. split; [exact Hdir |]. split; [exact He |].
      rewrite Hsl, Htp. split; apply close_of_Qeq; reflexivity.
    + intros n fields pips Hname Hrisk Hsl Hbig. rewrite Hname.
      unfold _generate_signal. cbv zeta. rewrite Hrisk.
      cbn [from_option id get mbind Exc_bind Py.bind mret Exc_ret]. rewrite Hsl.
      cbn [from_option id]. by rewrite (times_overflow pips 0.0001 Hbig).
Qed.

Lemma london_breakout_signals_on_any_tick :
  exists signal,
    (parse_json_strategy Examples.noon (inr ParserExamples.london_breakout)
       ≫= fun parsed => execute_strategy parsed MoreExamples.usdjpy_tick)
    = Py.Return (Some signal)
    /\ direction signal = "BUY"%string.
Proof.
  destruct (execute_strategy_reads_rule_types_only
              {| name := Some (Json.JStr "London Breakout");
                 type := None;
                 rules := Json.assoc "rules"
                            match ParserExamples.london_breakout with
                            | Json.JObj fields => fields
                            | _ => []
                            end;
                 entry := Some (Json.JObj []);
                 risk_management :=
                   Some (Json.JObj [("stop_loss_pips"%string, Json.JNum 20);
                                    ("take_profit_pips"%string, Json.JNum 50)]);
                 raw_code := None;
                 parsed_at := Some (utc_iso Examples.noon);
                 valid := Some true;
                 error := None |}
              _ MoreExamples.usdjpy_tick eq_refl eq_refl) as [_ H].
  destruct H as [_ H]; [repeat constructor |].
  destruct (H eq_refl) as (_ & H' & _).
  destruct (H' (Json.JStr "London Breakout") eq_refl eq_refl)
    as (signal & Hx & Hdir & _); try (vm_compute; discriminate).
  exists signal. split; [exact Hx | exact Hdir].
Defined.

End ParserAndTrigger.

Section Placeholders.
Import StrategyParser ParserSpec.









End Placeholders.

(** ** The backtesting engine *)

Section Backtest.
Import BacktestEngine BacktestSpec.

Lemma _execute_trade_untradable draws pos signal capital position_size :
  tradable signal = false ->
  _execute_trade draws pos signal capital position_size = (None, pos).
Proof.
  unfold tradable, _execute_trade.
  destruct (entry_price signal) as [e|]; [| done].
  destruct (stop_loss signal) as [s|]; [| done].
  destruct (take_profit signal) as [t|]; [| done].
  destruct (direction signal) as [d|]; [| done].
  destruct (String.eqb d "BUY"); intros H; apply Qlt_bool_false in H.
  - assert (Hle : Qle_bool (e - s) 0 = true) by (apply Qle_bool_iff; lra).
    by rewrite Hle.
  - assert (Hle : Qle_bool (s - e) 0 = true) by (apply Qle_bool_iff; lra).
    by rewrite Hle.
Qed.

Lemma _execute_trade_tradable draws pos signal capital position_size :
  tradable signal = true ->
  (_execute_trade draws pos signal capital position_size).2 = S pos
  /\ ((capital * position_size == 0
       /\ (_execute_trade draws pos signal capital position_size).1 = None)
      \/ (~ capital * position_size == 0
          /\ exists trade,
               (_execute_trade draws pos signal capital position_size).1 = Some trade
               /\ settles (draws pos) signal (capital * position_size) trade)).
Proof.
  unfold tradable, _execute_trade, settles, reward_to_risk.
  destruct (entry_price signal) as [e|]; [| done].
  destruct (stop_loss signal) as [s|]; [| done].
  destruct (take_profit signal) as [t|]; [| done].
  destruct (direction signal) as [d|]; [| done].
  set (ra := capital * position_size).
  destruct (String.eqb d "BUY"); intros H; apply Qlt_bool_true in H.
  - assert (Hle : Qle_bool (e - s) 0 = false) by (apply Qle_bool_false; lra).
    rewrite Hle. cbv zeta. unfold Py.truediv.
    destruct (Py.Qlt_bool (draws pos) 0.65) eqn:Hd;
      [apply Qlt_bool_true in Hd | apply Qlt_bool_false in Hd];
      (destruct (Qeq_bool ra 0) eqn:Hz;
       [apply Qeq_bool_iff in Hz | apply Qeq_bool_false in Hz]);
      simpl; (split; [reflexivity |]); try (left; by split).
    + right. split; [done |]. eexists. split; [reflexivity |]. left. simpl.
      repeat split; try done; field; lra.
    + right. split; [done |]. eexists. split; [reflexivity |]. right. simpl.
      repeat split; try done; field; lra.
  - assert (Hle : Qle_bool (s - e) 0 = false) by (apply Qle_bool_false; lra).
    rewrite Hle. cbv zeta. unfold Py.truediv.
    destruct (Py.Qlt_bool (draws pos) 0.65) eqn:Hd;
      [apply Qlt_bool_true in Hd | apply Qlt_bool_false in Hd];
      (destruct (Qeq_bool ra 0) eqn:Hz;
       [apply Qeq_bool_iff in Hz | apply Qeq_bool_false in Hz]);
      simpl; (split; [reflexivity |]); try (left; by split).
    + right. split; [done |]. eexists. split; [reflexivity |]. left. simpl.
      repeat split; try done; field; lra.
    + right. split; [done |]. eexists. split; [reflexivity |]. right. simpl.
      repeat split; try done; field; lra.
Qed.

Lemma settles_exits draw signal risk_amount trade :
  settles draw signal risk_amount trade -> exits draw signal trade.
Proof.
  intros [(Hd & Ho & He & _) | (Hd & Ho & He & _)]; [left | right]; by repeat split.
Qed.

Lemma settles_settles_about draw signal risk_amount trade :
  settles draw signal risk_amount trade ->
  settles_about draw signal risk_amount trade.
Proof.
  intros [(Hd & _ & _ & Hp & Hq) | (Hd & _ & _ & Hp & Hq)]; [left | right];
    (split; [exact Hd |]); split; by apply close_of_Qeq.
Qed.

Lemma ordinary_trade_at_risk signal capital position_size :
  ordinary_trade signal capital position_size -> ~ capital * position_size == 0.
Proof.
  intros (_ & _ & Hr & _) Hz. rewrite Hz in Hr. revert Hr. change (Qabs 0) with 0.
  apply Qlt_not_le. reflexivity.
Qed.

(** X29. [_execute_trade] never reads the price data. A signal that lacks
    one of its four entries, or whose stop does not lie on the losing side
    of its entry, gives no trade and uses no draw; a trade is only given
    for a tradable signal and an amount at risk, capital times position
    size, that is not zero; and a trade leaves at the target of the signal
    as a win when the draw is below 0.65, at its stop as a loss otherwise.
    For a tradable signal and a trade of ordinary size, one draw is used
    and a trade is given: a loss loses the amount at risk, that is 100
    percent of it, and a win gains it times the reward-to-risk ratio of the
    signal, both up to the margin of the floating-point arithmetic. *)
Theorem trade_settles_for_the_amount_at_risk draws pos signal capital position_size :
  let result := _execute_trade draws pos signal capital position_size in
  (tradable signal = false -> result = (None, pos))
  /\ (is_Some result.1 ->
      tradable signal = true /\ ~ capital * position_size == 0)
  /\ (forall trade, result.1 = Some trade -> exits (draws pos) signal trade)
  /\ (ordinary_trade signal capital position_size ->
      tradable signal = true ->
      result.2 = S pos
      /\ exists trade,
           result.1 = Some trade
           /\ settles_about (draws pos) signal (capital * position_size) trade).
Proof.
  intros result. subst result.
  destruct (tradable signal) eqn:Ht.
  - destruct (_execute_trade_tradable draws pos signal capital position_size Ht)
      as [Hpos [[Hz Hn] | (Hz & trade & Hs & Hset)]].
    + split; [discriminate |]. rewrite Hn. split; [intros [? [=]] |].
      split; [discriminate |].
      intros Ho _. by destruct (ordinary_trade_at_risk _ _ _ Ho).
    + split; [discriminate |]. rewrite Hs. split; [done |].
      split.
      * intros ? [= <-]. by eapply settles_exits.
      * intros _ _. split; [exact Hpos |]. exists trade.
        split; [reflexivity | by apply settles_settles_about].
  - rewrite (_execute_trade_untradable draws pos signal capital position_size Ht).
    split; [done |]. split; [intros [? [=]] |]. split; discriminate.
Qed.

Lemma eurusd_buy_loses_the_amount_at_risk :
  exists trade,
    (_execute_trade BacktestExamples.loss_then_win 0 BacktestExamples.eurusd_buy
       10000 0.1).1 = Some trade
    /\ Rounding.close (pnl trade) (- (10000 * 0.1)).
Proof.
  destruct (trade_settles_for_the_amount_at_risk BacktestExamples.loss_then_win 0
              BacktestExamples.eurusd_buy 10000 0.1) as (_ & _ & _ & H).
  destruct H as (_ & trade & Ht & Hs).
  - unfold ordinary_trade, ordinary_signal, Rounding.ordinary. simpl.
    repeat split; by vm_compute.
  - reflexivity.
  - exists trade. split; [exact Ht |].
    destruct Hs as [(Hd & _) | (_ & Hp & _)]; [| exact Hp].
    exfalso. revert Hd. by vm_compute.
Defined.

End Backtest.

Section BacktestBooks.
Import BacktestEngine BacktestSpec.

Variable sqrt : Q -> Q.

Lemma fold_left_pnl trades acc :
  fold_left (fun total t => total + pnl t) trades acc == acc + sum_pnl trades.
Proof.
  unfold sum_pnl. revert acc. induction trades as [|t l IH]; intros acc; simpl.
  - ring.
  - rewrite IH, (IH (0 + pnl t)). ring.
Qed.

Lemma sum_pnl_cons t l : sum_pnl (t :: l) == pnl t + sum_pnl l.
Proof. unfold sum_pnl at 1. simpl. rewrite fold_left_pnl. ring. Qed.

Lemma sum_pnl_snoc l t : sum_pnl (l ++ [t]) = sum_pnl l + pnl t.
Proof. unfold sum_pnl. by rewrite fold_left_app. Qed.

Lemma reward_to_risk_nonneg signal :
  tradable signal = true -> target_on_winning_side signal = true ->
  0 <= reward_to_risk signal.
Proof.
  unfold tradable, target_on_winning_side, reward_to_risk.
  destruct (entry_price signal) as [e|]; [| done].
  destruct (stop_loss signal) as [s|]; [| done].
  destruct (take_profit signal) as [t|]; [| done].
  destruct (direction signal) as [d|]; [| done].
  destruct (String.eqb d "BUY"); intros Hs Ht;
    apply Qlt_bool_true in Hs; apply Qle_bool_iff in Ht;
    apply Qle_shift_div_l; lra.
Qed.

Lemma balanced_step draws pos signal position_size initial capital trades equity :
  0 < position_size <= 1 ->
  target_on_winning_side signal = true ->
  balanced initial trades equity capital ->
  forall trade,
    (_execute_trade draws pos signal capital position_size).1 = Some trade ->
    balanced initial (trades ++ [trade]) (equity ++ [capital + pnl trade])
      (capital + pnl trade).
Proof.
  intros Hps Htarget (Hc & Hlast & Hhd & Hall & Hlen & Hsum & Hsound) trade Htrade.
  destruct (tradable signal) eqn:Ht.
  2: { rewrite (_execute_trade_untradable _ _ _ _ _ Ht) in Htrade. discriminate. }
  destruct (_execute_trade_tradable draws pos signal capital position_size Ht)
    as [_ [[_ Hn] | (_ & trade' & Hs & Hset)]]; [congruence |].
  rewrite Hs in Htrade. injection Htrade as ->.
  pose proof (reward_to_risk_nonneg signal Ht Htarget) as Hr.
  assert (Hra : 0 <= capital * position_size <= capital) by nra.
  assert (Hpnl : 0 <= capital + pnl trade /\ sound trade).
  { destruct Hset as [(_ & Ho & _ & Hp & _) | (_ & Ho & _ & Hp & _)].
    - assert (0 <= pnl trade) by (rewrite Hp; nra).
      split; [lra |]. left. by split.
    - split; [rewrite Hp; lra |]. right. split; [done |]. rewrite Hp. lra. }
  destruct Hpnl as [Hc' Hs'].
  split; [exact Hc' |]. split; [apply last_last |].
  split.
  { destruct equity as [|x rest]; [discriminate Hlen | exact Hhd]. }
  split.
  { apply Forall_app. split; [exact Hall |]. by apply Forall_singleton. }
  split.
  { rewrite !length_app. simpl. lia. }
  split.
  { rewrite sum_pnl_snoc, Hsum. ring. }
  apply Forall_app. split; [exact Hsound |]. by apply Forall_singleton.
Qed.

Lemma trade_loop_balanced draws position_size initial signals :
  0 < position_size <= 1 ->
  Forall (fun signal => target_on_winning_side signal = true) signals ->
  forall pos capital trades equity,
    balanced initial trades equity capital ->
    balanced initial
      (trade_loop draws pos signals position_size capital trades equity).1.1
      (trade_loop draws pos signals position_size capital trades equity).1.2
      (trade_loop draws pos signals position_size capital trades equity).2.
Proof.
  intros Hps Hall. induction Hall as [|signal rest Ht _ IH];
    intros pos capital trades equity Hb; [exact Hb |].
  cbn [trade_loop].
  pose proof (balanced_step draws pos signal position_size initial capital trades
                equity Hps Ht Hb) as Hstep.
  destruct (_execute_trade draws pos signal capital position_size) as [[trade|] pos'].
  - apply IH. by apply Hstep.
  - by apply IH.
Qed.

Lemma drawdown_loop_range values :
  Forall (fun value => 0 <= value) values ->
  forall peak max_dd,
    0 < peak -> 0 <= max_dd <= 100 ->
    exists m, drawdown_loop values peak max_dd = Py.Return m /\ 0 <= m <= 100.
Proof.
  induction 1 as [|value rest Hv _ IH]; intros peak max_dd Hp Hm.
  { by exists max_dd. }
  cbn [drawdown_loop].
  set (peak' := if Py.Qlt_bool peak value then value else peak).
  assert (Hpeak : 0 < peak' /\ value <= peak').
  { unfold peak'. cmp_cases; lra. }
  destruct Hpeak as [Hp' Hle].
  unfold Py.truediv.
  assert (Hz : Qeq_bool peak' 0 = false) by (apply Qeq_bool_false; lra).
  rewrite Hz. simpl.
  assert (Hr : 0 <= (peak' - value) / peak' <= 1).
  { split; [apply Qle_shift_div_l | apply Qle_shift_div_r]; lra. }
  apply IH; [exact Hp' |]. cmp_cases; lra.
Qed.

Lemma partition_outcomes trades :
  Forall sound trades ->
  let wins := List.filter (fun t => String.eqb (outcome t) "win") trades in
  let losses := List.filter (fun t => String.eqb (outcome t) "loss") trades in
  (length wins + length losses = length trades)%nat
  /\ sum_pnl wins + sum_pnl losses == sum_pnl trades
  /\ 0 <= sum_pnl wins
  /\ sum_pnl losses <= 0.
Proof.
  induction 1 as [|t l Ht _ IH]; simpl.
  { unfold sum_pnl. simpl. repeat split; lra. }
  destruct IH as (Hlen & Hsum & Hw & Hl).
  destruct Ht as [[Ho Hp] | [Ho Hp]]; rewrite Ho; simpl;
    rewrite !sum_pnl_cons; repeat split; try lia; try lra.
  all: rewrite <- Hsum; ring.
Qed.

Lemma expectancy_is_mean (W L : Z) (GP GL : Q) :
  (0 <= W)%Z -> (0 <= L)%Z -> (0 < W + L)%Z ->
  (W = 0%Z -> GP == 0) -> (L = 0%Z -> GL == 0) ->
  let rate := inject_Z W / inject_Z (W + L) * 100 in
  let avg_win := if (0 <? W)%Z then GP / inject_Z W else 0 in
  let avg_loss := if (0 <? L)%Z then GL / inject_Z L else 0 in
  (rate / 100 * avg_win - (100 - rate) / 100 * avg_loss) * inject_Z (W + L)
  == GP - GL.
Proof.
  intros HW HL HT HGP HGL rate avg_win avg_loss. subst rate avg_win avg_loss.
  rewrite inject_Z_plus.
  assert (Hw : 0 <= inject_Z W) by (change 0 with (inject_Z 0); by rewrite <- Zle_Qle).
  assert (Hl : 0 <= inject_Z L) by (change 0 with (inject_Z 0); by rewrite <- Zle_Qle).
  assert (Ht : 0 < inject_Z W + inject_Z L).
  { rewrite <- inject_Z_plus. change 0 with (inject_Z 0). by rewrite <- Zlt_Qlt. }
  destruct (Z.ltb_spec 0 W) as [Hw0|Hw0]; destruct (Z.ltb_spec 0 L) as [Hl0|Hl0].
  - assert (0 < inject_Z W) by (change 0 with (inject_Z 0); by rewrite <- Zlt_Qlt).
    assert (0 < inject_Z L) by (change 0 with (inject_Z 0); by rewrite <- Zlt_Qlt).
    field. repeat split; lra.
  - assert (L = 0%Z) as -> by lia. rewrite (HGL eq_refl).
    assert (0 < inject_Z W) by (change 0 with (inject_Z 0); by rewrite <- Zlt_Qlt).
    change (inject_Z 0) with 0 in *. field. repeat split; lra.
  - assert (W = 0%Z) as -> by lia. rewrite (HGP eq_refl).
    assert (0 < inject_Z L) by (change 0 with (inject_Z 0); by rewrite <- Zlt_Qlt).
    change (inject_Z 0) with 0 in *. field. repeat split; lra.
  - lia.
Qed.

Lemma last_nonempty {A : Type} (x : A) (l : list A) (d d' : A) :
  List.last (x :: l) d = List.last (x :: l) d'.
Proof.
  revert x. induction l as [|y l IH]; intros x; [done |].
  change (List.last (y :: l) d = List.last (y :: l) d'). apply IH.
Qed.

Lemma trade_loop_length draws position_size signals :
  forall pos capital trades equity,
    (length (trade_loop draws pos signals position_size capital trades equity).1.1
     <= length trades + length signals)%nat.
Proof.
  induction signals as [|signal rest IH]; intros pos capital trades equity.
  { simpl. lia. }
  cbn [trade_loop].
  destruct (_execute_trade draws pos signal capital position_size) as [[trade|] pos'].
  - etransitivity; [apply IH |]. rewrite length_app. simpl. lia.
  - etransitivity; [apply IH |]. simpl. lia.
Qed.

Lemma Qabs_power_le (b c : Q) (n : Z) :
  (0 <= n)%Z -> Qabs b <= c -> Qabs (b ^ n) <= c ^ n.
Proof.
  intros Hn Hb. rewrite <- (Z2Nat.id n Hn). clear Hn.
  pose proof (Qabs_nonneg b) as Hb0.
  induction (Z.to_nat n) as [|k IH].
  { simpl. discriminate. }
  assert (Hk : Z.of_nat (S k) = (1 + Z.of_nat k)%Z) by lia.
  rewrite Hk, !Qpower_plus' by lia. rewrite Qabs_Qmult, !Qpower_1_r.
  pose proof (Qabs_nonneg (b ^ Z.of_nat k)). nra.
Qed.

Lemma float_pow_returns (base : Q) (n : Z) :
  (0 <= n <= 100)%Z -> Qabs base <= 200 ->
  float_pow base n = Py.Return (base ^ n).
Proof.
  intros Hn Hb. unfold float_pow.
  assert (Hlt : Qabs (base ^ n) < Json.float_limit).
  { eapply Qle_lt_trans; [apply Qabs_power_le; [lia | exact Hb] |].
    eapply Qle_lt_trans; [apply (Qpower_le_compat_l 200 n 100); [lia | discriminate] |].
    by vm_compute. }
  assert (Hf : Qle_bool Json.float_limit (Qabs (base ^ n)) = false).
  { apply Qle_bool_false. exact Hlt. }
  by rewrite Hf.
Qed.

Lemma risk_of_ruin_returns (rate avg_win avg_loss : Q) (n : Z) :
  (0 < rate -> 1 <= rate) -> rate <= 100 -> 0 <= avg_win -> (0 <= n <= 100)%Z ->
  exists ruin,
    (if Py.Qlt_bool 0 rate && Py.Qlt_bool 0 avg_loss
     then base ← Py.truediv (1 - (rate / 100 * avg_win / avg_loss - (100 - rate) / 100))
                   (1 + (rate / 100 * avg_win / avg_loss - (100 - rate) / 100));
          power ← float_pow base n;
          mret (power * 100)
     else mret 100) = Py.Return ruin.
Proof.
  intros Hrate Hle Hw Hn.
  destruct (Py.Qlt_bool 0 rate) eqn:Hr; [| by eexists].
  destruct (Py.Qlt_bool 0 avg_loss) eqn:Ha; [| by eexists].
  apply Qlt_bool_true in Hr, Ha. specialize (Hrate Hr). simpl. unfold Py.truediv.
  assert (Hq : 0 <= rate / 100 * avg_win / avg_loss).
  { apply Qle_shift_div_l; [exact Ha |]. div_literals. nra. }
  set (q := rate / 100 * avg_win / avg_loss) in *. clearbody q.
  assert (Hden : 1 # 100 <= 1 + (q - (100 - rate) / 100)) by (div_literals; lra).
  assert (Hk : Qeq_bool (1 + (q - (100 - rate) / 100)) 0 = false).
  { apply Qeq_bool_false. lra. }
  rewrite Hk. cbn [mbind Exc_bind Py.bind].
  rewrite float_pow_returns; [by eexists | exact Hn |].
  apply Qabs_Qle_condition. split.
  - apply Qle_shift_div_l; [lra |]. div_literals. lra.
  - apply Qle_shift_div_r; [lra |]. div_literals. lra.
Qed.

Lemma turnover_nonneg trades : 0 <= turnover trades.
Proof.
  induction trades as [|t l IH]; simpl; [discriminate |].
  pose proof (Qabs_nonneg (pnl t)). lra.
Qed.

Lemma within_margin_of_Qeq (x y scale : Q) :
  x == y -> 0 <= scale -> Qabs (x - y) <= Rounding.margin * scale.
Proof.
  intros H Hs.
  assert (Hz : x - y == 0) by (rewrite H; ring).
  rewrite Hz. change (Qabs 0) with 0. unfold Rounding.margin. lra.
Qed.

Lemma balanced_in_order initial trades equity capital :
  0 <= initial -> balanced initial trades equity capital ->
  in_order initial trades equity.
Proof.
  intros Hi (Hc & Hlast & Hhd & Hall & Hlen & Hsum & Hsound).
  split; [exact Hhd |]. split; [exact Hall |]. split; [exact Hlen |].
  split; [exact Hsound |].
  rewrite Hlast. apply within_margin_of_Qeq; [exact Hsum |].
  pose proof (turnover_nonneg trades). lra.
Qed.

Lemma _calculate_metrics_balanced initial trades equity capital :
  0 < initial -> trades <> [] -> (length trades <= 100)%nat ->
  balanced initial trades equity capital ->
  exists m,
    _calculate_metrics sqrt trades equity initial = Py.Return m
    /\ (m_winning_trades m + m_losing_trades m = Z.of_nat (length trades))%Z
    /\ 0 <= m_win_rate m <= 100
    /\ 0 <= m_max_drawdown m <= 100
    /\ m_expectancy m * inject_Z (Z.of_nat (length trades)) == sum_pnl trades
    /\ (m_losing_trades m = 0%Z -> m_profit_factor m == 0)
    /\ m_total_return m == (capital - initial) / initial * 100.
Proof.
  intros Hi Hne Hshort (Hc & Hlast & Hhd & Hall & Hlen & Hsum & Hsound).
  destruct (partition_outcomes trades Hsound) as (Hpart & Hsplit & Hwins & Hlosses).
  cbv zeta in Hpart, Hsplit, Hwins, Hlosses.
  unfold _calculate_metrics.
  assert (Hlen0 : (length trades =? 0)%nat = false).
  { apply Nat.eqb_neq. by destruct trades. }
  rewrite Hlen0.
  set (wins := List.filter (fun t => String.eqb (outcome t) "win") trades) in *.
  set (losses := List.filter (fun t => String.eqb (outcome t) "loss") trades) in *.
  set (W := Z.of_nat (length wins)).
  set (L := Z.of_nat (length losses)).
  assert (HT : Z.of_nat (length trades) = (W + L)%Z) by (unfold W, L; lia).
  rewrite HT.
  assert (HT0 : (0 <? W + L)%Z = true).
  { apply Z.ltb_lt. destruct trades; [done | simpl in HT; lia]. }
  rewrite HT0.
  set (GP := match wins with [] => 0 | _ => sum_pnl wins end).
  set (GL := match losses with [] => 0 | _ => Py.abs (sum_pnl losses) end).
  assert (HGP : GP == sum_pnl wins /\ 0 <= GP /\ (W = 0%Z -> GP == 0)).
  { unfold GP, W. destruct wins; [unfold sum_pnl; simpl | simpl length];
      repeat split; try lra; try lia; try reflexivity. }
  assert (HGL : GL == - sum_pnl losses /\ 0 <= GL /\ (L = 0%Z -> GL == 0)).
  { unfold GL, L, Py.abs. destruct losses as [|t l] eqn:El.
    - unfold sum_pnl. simpl. repeat split; lra.
    - rewrite <- El in *. rewrite Qabs_neg by exact Hlosses.
      repeat split; try lra. rewrite El. simpl length. lia. }
  destruct HGP as (HGP & HGP0 & HGPW). destruct HGL as (HGL & HGL0 & HGLL).
  clearbody GP GL.
  set (rate := inject_Z W / inject_Z (W + L) * 100).
  set (avg_win := if (0 <? W)%Z then GP / inject_Z W else 0).
  set (avg_loss := if (0 <? L)%Z then GL / inject_Z L else 0).
  assert (HW : (0 <= W)%Z) by (unfold W; lia).
  assert (HL : (0 <= L)%Z) by (unfold L; lia).
  assert (HWL : (0 < W + L)%Z) by (by apply Z.ltb_lt).
  assert (Hqt : 0 < inject_Z (W + L)).
  { change 0 with (inject_Z 0). by rewrite <- Zlt_Qlt. }
  assert (Hqw : 0 <= inject_Z W <= inject_Z (W + L)).
  { split; [change 0 with (inject_Z 0) |]; rewrite <- Zle_Qle; lia. }
  assert (Hrate : 0 <= rate <= 100).
  { unfold rate.
    assert (0 <= inject_Z W / inject_Z (W + L) <= 1); [| lra].
    split; [apply Qle_shift_div_l | apply Qle_shift_div_r]; lra. }
  assert (Havg_win : 0 <= avg_win).
  { unfold avg_win. destruct (Z.ltb_spec 0 W) as [Hw|Hw]; [| lra].
    apply Qle_shift_div_l; [| lra].
    change 0 with (inject_Z 0). by rewrite <- Zlt_Qlt. }
  pose proof (expectancy_is_mean W L GP GL HW HL HWL HGPW HGLL) as Hexp.
  cbv zeta in Hexp. fold rate avg_win avg_loss in Hexp.
  destruct equity as [|first rest]; [discriminate Hlen |].
  simpl in Hhd. subst first.
  destruct (drawdown_loop_range (initial :: rest) Hall initial 0 Hi) as (dd & Hdd & Hddr);
    [lra |].
  cbv beta iota. rewrite Hdd.
  cbn [mbind Exc_bind Py.bind].
  assert (Hiz : forall x, Py.truediv x initial = Py.Return (x / initial)).
  { intros x. unfold Py.truediv.
    assert (Hz : Qeq_bool initial 0 = false) by (apply Qeq_bool_false; lra).
    by rewrite Hz. }
  rewrite Hiz. cbn [mbind Exc_bind Py.bind].
  assert (Hrate1 : 0 < rate -> 1 <= rate).
  { intros Hpos. unfold rate in Hpos |- *.
    assert (Hw1 : (1 <= W)%Z).
    { destruct (Z.eq_dec W 0%Z) as [Hw0|Hw0]; [| lia]. exfalso. revert Hpos.
      rewrite Hw0. apply Qle_not_lt. change (inject_Z 0) with 0.
      assert (Hz : 0 / inject_Z (0 + L) * 100 == 0) by (unfold Qdiv; ring).
      rewrite Hz. discriminate. }
    assert (Hq1 : 1 <= inject_Z W).
    { change 1 with (inject_Z 1). by rewrite <- Zle_Qle. }
    assert (Hq100 : inject_Z (W + L) <= 100).
    { change 100 with (inject_Z 100). rewrite <- Zle_Qle. lia. }
    assert ((1 # 100) <= inject_Z W / inject_Z (W + L)); [| lra].
    apply Qle_shift_div_l; [exact Hqt | lra]. }
  assert (Hruin : exists ruin,
    (if Py.Qlt_bool 0 rate && Py.Qlt_bool 0 avg_loss
     then base ← Py.truediv (1 - (rate / 100 * avg_win / avg_loss - (100 - rate) / 100))
                   (1 + (rate / 100 * avg_win / avg_loss - (100 - rate) / 100));
          power ← float_pow base (W + L);
          mret (power * 100)
     else mret 100) = Py.Return ruin).
  { apply risk_of_ruin_returns; [exact Hrate1 | apply Hrate | exact Havg_win | lia]. }
  destruct Hruin as [ruin ->]. cbn [mbind Exc_bind Py.bind mret Exc_ret].
  eexists. split; [reflexivity |].
  cbn [m_winning_trades m_losing_trades m_win_rate m_max_drawdown m_expectancy
       m_profit_factor m_total_return].
  split; [lia |]. split; [exact Hrate |]. split; [exact Hddr |].
  split; [rewrite Hexp, HGP, HGL, <- Hsplit; ring |].
  split.
  - intros HL0.
    assert (Hf : Py.Qlt_bool 0 GL = false) by (apply Qlt_bool_false; rewrite (HGLL HL0); lra).
    rewrite Hf. reflexivity.
  - simpl in Hlast. rewrite <- Hlast.
    rewrite (last_nonempty initial rest 0 initial). reflexivity.
Qed.

(** X30. The books of [run_backtest] for a backtest of ordinary size: an
    initial capital from 1 to a billion, a position size from 0.001 to
    0.99, and from one to a hundred signals with prices of ordinary size,
    targets that do not lie on the losing side and rewards of at most a
    hundred times the risk. Whatever the draws and whatever [np.sqrt]
    returns, the call does not raise; the equity curve starts at the
    initial capital, has one point per trade after it and never falls
    below zero; no win loses and no loss gains; the winning and the losing
    trades add up to the total; the win rate and the maximum drawdown lie
    in [0, 100]; and a backtest without a losing trade reports a profit
    factor of 0. Up to the margin of the floating-point sums, the final
    equity is the initial capital plus the results of the trades, the
    expectancy times the number of trades is the final equity less the
    initial capital, and the total return is that difference in percent of
    the initial capital. *)
Theorem backtest_books_balance now draws strategy_name signals initial_capital
    position_size :
  let capital := default 10000 initial_capital in
  let size := default 0.1 position_size in
  1 <= capital <= 1000000000 -> 0.001 <= size <= 0.99 ->
  Forall ordinary_reward signals ->
  signals <> [] -> (length signals <= 100)%nat ->
  exists result,
    run_backtest sqrt now draws strategy_name signals initial_capital position_size
    = Py.Return result
    /\ in_order capital (trades result) (equity_curve result)
    /\ total_trades result = Z.of_nat (length (trades result))
    /\ (exists w l e,
          winning_trades result = Some w
          /\ losing_trades result = Some l
          /\ expectancy result = Some e
          /\ (w + l)%Z = total_trades result
          /\ Qabs (e * inject_Z (total_trades result)
                   - (List.last (equity_curve result) capital - capital))
             <= Rounding.margin * (capital + turnover (trades result))
          /\ (l = 0%Z -> profit_factor result == 0))
    /\ 0 <= win_rate result <= 100
    /\ 0 <= max_drawdown result <= 100
    /\ Rounding.close (total_return result)
         ((List.last (equity_curve result) capital - capital) / capital * 100).
Proof.
  intros capital size Hc Hs Hall Hne Hshort. unfold run_backtest. fold capital size.
  assert (Hc0 : 0 < capital) by lra.
  assert (Hs1 : 0 < size <= 1) by lra.
  assert (Htargets : Forall (fun signal => target_on_winning_side signal = true) signals).
  { eapply Forall_impl; [exact Hall |]. by intros signal (Ht & _). }
  assert (Hlen : (length signals =? 0)%nat = false).
  { apply Nat.eqb_neq. by destruct signals. }
  rewrite Hlen.
  assert (Hstart : balanced capital [] [capital] capital).
  { unfold balanced, sum_pnl. simpl.
    repeat split; try lra; try done. apply Forall_singleton. lra. }
  pose proof (trade_loop_balanced draws size capital signals Hs1 Htargets 0 capital []
                [capital] Hstart) as Hb.
  pose proof (trade_loop_length draws size signals 0 capital [] [capital]) as Hcount.
  destruct (trade_loop draws 0 signals size capital [] [capital])
    as [[trades equity] final]. simpl in Hb, Hcount.
  assert (Hfinal : List.last equity capital = final) by apply Hb.
  pose proof (balanced_in_order capital trades equity final (Qlt_le_weak _ _ Hc0) Hb)
    as Horder.
  pose proof (turnover_nonneg trades) as Hturn.
  assert (Hsum : final == capital + sum_pnl trades) by apply Hb.
  destruct trades as [|t trades].
  - unfold _calculate_metrics. cbn [length Nat.eqb mbind Exc_bind Py.bind mret Exc_ret].
    eexists. split; [reflexivity |].
    cbn [BacktestEngine.trades BacktestEngine.equity_curve total_trades
         winning_trades losing_trades expectancy win_rate max_drawdown
         total_return profit_factor _empty_metrics m_winning_trades m_losing_trades
         m_win_rate m_profit_factor m_max_drawdown m_total_return m_expectancy
         length].
    rewrite Hfinal.
    split; [exact Horder |]. split; [reflexivity |].
    unfold sum_pnl in Hsum. cbn [fold_left] in Hsum.
    split.
    { exists 0%Z, 0%Z, 0.
      split; [reflexivity |]. split; [reflexivity |]. split; [reflexivity |].
      split; [reflexivity |]. split; [| reflexivity].
      apply within_margin_of_Qeq; [rewrite Hsum; change (inject_Z (Z.of_nat 0)) with 0; ring
                                  | lra]. }
    split; [lra |]. split; [lra |].
    apply close_of_Qeq. rewrite Hsum. field. lra.
  - destruct (_calculate_metrics_balanced capital (t :: trades) equity final Hc0)
      as (m & Hm & Hwl & Hrate & Hdd & Hexp & Hpf & Hret); [done | lia | exact Hb |].
    rewrite Hm. cbn [mbind Exc_bind Py.bind mret Exc_ret].
    eexists. split; [reflexivity |].
    cbn [BacktestEngine.trades BacktestEngine.equity_curve total_trades
         winning_trades losing_trades expectancy win_rate max_drawdown
         total_return profit_factor].
    rewrite Hfinal.
    split; [exact Horder |]. split; [reflexivity |].
    split.
    { exists (m_winning_trades m), (m_losing_trades m), (m_expectancy m).
      split; [reflexivity |]. split; [reflexivity |]. split; [reflexivity |].
      split; [exact Hwl |]. split; [| exact Hpf].
      apply within_margin_of_Qeq; [rewrite Hexp, Hsum; ring | lra]. }
    split; [exact Hrate |]. split; [exact Hdd |].
    by apply close_of_Qeq.
Qed.

End BacktestBooks.

Lemma example_backtest_books_balance :
  exists result,
    BacktestEngine.run_backtest ConfidenceInterval.sqrt_3_decimals Examples.noon
      BacktestExamples.loss_then_win "Test Strategy"
      [BacktestExamples.eurusd_buy; BacktestExamples.btc_sell] None None
    = Py.Return result
    /\ 0 <= BacktestEngine.max_drawdown result <= 100.
Proof.
  destruct (backtest_books_balance ConfidenceInterval.sqrt_3_decimals Examples.noon BacktestExamples.loss_then_win
              "Test Strategy" [BacktestExamples.eurusd_buy; BacktestExamples.btc_sell]
              None None) as (result & Hr & _ & _ & _ & _ & Hdd & _).
  - simpl. lra.
  - simpl. lra.
  - repeat constructor; by vm_compute.
  - discriminate.
  - simpl. lia.
  - exists result. split; [exact Hr | exact Hdd].
Defined.
